(** * SSFD: seven-segment, four-digit display driver

    A shallow embedding of [SSFD.h] / [SSFD.cpp] (class [SevenSegment]) and
    the properties of its renderers, multiplex cycle and error reporting.

    Conventions of the embedding:
    - [uint8_t], [uint16_t], [int8_t] and [unsigned long] values are [Z];
      every narrowing the source performs is written out with [mod];
    - the instance fields keep their C++ names; the micro-controller state
      the code touches (Timer1 registers, the global interrupt flag) lives
      in a record of its own, next to a chronological log of the effects
      that leave the object (pin writes, delays, [cli]/[sei], stores to the
      volatile pattern buffer);
    - [millis()] is an input: operations that read the wall clock take the
      value read as an argument;
    - [float] is IEEE-754 binary32, taken from [SpecFloat]. *)

From Stdlib Require Import ZArith List Bool Lia Ascii String SpecFloat.
From stdpp Require Import base list relations.
Import ListNotations.

Local Open Scope Z_scope.

(** ** Constants of [SSFD.h] *)

Definition NUM_DIGITS : Z := 4.
Definition NUM_SEGMENTS : Z := 8.
Definition MAX_PIN : Z := 53.
Definition MAX_VALUE : Z := 9999.

Inductive Error : Set :=
| OK
| NULL_POINTER
| INVALID_PIN
| TIMER_INIT_FAILED
| NOT_INITIALIZED
| INVALID_ARGUMENT.

(** ** Segment pattern table *)

(** Reads a binary literal, most significant bit first, as the source writes
    them ([0b11111100]). *)
Fixpoint bin_acc (s : string) (acc : Z) : Z :=
  match s with
  | EmptyString => acc
  | String c r => bin_acc r (2 * acc + (if Ascii.eqb c "1"%char then 1 else 0))
  end.

Definition bin (s : string) : Z := bin_acc s 0.

(** Bit layout: 7=a, 6=b, 5=c, 4=d, 3=e, 2=f, 1=g, 0=dp. *)
Definition SEGMENT_PATTERNS : list Z := Eval cbv in
  [ bin "11111100"; (* 0 *)
    bin "01100000"; (* 1 *)
    bin "11011010"; (* 2 *)
    bin "11110010"; (* 3 *)
    bin "01100110"; (* 4 *)
    bin "10110110"; (* 5 *)
    bin "10111110"; (* 6 *)
    bin "11100000"; (* 7 *)
    bin "11111110"; (* 8 *)
    bin "11110110"; (* 9 *)
    bin "00000000"; (* 10: BLANK *)
    bin "00000001"; (* 11: dp only *)
    bin "11101110"; (* 12: A *)
    bin "00111110"; (* 13: b *)
    bin "10011100"; (* 14: C *)
    bin "01111010"; (* 15: d *)
    bin "10011110"; (* 16: E *)
    bin "10001110"; (* 17: F *)
    bin "10111100"; (* 18: G *)
    bin "01101110"; (* 19: H *)
    bin "01100000"; (* 20: I *)
    bin "01111000"; (* 21: J *)
    bin "00001110"; (* 22: K *)
    bin "00011100"; (* 23: L *)
    bin "10101000"; (* 24: M *)
    bin "00101010"; (* 25: n *)
    bin "11111100"; (* 26: O *)
    bin "11001110"; (* 27: P *)
    bin "11110110"; (* 28: Q *)
    bin "00001010"; (* 29: r *)
    bin "10110110"; (* 30: S *)
    bin "00011110"; (* 31: T *)
    bin "01111100"; (* 32: U *)
    bin "01110000"; (* 33: V *)
    bin "01010100"; (* 34: W *)
    bin "01001110"; (* 35: X *)
    bin "01110110"; (* 36: Y *)
    bin "11011010"; (* 37: Z *)
    bin "00000000"; (* 38: SPACE *)
    bin "00000010"; (* 39: dash/minus *)
    bin "11000000"  (* 40: equals *)
  ].

(** [pgm_read_byte(&table[i])].  Every index the driver computes is inside
    the table (see [getPattern_index_in_table] and [extract_digits_range]);
    the default only makes the function total. *)
Definition pgm_read_byte (table : list Z) (i : Z) : Z :=
  default 0 (table !! Z.to_nat i).

Definition char_code (c : ascii) : Z := Z.of_N (N_of_ascii c).

Definition between (lo hi c : ascii) : bool :=
  (char_code lo <=? char_code c) && (char_code c <=? char_code hi).

(** The table index [getPattern] selects for a character.  A [char] above
    127 is negative on AVR and a code above 127 here; both miss every
    range of the chain and keep index 10. *)
Definition getPattern_index (c : ascii) : Z :=
  let index :=
    if between "0" "9" c then char_code c - char_code "0"
    else if between "A" "Z" c then 12 + (char_code c - char_code "A")
    else if between "a" "z" c then 12 + (char_code c - char_code "a")
    else if Ascii.eqb c " " then 38
    else if Ascii.eqb c "-" then 39
    else if Ascii.eqb c "=" then 40
    else if Ascii.eqb c "." then 11
    else 10 in
  if index >=? Z.of_nat (length SEGMENT_PATTERNS) then 10 else index.

Definition getPattern (c : ascii) : Z :=
  pgm_read_byte SEGMENT_PATTERNS (getPattern_index c).

(** ** Machine state *)

(** Effects that leave the object, in program order. *)
Inductive event : Set :=
| EvPinMode (pin : Z)                       (* pinMode(pin, OUTPUT) *)
| EvDigitalWrite (pin : Z) (level : bool)   (* digitalWrite(pin, HIGH/LOW) *)
| EvDelay (ms : Z)                          (* delay(ms) *)
| EvCli                                     (* cli() *)
| EvSei                                     (* sei() *)
| EvStore (i : nat) (v : Z).                (* _displayPatterns[i] = v *)

Record AVR : Type := mkAVR {
  TCCR1A : Z;
  TCCR1B : Z;
  TCNT1 : Z;
  OCR1A : Z;
  TIMSK1 : Z;
  SREG_I : bool;            (* global interrupt enable *)
  io_log : list event
}.

(** A PROGMEM (or RAM) byte array is known by what each offset reads;
    [None] is the null pointer. *)
Definition byte_array : Type := option (nat -> Z).

Record SevenSegment : Type := mkSevenSegment {
  _isrActive : bool;
  _segmentPins : byte_array;
  _digitPins : byte_array;
  _displayPatterns : list Z;
  _leadingZeros : bool;
  _currentDigit : Z;
  _refreshIntervalMs : Z;
  _lastRefreshTime : Z;
  _blinkEnabled : bool;
  _blinkStateOn : bool;
  _blinkInterval : Z;
  _blinkLastToggle : Z;
  _lastError : Error
}.

Record World : Type := mkWorld {
  dev : SevenSegment;
  mcu : AVR
}.

(** The pattern buffer is [uint8_t _displayPatterns[NUM_DIGITS]]. *)
Definition wf (w : World) : Prop :=
  length (_displayPatterns (dev w)) = 4%nat.

(** *** Field updates *)

Definition with_display (d : list Z) (s : SevenSegment) : SevenSegment :=
  mkSevenSegment (_isrActive s) (_segmentPins s) (_digitPins s) d
    (_leadingZeros s) (_currentDigit s) (_refreshIntervalMs s)
    (_lastRefreshTime s) (_blinkEnabled s) (_blinkStateOn s)
    (_blinkInterval s) (_blinkLastToggle s) (_lastError s).

Definition with_isrActive (b : bool) (s : SevenSegment) : SevenSegment :=
  mkSevenSegment b (_segmentPins s) (_digitPins s) (_displayPatterns s)
    (_leadingZeros s) (_currentDigit s) (_refreshIntervalMs s)
    (_lastRefreshTime s) (_blinkEnabled s) (_blinkStateOn s)
    (_blinkInterval s) (_blinkLastToggle s) (_lastError s).

Definition with_leadingZeros (b : bool) (s : SevenSegment) : SevenSegment :=
  mkSevenSegment (_isrActive s) (_segmentPins s) (_digitPins s)
    (_displayPatterns s) b (_currentDigit s) (_refreshIntervalMs s)
    (_lastRefreshTime s) (_blinkEnabled s) (_blinkStateOn s)
    (_blinkInterval s) (_blinkLastToggle s) (_lastError s).

Definition with_currentDigit (c : Z) (s : SevenSegment) : SevenSegment :=
  mkSevenSegment (_isrActive s) (_segmentPins s) (_digitPins s)
    (_displayPatterns s) (_leadingZeros s) c (_refreshIntervalMs s)
    (_lastRefreshTime s) (_blinkEnabled s) (_blinkStateOn s)
    (_blinkInterval s) (_blinkLastToggle s) (_lastError s).

Definition with_refreshIntervalMs (ms : Z) (s : SevenSegment) : SevenSegment :=
  mkSevenSegment (_isrActive s) (_segmentPins s) (_digitPins s)
    (_displayPatterns s) (_leadingZeros s) (_currentDigit s) ms
    (_lastRefreshTime s) (_blinkEnabled s) (_blinkStateOn s)
    (_blinkInterval s) (_blinkLastToggle s) (_lastError s).

Definition with_blink (enabled stateOn : bool) (interval lastToggle : Z)
    (s : SevenSegment) : SevenSegment :=
  mkSevenSegment (_isrActive s) (_segmentPins s) (_digitPins s)
    (_displayPatterns s) (_leadingZeros s) (_currentDigit s)
    (_refreshIntervalMs s) (_lastRefreshTime s) enabled stateOn
    interval lastToggle (_lastError s).

Definition with_lastError (e : Error) (s : SevenSegment) : SevenSegment :=
  mkSevenSegment (_isrActive s) (_segmentPins s) (_digitPins s)
    (_displayPatterns s) (_leadingZeros s) (_currentDigit s)
    (_refreshIntervalMs s) (_lastRefreshTime s) (_blinkEnabled s)
    (_blinkStateOn s) (_blinkInterval s) (_blinkLastToggle s) e.

Definition on_dev (f : SevenSegment -> SevenSegment) (w : World) : World :=
  mkWorld (f (dev w)) (mcu w).

Definition on_mcu (f : AVR -> AVR) (w : World) : World :=
  mkWorld (dev w) (f (mcu w)).

Definition with_I (b : bool) (m : AVR) : AVR :=
  mkAVR (TCCR1A m) (TCCR1B m) (TCNT1 m) (OCR1A m) (TIMSK1 m) b (io_log m).

Definition with_TIMSK1 (v : Z) (m : AVR) : AVR :=
  mkAVR (TCCR1A m) (TCCR1B m) (TCNT1 m) (OCR1A m) v (SREG_I m) (io_log m).

Definition with_timer1 (a b cnt ocr : Z) (m : AVR) : AVR :=
  mkAVR a b cnt ocr (TIMSK1 m) (SREG_I m) (io_log m).

Definition log_event (e : event) (m : AVR) : AVR :=
  mkAVR (TCCR1A m) (TCCR1B m) (TCNT1 m) (OCR1A m) (TIMSK1 m) (SREG_I m)
    (io_log m ++ [e]).

(** *** Primitive effects *)

Definition emit (e : event) : World -> World := on_mcu (log_event e).

Definition cli (w : World) : World := emit EvCli (on_mcu (with_I false) w).
Definition sei (w : World) : World := emit EvSei (on_mcu (with_I true) w).

Definition pinMode_OUTPUT (pin : Z) : World -> World := emit (EvPinMode pin).
Definition digitalWrite (pin : Z) (level : bool) : World -> World :=
  emit (EvDigitalWrite pin level).
Definition delay (ms : Z) : World -> World := emit (EvDelay ms).

(** [_displayPatterns[i] = v]: a single-byte store to the volatile buffer. *)
Definition store_pattern (i : nat) (v : Z) (w : World) : World :=
  emit (EvStore i v)
    (on_dev (fun s => with_display (<[i := v]> (_displayPatterns s)) s) w).

(** [for (i = 0; i < n; i++) body], with no early exit. *)
Definition for_up {S : Type} (n : nat) (body : nat -> S -> S) (s : S) : S :=
  fold_left (fun acc i => body i acc) (seq 0 n) s.

(** ** Constructor *)

Definition SevenSegment_new (segmentPins digitPins : byte_array) (m : AVR)
    : World :=
  mkWorld
    (mkSevenSegment false segmentPins digitPins
       (replicate (Z.to_nat NUM_DIGITS) 0)  (* memset(_displayPatterns, 0, 4) *)
       true 0 3 0 false true 500 0 OK)
    m.

(** ** setNumber *)

(** The digit extraction loop, [i] from 3 down to 0. *)
Definition extract_digits (value : Z) : list Z :=
  fst (fold_left
         (fun '(digits, temp) i => (<[i := temp mod 10]> digits, temp / 10))
         [3; 2; 1; 0]%nat
         (replicate 4 0, value)).

Definition BLANK_INDEX : Z := 10.
Definition DP_INDEX : Z := 11.

Definition setNumber (value dpPosition : Z) (w : World) : World :=
  let value := if value >? MAX_VALUE then MAX_VALUE else value in
  let dpPosition :=
    if (dpPosition <? -1) || (dpPosition >? 3) then -1 else dpPosition in
  let digits := extract_digits value in
  let w := cli w in
  let body (i : nat) (st : bool * World) : bool * World :=
    let '(isLeading, w) := st in
    let digit := default 0 (digits !! i) in
    let pattern := pgm_read_byte SEGMENT_PATTERNS digit in
    let '(pattern, isLeading) :=
      if negb (_leadingZeros (dev w)) && (digit =? 0) && isLeading
         && (Z.of_nat i <? NUM_DIGITS - 1)
      then (pgm_read_byte SEGMENT_PATTERNS BLANK_INDEX, isLeading)
      else if negb (digit =? 0) || negb isLeading
              || (Z.of_nat i =? NUM_DIGITS - 1)
      then (pattern, false)
      else (pattern, isLeading) in
    let pattern :=
      if (Z.of_nat i =? dpPosition) && (dpPosition >=? 0)
      then Z.lor pattern (pgm_read_byte SEGMENT_PATTERNS DP_INDEX)
      else pattern in
    (isLeading, store_pattern i pattern w) in
  let '(_, w) := for_up (Z.to_nat NUM_DIGITS) body (true, w) in
  sei w.

Definition setLeadingZeros (enabled : bool) : World -> World :=
  on_dev (with_leadingZeros enabled).

Definition getLastError (w : World) : Error := _lastError (dev w).
Definition isInitialized (w : World) : bool := _isrActive (dev w).
Definition isBlinking (w : World) : bool := _blinkEnabled (dev w).


(** The four pattern slots, slot 0 leftmost. *)
Definition display (w : World) : list Z := _displayPatterns (dev w).

(** ** Binary32 arithmetic used by [setFloat]

    On the ATmega328P both [float] and [double] are IEEE-754 binary32, so
    [round]/[pow] on [double] and [roundf] on [float] work on the same
    format. *)
Module F32.

Definition prec : Z := 24.
Definition emax : Z := 128.

Definition float : Set := spec_float.

(** [m * 2^e], rounded to nearest even: how a literal is read. *)
Definition of_scaled (m e : Z) : float := binary_normalize prec emax m e false.
Definition of_Z (n : Z) : float := of_scaled n 0.

Definition mul : float -> float -> float := SFmul prec emax.
Definition div : float -> float -> float := SFdiv prec emax.
Definition ltb : float -> float -> bool := SFltb.
Definition leb : float -> float -> bool := SFleb.
Definition fabs : float -> float := SFabs.

Definition isnan (x : float) : bool :=
  match x with S754_nan => true | _ => false end.

Definition isinf (x : float) : bool :=
  match x with S754_infinity _ => true | _ => false end.

Definition is_finite (x : float) : bool :=
  match x with S754_zero _ | S754_finite _ _ _ => true | _ => false end.

(** [roundf]: nearest integer, halfway cases away from zero. *)
Definition roundf (x : float) : float :=
  match x with
  | S754_finite s m e =>
      if 0 <=? e then x
      else
        let d := 2 ^ (- e) in
        let q := Z.pos m / d in
        let r := Z.pos m mod d in
        let n := if 2 * r >=? d then q + 1 else q in
        binary_normalize prec emax (cond_Zopp s n) 0 s
  | _ => x
  end.

(** The integer part, rounding toward zero. *)
Definition trunc (x : float) : Z :=
  match x with
  | S754_finite s m e =>
      cond_Zopp s (if 0 <=? e then Z.pos m * 2 ^ e else Z.pos m / 2 ^ (- e))
  | _ => 0
  end.

(** [(uint16_t)x] and [(int)x] ([int] has 16 bits on AVR).  C++ defines
    the conversion only when the integer part fits the target type; there
    the two functions return it.  Outside that range the model keeps the
    low 16 bits. *)
Definition to_uint16 (x : float) : Z := trunc x mod 65536.
Definition to_int (x : float) : Z := (trunc x + 32768) mod 65536 - 32768.

(** [pow(10, n)] for the exponents [setFloat] passes (0..3), all exact. *)
Definition pow10 (n : Z) : float := of_Z (10 ^ n).

End F32.

(** ** setText *)

(** [strncpy(dest, src, n)]: [n] characters from [src], NUL-filled if [src]
    is shorter, over the start of [dest]. *)
Definition strncpy (dest : list ascii) (src : string) (n : nat) : list ascii :=
  take n (list_ascii_of_string src ++ replicate n Ascii.zero) ++ drop n dest.

(** [text] is [None] for the null pointer, else the characters before the
    terminating NUL. *)
Definition setText (text : option string) (w : World) : Error * World :=
  match text with
  | None => (NULL_POINTER, w)
  | Some text =>
      (* uint8_t len = strlen(text); *)
      let len := Z.of_nat (String.length text) mod 256 in
      if len >? NUM_DIGITS then (INVALID_ARGUMENT, w)
      else
        let padded :=
          strncpy [" "; " "; " "; " "; Ascii.zero]%char text (Z.to_nat len) in
        let w := cli w in
        let w :=
          for_up (Z.to_nat NUM_DIGITS)
            (fun i w => store_pattern i (getPattern (nth i padded Ascii.zero)) w)
            w in
        (OK, sei w)
  end.

(** ** setFloat *)

Definition setFloat (value : F32.float) (w : World) : Error * World :=
  if F32.isnan value || F32.isinf value then
    let w := snd (setText (Some "Err "%string) w) in
    (INVALID_ARGUMENT, on_dev (with_lastError INVALID_ARGUMENT) w)
  else if F32.ltb value (F32.of_Z 0) then
    let w :=
      if F32.leb value (F32.of_Z (-100)) then
        snd (setText (Some "-999"%string) w)
      else
        let '(numToDisplay, dpPosition) :=
          if F32.ltb (F32.of_Z (-10)) value then
            (F32.to_uint16
               (F32.roundf (F32.mul (F32.fabs value) (F32.of_Z 100))), 1)
          else
            (F32.to_uint16
               (F32.roundf (F32.mul (F32.fabs value) (F32.of_Z 10))), 2) in
        let w := setNumber numToDisplay dpPosition w in
        let w := cli w in
        let w := store_pattern 0 (getPattern "-") w in
        sei w in
    (OK, on_dev (with_lastError OK) w)
  else
    let intPart := F32.to_int value in
    let numIntDigits :=
      if intPart >=? 1000 then 4
      else if intPart >=? 100 then 3
      else if intPart >=? 10 then 2
      else 1 in
    let numDecimals := 4 - numIntDigits in
    let numDecimals := if numDecimals <? 0 then 0 else numDecimals in
    let dpPosition := numIntDigits - 1 in
    let dpPosition := if dpPosition =? 3 then -1 else dpPosition in
    let multiplier := F32.pow10 numDecimals in
    let numToDisplay := F32.to_uint16 (F32.roundf (F32.mul value multiplier)) in
    let numToDisplay := if numToDisplay >? 9999 then 9999 else numToDisplay in
    let w := setNumber numToDisplay dpPosition w in
    (OK, on_dev (with_lastError OK) w).

(** ** setSegments, setHundredths *)

Definition setSegments (patterns : byte_array) (w : World) : World :=
  match patterns with
  | None => w
  | Some p =>
      let w := cli w in
      let w :=
        for_up (Z.to_nat NUM_DIGITS) (fun i w => store_pattern i (p i) w) w in
      sei w
  end.

Definition setHundredths (hundredths dpPosition : Z) (w : World) : World :=
  let hundredths := if hundredths >? 9999 then 9999 else hundredths in
  let dpPosition :=
    if (dpPosition <? -1) || (dpPosition >? 3) then 2 else dpPosition in
  setNumber hundredths dpPosition w.

(** ** Lifecycle *)

Definition isPinValid (pin : Z) : bool := pin <=? MAX_PIN.

(** [pgm_read_byte(&pins[i])].  The pin arrays are dereferenced without a
    null check only by code that runs after a successful [begin]; the
    [None] case makes the function total. *)
Definition pgm_pin (pins : byte_array) (i : Z) : Z :=
  match pins with
  | Some f => f (Z.to_nat i)
  | None => 0
  end.

(** Bit numbers of the ATmega328P Timer1 registers ([avr/io.h]). *)
Definition WGM12 : Z := 3.
Definition CS11 : Z := 1.
Definition CS10 : Z := 0.
Definition OCIE1A : Z := 1.

Definition begin (w : World) : Error * World :=
  match _segmentPins (dev w), _digitPins (dev w) with
  | Some seg, Some dig =>
      (* the two validation loops return at the first invalid pin *)
      if negb (forallb (fun i => isPinValid (seg i))
                 (seq 0 (Z.to_nat NUM_SEGMENTS)))
      then (INVALID_PIN, on_dev (with_lastError INVALID_PIN) w)
      else if negb (forallb (fun i => isPinValid (dig i))
                      (seq 0 (Z.to_nat NUM_DIGITS)))
      then (INVALID_PIN, on_dev (with_lastError INVALID_PIN) w)
      else
        let w :=
          for_up (Z.to_nat NUM_SEGMENTS)
            (fun i w => digitalWrite (seg i) false (pinMode_OUTPUT (seg i) w))
            w in
        let w :=
          for_up (Z.to_nat NUM_DIGITS)
            (fun i w => digitalWrite (dig i) false (pinMode_OUTPUT (dig i) w))
            w in
        let w := cli w in
        let w := on_mcu (with_timer1 0 0 0 499) w in
        let w :=
          on_mcu (fun m =>
                    with_timer1 (TCCR1A m)
                      (Z.lor (TCCR1B m)
                         (Z.lor (Z.lor (Z.shiftl 1 WGM12) (Z.shiftl 1 CS11))
                            (Z.shiftl 1 CS10)))
                      (TCNT1 m) (OCR1A m) m) w in
        let w :=
          on_mcu (fun m => with_TIMSK1 (Z.lor (TIMSK1 m) (Z.shiftl 1 OCIE1A)) m)
            w in
        let w := on_dev (with_isrActive true) w in
        let w := sei w in
        (OK, on_dev (with_lastError OK) w)
  | _, _ => (NULL_POINTER, on_dev (with_lastError NULL_POINTER) w)
  end.

Definition clear (w : World) : World :=
  let blankPattern := pgm_read_byte SEGMENT_PATTERNS BLANK_INDEX in
  let w := cli w in
  let w :=
    for_up (Z.to_nat NUM_DIGITS) (fun i w => store_pattern i blankPattern w) w in
  sei w.

Definition end_ (w : World) : World :=
  let w := cli w in
  let w := on_dev (with_isrActive false) w in
  let w :=
    on_mcu (fun m =>
              with_TIMSK1 (Z.land (TIMSK1 m) (Z.lnot (Z.shiftl 1 OCIE1A))) m)
      w in
  let w := sei w in
  clear w.

(** [refresh()], with [now] the value [millis()] returns; the subtraction
    is on [unsigned long]. *)
Definition refresh (now : Z) (w : World) : World :=
  let s := dev w in
  if _blinkEnabled s then
    if (now - _blinkLastToggle s) mod 2 ^ 32 >=? _blinkInterval s then
      on_dev (with_blink (_blinkEnabled s) (negb (_blinkStateOn s))
                (_blinkInterval s) now) w
    else w
  else w.

(** ** Multiplex cycle *)

Definition multiplex (w : World) : World :=
  let prevDigit := _currentDigit (dev w) in
  let w := digitalWrite (pgm_pin (_digitPins (dev w)) prevDigit) false w in
  let w :=
    on_dev (fun s => with_currentDigit ((_currentDigit s + 1) mod NUM_DIGITS) s)
      w in
  if _blinkEnabled (dev w) && negb (_blinkStateOn (dev w)) then w
  else
    let pattern :=
      default 0 (_displayPatterns (dev w) !! Z.to_nat (_currentDigit (dev w))) in
    let w :=
      for_up (Z.to_nat NUM_SEGMENTS)
        (fun bit w =>
           let pin := pgm_pin (_segmentPins (dev w)) (Z.of_nat bit) in
           if negb (Z.land pattern (Z.shiftl 1 (7 - Z.of_nat bit)) =? 0)
           then digitalWrite pin true w
           else digitalWrite pin false w)
        w in
    digitalWrite (pgm_pin (_digitPins (dev w)) (_currentDigit (dev w))) true w.

(** [ISR(TIMER1_COMPA_vect)]; [_isrInstance] is the one instance. *)
Definition ISR_TIMER1_COMPA (w : World) : World :=
  if _isrActive (dev w) then multiplex w else w.

(** ** testWiring *)

Definition testWiring (delayMs : Z) (w : World) : World :=
  if negb (_isrActive (dev w)) then w
  else
    let w := cli w in
    let w :=
      on_mcu (fun m =>
                with_TIMSK1 (Z.land (TIMSK1 m) (Z.lnot (Z.shiftl 1 OCIE1A))) m)
        w in
    let w :=
      for_up (Z.to_nat NUM_DIGITS)
        (fun d w => digitalWrite (pgm_pin (_digitPins (dev w)) (Z.of_nat d)) true w)
        w in
    let w :=
      for_up (Z.to_nat NUM_SEGMENTS)
        (fun s w =>
           let pin := pgm_pin (_segmentPins (dev w)) (Z.of_nat s) in
           let w := digitalWrite pin true w in
           let w := sei w in
           let w := delay delayMs w in
           let w := cli w in
           digitalWrite pin false w)
        w in
    let w :=
      for_up (Z.to_nat NUM_DIGITS)
        (fun d w => digitalWrite (pgm_pin (_digitPins (dev w)) (Z.of_nat d)) false w)
        w in
    let w :=
      on_mcu (fun m => with_TIMSK1 (Z.lor (TIMSK1 m) (Z.shiftl 1 OCIE1A)) m) w in
    sei w.

(** ** Display modes *)

(** [ms] is a [uint8_t]; the second clamp of the source can never fire. *)
Definition setRefreshInterval (ms : Z) : World -> World :=
  let ms := if ms <? 1 then 1 else ms in
  let ms := if ms >? 255 then 255 else ms in
  on_dev (with_refreshIntervalMs ms).

Definition startBlink (intervalMs now : Z) : World -> World :=
  on_dev (with_blink true true intervalMs now).

Definition stopBlink : World -> World :=
  on_dev (fun s => with_blink false true (_blinkInterval s) (_blinkLastToggle s) s).

(** ** Reading a display back *)

(** The segments a..g of a pattern, and its decimal-point bit (bit 0). *)
Definition glyph_of (p : Z) : Z := Z.land p 0xFE.
Definition dp_set (p : Z) : bool := Z.testbit p 0.

Fixpoint index_of (x : Z) (l : list Z) (i : Z) : option Z :=
  match l with
  | [] => None
  | y :: r => if x =? y then Some i else index_of x r (i + 1)
  end.

(** The digit whose glyph a pattern carries, if it carries one. *)
Definition decode_digit (p : Z) : option Z :=
  index_of (glyph_of p) (take 10 SEGMENT_PATTERNS) 0.

(** The decimal digit of [value] shown in slot [i] (slot 0 is thousands). *)
Definition decimal_digit (value : Z) (i : nat) : Z :=
  value / 10 ^ (3 - Z.of_nat i) mod 10.

(** Slot [i] holds a leading zero of [value]: it is not the last slot and
    every digit up to and including it is zero. *)
Definition leading_zero (value : Z) (i : nat) : bool :=
  (Z.of_nat i <? 3)
  && forallb (fun j => decimal_digit value j =? 0) (seq 0 (S i)).

Definition clamp_value (value : Z) : Z :=
  if value >? MAX_VALUE then MAX_VALUE else value.

Definition clamp_dp (dpPosition : Z) : Z :=
  if (dpPosition <? -1) || (dpPosition >? 3) then -1 else dpPosition.

(** What [setNumber] stores in slot [i], given the [_leadingZeros] flag, the
    clamped value and the clamped decimal-point position. *)
Definition slot_pattern (lz : bool) (value dp : Z) (i : nat) : Z :=
  let glyph :=
    if negb lz && leading_zero value i
    then pgm_read_byte SEGMENT_PATTERNS BLANK_INDEX
    else pgm_read_byte SEGMENT_PATTERNS (decimal_digit value i) in
  if (Z.of_nat i =? dp) && (dp >=? 0)
  then Z.lor glyph (pgm_read_byte SEGMENT_PATTERNS DP_INDEX)
  else glyph.

(** A display shows [value] in full: four slots, each carrying the glyph of
    its decimal digit, the decimal point lit on slot [dp] and nowhere else. *)
Definition shows_digits (value dp : Z) (d : list Z) : Prop :=
  length d = 4%nat
  /\ (forall (i : nat) (p : Z),
        d !! i = Some p -> decode_digit p = Some (decimal_digit value i))
  /\ (forall (i : nat) (p : Z),
        d !! i = Some p -> dp_set p = (Z.of_nat i =? dp)).

(** One critical section that stores all four slots. *)
Definition store_all (ps : nat -> Z) (w : World) : World :=
  sei (store_pattern 3 (ps 3%nat)
         (store_pattern 2 (ps 2%nat)
            (store_pattern 1 (ps 1%nat)
               (store_pattern 0 (ps 0%nat) (cli w))))).

(** ** The public interface as data *)

Inductive renderer : Type :=
| SetNumber (value dpPosition : Z)
| SetFloat (value : F32.float)
| SetText (text : option string)
| SetHundredths (hundredths dpPosition : Z)
| SetSegments (patterns : byte_array).

Definition render (r : renderer) (w : World) : World :=
  match r with
  | SetNumber value dpPosition => setNumber value dpPosition w
  | SetFloat value => snd (setFloat value w)
  | SetText text => snd (setText text w)
  | SetHundredths hundredths dpPosition => setHundredths hundredths dpPosition w
  | SetSegments patterns => setSegments patterns w
  end.

Inductive call : Type :=
| Begin
| End
| Refresh (now : Z)
| Clear
| TestWiring (delayMs : Z)
| Render (r : renderer)
| SetLeadingZeros (enabled : bool)
| SetRefreshInterval (ms : Z)
| StartBlink (intervalMs now : Z)
| StopBlink.

Definition run_call (c : call) (w : World) : World :=
  match c with
  | Begin => snd (begin w)
  | End => end_ w
  | Refresh now => refresh now w
  | Clear => clear w
  | TestWiring delayMs => testWiring delayMs w
  | Render r => render r w
  | SetLeadingZeros enabled => setLeadingZeros enabled w
  | SetRefreshInterval ms => setRefreshInterval ms w
  | StartBlink intervalMs now => startBlink intervalMs now w
  | StopBlink => stopBlink w
  end.

(** What happens to an instance over time: timer ticks, each one run of
    [multiplex], between calls from the application. *)
Inductive activity : Type :=
| Tick
| Call (c : call).

Definition run_activity (a : activity) (w : World) : World :=
  match a with
  | Tick => multiplex w
  | Call c => run_call c w
  end.

Definition run (l : list activity) (w : World) : World :=
  fold_left (fun w a => run_activity a w) l w.

Fixpoint ticks (l : list activity) : Z :=
  match l with
  | [] => 0
  | Tick :: r => 1 + ticks r
  | Call _ :: r => ticks r
  end.

(** ** A renderer call interleaved with the timer interrupt

    The application and the interrupt handler share the pattern buffer.  A
    call is run one logged effect at a time; between two of them the timer
    interrupt may fire whenever the global interrupt flag is set, and then
    runs the handler to completion (the hardware clears the flag on entry
    and restores it on return).  The renderers read nothing the handler
    writes, so the effects of a call do not depend on where the ticks fall
    (see [events_of_render_ISR]). *)

(** The effects a call appends to the log. *)
Definition events_of (f : World -> World) (w : World) : list event :=
  drop (length (io_log (mcu w))) (io_log (mcu (f w))).

(** One logged effect, executed. *)
Definition exec (e : event) : World -> World :=
  match e with
  | EvPinMode pin => pinMode_OUTPUT pin
  | EvDigitalWrite pin level => digitalWrite pin level
  | EvDelay ms => delay ms
  | EvCli => cli
  | EvSei => sei
  | EvStore i v => store_pattern i v
  end.

Definition exec_all (k : list event) (w : World) : World :=
  fold_left (fun w e => exec e w) k w.

(** Per slot: has the call in progress stored to it yet? *)
Definition mark (e : event) (written : list bool) : list bool :=
  match e with
  | EvStore i _ => <[i := true]> written
  | _ => written
  end.

Record config : Type := mkConfig {
  world : World;
  pending : list event;      (* what the call has still to do *)
  written : list bool
}.

Inductive step : config -> config -> Prop :=
| step_app w e k wr :
    step (mkConfig w (e :: k) wr) (mkConfig (exec e w) k (mark e wr))
| step_tick w k wr :
    SREG_I (mcu w) = true ->
    step (mkConfig w k wr) (mkConfig (ISR_TIMER1_COMPA w) k wr).

Definition start (r : renderer) (w : World) : config :=
  mkConfig w (events_of (render r) w) (replicate 4 false).

(** The four slots all predate the call, or all come from it. *)
Definition unmixed (wr : list bool) : Prop :=
  wr = replicate 4 false \/ wr = replicate 4 true.

Definition unmixedb (wr : list bool) : bool :=
  match wr with
  | [false; false; false; false] | [true; true; true; true] => true
  | _ => false
  end.

Definition iflag_after (e : event) (ie : bool) : bool :=
  match e with
  | EvCli => false
  | EvSei => true
  | _ => ie
  end.

(** No point of the remaining run at which a tick may fire has mixed slots. *)
Fixpoint tick_safe (ie : bool) (wr : list bool) (k : list event) : bool :=
  (if ie then unmixedb wr else true)
  && match k with
     | [] => true
     | e :: k' => tick_safe (iflag_after e ie) (mark e wr) k'
     end.

(** The stores of a run of effects, applied to a buffer. *)
Definition replay (k : list event) (d : list Z) : list Z :=
  fold_left (fun d e => match e with EvStore i v => <[i := v]> d | _ => d end)
    k d.

(** The effects of one critical section that stores all four slots. *)
Definition section (ps : nat -> Z) : list event :=
  [EvCli; EvStore 0 (ps 0%nat); EvStore 1 (ps 1%nat); EvStore 2 (ps 2%nat);
   EvStore 3 (ps 3%nat); EvSei].

(** The effects a renderer call can have: none, one critical section over
    all four slots, or such a section followed by one that rewrites slot 0. *)
Definition renderer_shape (k : list event) : Prop :=
  k = []
  \/ (exists ps, k = section ps)
  \/ (exists ps v, k = section ps ++ [EvCli; EvStore 0 v; EvSei]).

(** [f] leaves the micro-controller and the pattern buffer as running the
    effects [k] does. *)
Definition same_effects (f : World -> World) (k : list event) (w : World)
    : Prop :=
  mcu (f w) = mcu (exec_all k w) /\ display (f w) = display (exec_all k w).

(** What every configuration reachable from [start r w] satisfies. *)
Definition inv (r : renderer) (w : World) (c : config) : Prop :=
  tick_safe (SREG_I (mcu (world c))) (written c) (pending c) = true
  /\ (forall i : nat,
        written c !! i = Some false ->
        display (world c) !! i = display w !! i)
  /\ replay (pending c) (display (world c)) = display (render r w).

(** [text] right-padded with spaces to four characters. *)
Definition pad4 (text : string) : list ascii :=
  list_ascii_of_string text
  ++ replicate (4 - String.length text)%nat " "%char.

(** ** A board to evaluate on *)

Definition reset_avr : AVR := mkAVR 0 0 0 0 0 true [].
Definition uno_segmentPins : byte_array :=
  Some (fun i => nth i [2; 3; 4; 5; 6; 7; 8; 9] 0).
Definition uno_digitPins : byte_array :=
  Some (fun i => nth i [10; 11; 12; 13] 0).

(** The instance of the example sketches, before [begin]. *)
Definition sketch : World :=
  SevenSegment_new uno_segmentPins uno_digitPins reset_avr.

(** The same instance after [begin()]. *)
Definition running : World := snd (begin sketch).

(** [setText("HI")] with one tick before it and one after it. *)
Definition ticked_HI : config :=
  mkConfig
    (ISR_TIMER1_COMPA
       (exec_all (events_of (render (SetText (Some "HI"%string))) running)
          (ISR_TIMER1_COMPA running)))
    [] (replicate 4 true).

(** -9.999f *)
Definition minus_9_999 : F32.float :=
  F32.div (F32.of_Z (-9999)) (F32.of_Z 1000).

(** A string of 256 characters. *)
Definition long_text : string :=
  string_of_list_ascii (replicate 256 "A"%char).

(** -12.5f *)
Definition minus_12_5 : F32.float := F32.of_scaled (-25) (-1).

(** ** Critical sections of a call *)

(** A renderer call that stores nothing, or stores the four slots in one
    critical section. *)
Definition one_section (k : list event) : Prop :=
  k = [] \/ exists ps, k = section ps.

(** The path of [setFloat] that stores in two critical sections: a finite
    value below 0 and above -100. *)
Definition two_sections (r : renderer) : bool :=
  match r with
  | SetFloat value =>
      negb (F32.isnan value || F32.isinf value)
      && F32.ltb value (F32.of_Z 0)
      && negb (F32.leb value (F32.of_Z (-100)))
  | _ => false
  end.

(** The interrupt flag after a run of effects. *)
Definition iflag_after_all (k : list event) (ie : bool) : bool :=
  fold_left (fun ie e => iflag_after e ie) k ie.

(** The running board after [setNumber(999)]: it reads 0999. *)
Definition showing_0999 : World := setNumber 999 (-1) running.

(** [setFloat(-12.5f)] called on it and stopped after the [sei] of its inner
    [setNumber], before the [cli] of the section that stores the minus
    sign. *)
Definition between_sections : config :=
  mkConfig (exec_all (section (slot_pattern true 125 2)) showing_0999)
    [EvCli; EvStore 0 (getPattern "-"); EvSei]
    (replicate 4 true).

(** ** Characters *)

(** The lower-case form of an upper-case letter, 32 code points up. *)
Definition to_lower (c : ascii) : ascii := ascii_of_N (N_of_ascii c + 32).

(** The characters [getPattern] has a branch for. *)
Definition supported (c : ascii) : bool :=
  between "0" "9" c || between "A" "Z" c || between "a" "z" c
  || Ascii.eqb c " " || Ascii.eqb c "-" || Ascii.eqb c "=" || Ascii.eqb c ".".

(** ** Pins, as the effect log shows them *)

(** The level a pin was last driven to, as the log records it. *)
Definition drive (pin : Z) (level : option bool) (e : event) : option bool :=
  match e with
  | EvDigitalWrite p b => if p =? pin then Some b else level
  | _ => level
  end.

Definition pin_level (log : list event) (pin : Z) : option bool :=
  fold_left (drive pin) log None.

(** The twelve pins of an instance, segments first. *)
Definition wired_pins (seg dig : nat -> Z) : list Z :=
  map seg (seq 0 8) ++ map dig (seq 0 4).

(** What a lit tick writes for the pattern [pattern]. *)
Definition segment_writes (seg : byte_array) (pattern : Z) : list event :=
  map (fun bit : nat =>
         EvDigitalWrite (pgm_pin seg (Z.of_nat bit))
           (Z.testbit pattern (7 - Z.of_nat bit)))
      (seq 0 8).

(** Blinking, and in the off phase. *)
Definition dark (w : World) : bool :=
  _blinkEnabled (dev w) && negb (_blinkStateOn (dev w)).

Definition next_digit (w : World) : Z :=
  (_currentDigit (dev w) + 1) mod NUM_DIGITS.

(** The pin writes of one [multiplex] call. *)
Definition tick_writes (w : World) : list event :=
  EvDigitalWrite (pgm_pin (_digitPins (dev w)) (_currentDigit (dev w))) false
  :: (if dark w then []
      else segment_writes (_segmentPins (dev w))
             (default 0 (display w !! Z.to_nat (next_digit w)))
           ++ [EvDigitalWrite (pgm_pin (_digitPins (dev w)) (next_digit w)) true]).

(** Logs without a pin write, and logs whose pin writes are all LOW. *)
Definition is_pin_write (e : event) : bool :=
  match e with EvDigitalWrite _ _ => true | _ => false end.

Definition quiet (k : list event) : bool :=
  forallb (fun e => negb (is_pin_write e)) k.

Definition drives_low (e : event) : bool :=
  match e with EvDigitalWrite _ level => negb level | _ => true end.

(** The pin set-up of a successful [begin]. *)
Definition begin_writes (seg dig : nat -> Z) : list event :=
  concat (map (fun p => [EvPinMode p; EvDigitalWrite p false])
            (wired_pins seg dig)).

(** What [testWiring] does for one segment, and for all of them. *)
Definition segment_test (delayMs pin : Z) : list event :=
  [EvDigitalWrite pin true; EvSei; EvDelay delayMs; EvCli;
   EvDigitalWrite pin false].

Definition testWiring_events (seg dig : nat -> Z) (delayMs : Z) : list event :=
  [EvCli]
  ++ map (fun p => EvDigitalWrite p true) (map dig (seq 0 4))
  ++ concat (map (segment_test delayMs) (map seg (seq 0 8)))
  ++ map (fun p => EvDigitalWrite p false) (map dig (seq 0 4))
  ++ [EvSei].

(** The time a log spends in [delay]. *)
Definition total_delay (k : list event) : Z :=
  fold_left (fun acc e => match e with EvDelay ms => acc + ms | _ => acc end)
    k 0.

(** Every digit pin but the cursor's is LOW. *)
Definition others_off (dig : nat -> Z) (w : World) : Prop :=
  forall d : nat,
    (d < 4)%nat -> Z.of_nat d <> _currentDigit (dev w) ->
    pin_level (io_log (mcu w)) (dig d) = Some false.

(** The invariant of a running display: wired as given, cursor on a digit,
    every other digit pin LOW. *)
Definition scanning (seg dig : nat -> Z) (w : World) : Prop :=
  _segmentPins (dev w) = Some seg /\ _digitPins (dev w) = Some dig
  /\ 0 <= _currentDigit (dev w) <= 3
  /\ others_off dig w.

(** An instance with its pattern buffer and stored error code blotted out:
    what is left is its configuration and the multiplexing state. *)
Definition config_of (s : SevenSegment) : SevenSegment :=
  with_display [] (with_lastError OK s).


(** The same world with the refresh interval blotted out. *)
Definition forget_interval : World -> World :=
  on_dev (with_refreshIntervalMs 0).

(** ** The sketch 03_AdvancedFeatures

    The globals and the function-local statics are the fields of one record;
    every [millis()] the sketch reads is an argument, and what goes to
    [Serial] is a log. *)
Module Sketch.

Inductive DisplayMode : Set :=
| MODE_COUNTER
| MODE_TEXT
| MODE_FIXED_POINT
| MODE_DEMO.

Definition mode_code (m : DisplayMode) : Z :=
  match m with
  | MODE_COUNTER => 0
  | MODE_TEXT => 1
  | MODE_FIXED_POINT => 2
  | MODE_DEMO => 3
  end.

(** [(DisplayMode)n] for the values the sketch casts (0..3). *)
Definition mode_of_code (n : Z) : DisplayMode :=
  if n =? 0 then MODE_COUNTER
  else if n =? 1 then MODE_TEXT
  else if n =? 2 then MODE_FIXED_POINT
  else MODE_DEMO.

(** What the sketch sends to [Serial]. *)
Inductive serial_out : Set :=
| Print (s : string)
| Println (s : string)
| PrintlnByte (n : Z).

(** The globals and function-local statics of the sketch, with the display
    instance and its board. *)
Record State : Type := mkState {
  board : World;
  serial : list serial_out;
  currentMode : DisplayMode;
  modeStartTime : Z;
  demoStepTime : Z;
  floatCounter : F32.float;
  lastCounterUpdate : Z;
  step : Z;               (* static uint8_t step, in runDemoMode *)
  textSwitchTime : Z;     (* statics of runTextMode *)
  textIndex : Z;
  fpUpdateTime : Z;       (* statics of runFixedPointMode *)
  hundredths : Z
}.

Definition DEMO_STEP_INTERVAL : Z := 2000.

Definition on_board (f : World -> World) (s : State) : State :=
  mkState (f (board s)) (serial s) (currentMode s) (modeStartTime s)
    (demoStepTime s) (floatCounter s) (lastCounterUpdate s) (step s)
    (textSwitchTime s) (textIndex s) (fpUpdateTime s) (hundredths s).

Definition say (o : serial_out) (s : State) : State :=
  mkState (board s) (serial s ++ [o]) (currentMode s) (modeStartTime s)
    (demoStepTime s) (floatCounter s) (lastCounterUpdate s) (step s)
    (textSwitchTime s) (textIndex s) (fpUpdateTime s) (hundredths s).

Definition with_mode (m : DisplayMode) (t : Z) (s : State) : State :=
  mkState (board s) (serial s) m t
    (demoStepTime s) (floatCounter s) (lastCounterUpdate s) (step s)
    (textSwitchTime s) (textIndex s) (fpUpdateTime s) (hundredths s).

Definition with_demo (t st : Z) (s : State) : State :=
  mkState (board s) (serial s) (currentMode s) (modeStartTime s)
    t (floatCounter s) (lastCounterUpdate s) st
    (textSwitchTime s) (textIndex s) (fpUpdateTime s) (hundredths s).

Definition with_counter (c : F32.float) (t : Z) (s : State) : State :=
  mkState (board s) (serial s) (currentMode s) (modeStartTime s)
    (demoStepTime s) c t (step s)
    (textSwitchTime s) (textIndex s) (fpUpdateTime s) (hundredths s).

Definition with_text (t i : Z) (s : State) : State :=
  mkState (board s) (serial s) (currentMode s) (modeStartTime s)
    (demoStepTime s) (floatCounter s) (lastCounterUpdate s) (step s)
    t i (fpUpdateTime s) (hundredths s).

Definition with_fixed (t h : Z) (s : State) : State :=
  mkState (board s) (serial s) (currentMode s) (modeStartTime s)
    (demoStepTime s) (floatCounter s) (lastCounterUpdate s) (step s)
    (textSwitchTime s) (textIndex s) t h.

(** [now - then >= interval] on [unsigned long]. *)
Definition due (now last interval : Z) : bool :=
  (now - last) mod 2 ^ 32 >=? interval.

(** 56.78f, 0.01f, 99.99f *)
Definition f_56_78 : F32.float := F32.div (F32.of_Z 5678) (F32.of_Z 100).
Definition f_0_01 : F32.float := F32.div (F32.of_Z 1) (F32.of_Z 100).
Definition f_99_99 : F32.float := F32.div (F32.of_Z 9999) (F32.of_Z 100).

Definition newline : string := String (ascii_of_nat 10) EmptyString.

(** [runDemoMode(now)]; [blinkMillis] is what [millis()] returns inside
    [startBlink] when step 5 runs. *)
Definition runDemoMode (now blinkMillis : Z) (s : State) : State :=
  if due now (demoStepTime s) DEMO_STEP_INTERVAL then
    let s := with_demo now (step s) s in
    let s :=
      if step s =? 0 then
        on_board (setNumber 1234 (-1))
          (say (Println "Demo Step 1: Display number 1234") s)
      else if step s =? 1 then
        on_board (fun w => snd (setFloat f_56_78 w))
          (say (Println "Demo Step 2: Display float 56.78") s)
      else if step s =? 2 then
        on_board (fun w => snd (setText (Some "HELP"%string) w))
          (say (Println "Demo Step 3: Display text 'HELP'") s)
      else if step s =? 3 then
        on_board (fun w => snd (setText (Some "GOOD"%string) w))
          (say (Println "Demo Step 4: Display text 'GOOD'") s)
      else if step s =? 4 then
        on_board (setNumber 5678 0)
          (say (Println "Demo Step 5: Number with decimal at position 0") s)
      else if step s =? 5 then
        on_board (startBlink 300 blinkMillis)
          (say (Println "Demo Step 6: Start blinking") s)
      else if step s =? 6 then
        on_board (fun w => snd (setText (Some "END"%string) (stopBlink w)))
          (say (Println "Demo Step 7: Stop blinking") s)
      else if step s =? 7 then
        with_demo (demoStepTime s) 255
          (say (Println ("Demo complete! Looping..." ++ newline)) s)
      else s in
    (* step++ on uint8_t *)
    with_demo (demoStepTime s) ((step s + 1) mod 256) s
  else s.

Definition runCounterMode (now : Z) (s : State) : State :=
  if due now (lastCounterUpdate s) 100 then
    let c := SFadd F32.prec F32.emax (floatCounter s) f_0_01 in
    let c := if F32.ltb f_99_99 c then F32.of_Z 0 else c in
    on_board (fun w => snd (setFloat c w)) (with_counter c now s)
  else s.

(** [texts]; [textIndex] stays below 4, and the default of [nth] stands for
    an index the sketch never reaches. *)
Definition texts : list string := ["SSFD"; "TEST"; "GOOD"; "HELP"]%string.

Definition runTextMode (now : Z) (s : State) : State :=
  if due now (textSwitchTime s) 3000 then
    let s := with_text now (textIndex s) s in
    let text := nth (Z.to_nat (textIndex s)) texts EmptyString in
    let s := on_board (fun w => snd (setText (Some text) w)) s in
    let s := say (Print "Text: ") s in
    let s := say (Println text) s in
    with_text (textSwitchTime s) ((textIndex s + 1) mod 4) s
  else s.

Definition runFixedPointMode (now : Z) (s : State) : State :=
  if due now (fpUpdateTime s) 50 then
    (* hundredths += 10 on uint16_t *)
    let h := (hundredths s + 10) mod 65536 in
    let h := if h >? 9999 then 0 else h in
    on_board (setHundredths h 2) (with_fixed now h s)
  else s.

(** [switchMode()], with [now] what [millis()] returns. *)
Definition switchMode (now : Z) (s : State) : State :=
  let m := mode_of_code ((mode_code (currentMode s) + 1) mod 4) in
  let s := with_mode m (modeStartTime s) s in
  let s := say (Print "Mode switched to: ") s in
  let s := say (PrintlnByte (mode_code (currentMode s))) s in
  with_mode (currentMode s) now s.

(** One pass of [loop()]: [now] is the first [millis()], [blinkMillis] the
    one inside [startBlink], [refreshMillis] the one inside [refresh]. *)
Definition loop (now blinkMillis refreshMillis : Z) (s : State) : State :=
  let s :=
    match currentMode s with
    | MODE_DEMO => runDemoMode now blinkMillis s
    | MODE_COUNTER => runCounterMode now s
    | MODE_TEXT => runTextMode now s
    | MODE_FIXED_POINT => runFixedPointMode now s
    end in
  on_board (refresh refreshMillis) s.

(** The globals as initialised, around a display instance. *)
Definition initial (w : World) : State :=
  mkState w [] MODE_DEMO 0 0 (F32.of_Z 0) 0 0 0 0 0 0.

(** Successive calls of [runDemoMode], each with its two clock readings. *)
Definition demo_run (nows : list (Z * Z)) (s : State) : State :=
  fold_left (fun s p => runDemoMode (fst p) (snd p) s) nows s.

(** Every call comes at least [DEMO_STEP_INTERVAL] after the one before. *)
Fixpoint all_due (last : Z) (nows : list (Z * Z)) : bool :=
  match nows with
  | [] => true
  | p :: l => due (fst p) last DEMO_STEP_INTERVAL && all_due (fst p) l
  end.

End Sketch.

(** A log of buffer stores and their critical sections only: no pin is
    configured or written and nothing waits. *)
Definition buffer_only (k : list event) : bool :=
  forallb (fun e => match e with
                    | EvCli | EvSei | EvStore _ _ => true
                    | _ => false
                    end) k.

(** * Properties *)

(** ** Evaluation on the example board *)

Example setNumber_1234 :
  display (setNumber 1234 (-1) sketch) = [0x60; 0xDA; 0xF2; 0x66].
Proof. reflexivity. Qed.

Example setNumber_5_suppressed :
  display (setNumber 5 1 (setLeadingZeros false sketch)) = [0; 1; 0; 0xB6].
Proof. reflexivity. Qed.

Example setFloat_m125 :
  display (snd (setFloat minus_12_5 sketch)) = [2; 0x60; 0xDB; 0xB6].
Proof. vm_compute. reflexivity. Qed.

Example setText_HI_sketch :
  display (snd (setText (Some "HI"%string) sketch)) = [0x6E; 0x60; 0; 0].
Proof. vm_compute. reflexivity. Qed.

(** ** Loops, conditionals and the four slots *)

Ltac case_ifs :=
  repeat match goal with
         | |- context [if ?b then _ else _] => destruct b
         end.

Ltac four_slots w H :=
  let s := fresh "s" in
  let m := fresh "m" in
  let d := fresh "d" in
  destruct w as [s m]; destruct s as [? ? ? d ? ? ? ? ? ? ? ? ?];
  unfold wf in H; cbn in H;
  destruct d as [|? [|? [|? [|? [|? ?]]]]]; try discriminate H.

Lemma for_up_invariant {S X : Type} (P : S -> X) n (body : nat -> S -> S) s :
  (forall i s', P (body i s') = P s') -> P (for_up n body s) = P s.
Proof.
  intros H. unfold for_up. generalize (seq 0 n) as l. intros l. revert s.
  induction l as [|i l IH]; intros s; cbn [fold_left]; [reflexivity|].
  rewrite IH. apply H.
Qed.

Lemma dev_emit e w : dev (emit e w) = dev w.
Proof. reflexivity. Qed.

Lemma lookup_four {A} (a b c d : A) (i : nat) (x : A) :
  [a; b; c; d] !! i = Some x ->
  (i = 0%nat /\ x = a) \/ (i = 1%nat /\ x = b) \/ (i = 2%nat /\ x = c)
  \/ (i = 3%nat /\ x = d).
Proof.
  destruct i as [|[|[|[|i]]]]; cbn; intros H; try discriminate;
    injection H as <-; auto 6.
Qed.

(** ** setNumber in closed form *)

Lemma extract_digits_eq value :
  extract_digits value =
  [decimal_digit value 0; decimal_digit value 1;
   decimal_digit value 2; decimal_digit value 3].
Proof.
  unfold extract_digits, decimal_digit. cbn [fold_left fst replicate].
  cbn [insert list_insert].
  rewrite !Z.div_div by lia.
  change (10 ^ (3 - Z.of_nat 0)) with 1000.
  change (10 ^ (3 - Z.of_nat 1)) with 100.
  change (10 ^ (3 - Z.of_nat 2)) with 10.
  change (10 ^ (3 - Z.of_nat 3)) with 1.
  rewrite Z.div_1_r. reflexivity.
Qed.

Lemma setNumber_store_all value dp w :
  setNumber value dp w =
  store_all
    (slot_pattern (_leadingZeros (dev w)) (clamp_value value) (clamp_dp dp)) w.
Proof.
  unfold setNumber. fold (clamp_value value) (clamp_dp dp).
  rewrite extract_digits_eq.
  generalize (clamp_value value) as v, (clamp_dp dp) as d. intros v d.
  unfold store_all, slot_pattern, leading_zero, for_up.
  change (Z.to_nat NUM_DIGITS) with 4%nat.
  cbn [seq fold_left lookup list_lookup default id forallb].
  change (Z.of_nat 0 <? NUM_DIGITS - 1) with true.
  change (Z.of_nat 1 <? NUM_DIGITS - 1) with true.
  change (Z.of_nat 2 <? NUM_DIGITS - 1) with true.
  change (Z.of_nat 3 <? NUM_DIGITS - 1) with false.
  change (Z.of_nat 0 <? 3) with true.
  change (Z.of_nat 1 <? 3) with true.
  change (Z.of_nat 2 <? 3) with true.
  change (Z.of_nat 3 <? 3) with false.
  change (Z.of_nat 0 =? NUM_DIGITS - 1) with false.
  change (Z.of_nat 1 =? NUM_DIGITS - 1) with false.
  change (Z.of_nat 2 =? NUM_DIGITS - 1) with false.
  change (Z.of_nat 3 =? NUM_DIGITS - 1) with true.
  generalize (pgm_read_byte SEGMENT_PATTERNS (decimal_digit v 0))
             (pgm_read_byte SEGMENT_PATTERNS (decimal_digit v 1))
             (pgm_read_byte SEGMENT_PATTERNS (decimal_digit v 2))
             (pgm_read_byte SEGMENT_PATTERNS (decimal_digit v 3))
             (pgm_read_byte SEGMENT_PATTERNS BLANK_INDEX)
             (pgm_read_byte SEGMENT_PATTERNS DP_INDEX).
  intros g0 g1 g2 g3 blank dpbit.
  generalize ((Z.of_nat 0 =? d) && (d >=? 0)) ((Z.of_nat 1 =? d) && (d >=? 0))
             ((Z.of_nat 2 =? d) && (d >=? 0)) ((Z.of_nat 3 =? d) && (d >=? 0)).
  intros c0 c1 c2 c3.
  generalize (decimal_digit v 0 =? 0) (decimal_digit v 1 =? 0)
             (decimal_digit v 2 =? 0) (decimal_digit v 3 =? 0).
  intros z0 z1 z2 z3.
  destruct w as [[? ? ? ? lz ? ? ? ? ? ? ? ?] m].
  cbn [cli emit on_mcu on_dev dev mcu store_pattern _leadingZeros with_display].
  destruct lz, z0, z1, z2, z3; reflexivity.
Qed.

Lemma display_store_all ps w :
  wf w -> display (store_all ps w) = [ps 0%nat; ps 1%nat; ps 2%nat; ps 3%nat].
Proof. intros H. four_slots w H. reflexivity. Qed.

Lemma io_log_store_all ps w :
  io_log (mcu (store_all ps w)) =
  io_log (mcu w)
  ++ [EvCli; EvStore 0 (ps 0%nat); EvStore 1 (ps 1%nat);
      EvStore 2 (ps 2%nat); EvStore 3 (ps 3%nat); EvSei].
Proof.
  destruct w as [s m]. cbn. rewrite <- !app_assoc. reflexivity.
Qed.

Lemma wf_store_all ps w : wf w -> wf (store_all ps w).
Proof.
  intros H. unfold wf. fold (display (store_all ps w)).
  rewrite display_store_all; auto.
Qed.

Lemma display_setNumber value dp w :
  wf w ->
  display (setNumber value dp w) =
  map (slot_pattern (_leadingZeros (dev w)) (clamp_value value) (clamp_dp dp))
      [0; 1; 2; 3]%nat.
Proof. intros H. rewrite setNumber_store_all, display_store_all; auto. Qed.

Lemma lookup_setNumber value dp w (i : nat) p :
  wf w ->
  display (setNumber value dp w) !! i = Some p ->
  p = slot_pattern (_leadingZeros (dev w)) (clamp_value value) (clamp_dp dp) i.
Proof.
  intros Hwf. rewrite display_setNumber by assumption. cbn [map].
  intros H. apply lookup_four in H.
  destruct H as [[-> ->]|[[-> ->]|[[-> ->]|[-> ->]]]]; reflexivity.
Qed.

Lemma clamp_value_id value : value <= 9999 -> clamp_value value = value.
Proof.
  unfold clamp_value, MAX_VALUE. intros.
  destruct (Z.gtb_spec value 9999); lia.
Qed.

Lemma clamp_value_idem value :
  clamp_value (clamp_value value) = clamp_value value.
Proof.
  unfold clamp_value, MAX_VALUE.
  destruct (Z.gtb_spec value 9999); [reflexivity|].
  destruct (Z.gtb_spec value 9999); [lia | reflexivity].
Qed.

Lemma clamp_dp_id dp : -1 <= dp <= 3 -> clamp_dp dp = dp.
Proof.
  unfold clamp_dp. intros.
  destruct (Z.ltb_spec dp (-1)), (Z.gtb_spec dp 3); cbn; lia.
Qed.

Lemma clamp_dp_out dp : dp < -1 \/ 3 < dp -> clamp_dp dp = -1.
Proof.
  unfold clamp_dp. intros.
  destruct (Z.ltb_spec dp (-1)), (Z.gtb_spec dp 3); cbn; lia.
Qed.

Lemma dp_test (i : nat) dp :
  (Z.of_nat i =? dp) && (dp >=? 0) = (Z.of_nat i =? dp).
Proof.
  destruct (Z.eqb_spec (Z.of_nat i) dp); cbn; [|reflexivity].
  destruct (Z.geb_spec dp 0); [reflexivity | lia].
Qed.

(** ** Glyph facts *)

Lemma decimal_digit_range value i : 0 <= decimal_digit value i <= 9.
Proof.
  unfold decimal_digit.
  pose proof (Z.mod_pos_bound (value / 10 ^ (3 - Z.of_nat i)) 10). lia.
Qed.

(** The digit indices [setNumber] reads are inside the table. *)
Lemma extract_digits_range value d :
  In d (extract_digits value) ->
  0 <= d < Z.of_nat (length SEGMENT_PATTERNS).
Proof.
  rewrite extract_digits_eq. cbn [In].
  change (Z.of_nat (length SEGMENT_PATTERNS)) with 41.
  intros [<-|[<-|[<-|[<-|[]]]]];
    match goal with |- context [decimal_digit ?v ?i] =>
      pose proof (decimal_digit_range v i) end; lia.
Qed.

Lemma getPattern_index_in_table c :
  0 <= getPattern_index c < Z.of_nat (length SEGMENT_PATTERNS).
Proof.
  unfold getPattern_index, between.
  change (Z.of_nat (length SEGMENT_PATTERNS)) with 41.
  change (char_code "0") with 48. change (char_code "9") with 57.
  change (char_code "A") with 65. change (char_code "Z") with 90.
  change (char_code "a") with 97. change (char_code "z") with 122.
  generalize (char_code c) as n. intros n.
  repeat (match goal with
          | |- context [?a <=? ?b] => destruct (Z.leb_spec a b)
          | |- context [?a >=? ?b] => destruct (Z.geb_spec a b)
          | |- context [Ascii.eqb ?a ?b] => destruct (Ascii.eqb a b)
          end; cbn [andb]); lia.
Qed.

Lemma digit_cases d :
  0 <= d <= 9 ->
  d = 0 \/ d = 1 \/ d = 2 \/ d = 3 \/ d = 4 \/ d = 5 \/ d = 6 \/ d = 7
  \/ d = 8 \/ d = 9.
Proof. lia. Qed.

Ltac each_digit d H :=
  destruct (digit_cases d H) as [->|[->|[->|[->|[->|[->|[->|[->|[->| ->]]]]]]]]].

Lemma digit_glyph_decodes d (dot : bool) :
  0 <= d <= 9 ->
  let g := pgm_read_byte SEGMENT_PATTERNS d in
  let p := if dot then Z.lor g (pgm_read_byte SEGMENT_PATTERNS DP_INDEX) else g in
  decode_digit p = Some d /\ dp_set p = dot /\ glyph_of p = g /\ g <> 0.
Proof.
  intros H. each_digit d H; destruct dot; cbv; repeat split; congruence.
Qed.

Lemma blank_glyph (dot : bool) :
  let g := pgm_read_byte SEGMENT_PATTERNS BLANK_INDEX in
  let p := if dot then Z.lor g (pgm_read_byte SEGMENT_PATTERNS DP_INDEX) else g in
  decode_digit p = None /\ dp_set p = dot /\ glyph_of p = 0.
Proof. destruct dot; cbv; repeat split. Qed.

(** Slot by slot: the decimal point, and the glyph or the blank. *)
Lemma slot_pattern_spec lz value dp (i : nat) :
  let p := slot_pattern lz value dp i in
  dp_set p = (Z.of_nat i =? dp)
  /\ (if negb lz && leading_zero value i
      then glyph_of p = 0 /\ decode_digit p = None
      else glyph_of p = pgm_read_byte SEGMENT_PATTERNS (decimal_digit value i)
           /\ glyph_of p <> 0
           /\ decode_digit p = Some (decimal_digit value i)).
Proof.
  unfold slot_pattern. rewrite dp_test.
  destruct (negb lz && leading_zero value i).
  - destruct (blank_glyph (Z.of_nat i =? dp)) as (? & ? & ?). auto.
  - destruct (digit_glyph_decodes (decimal_digit value i) (Z.of_nat i =? dp)
                (decimal_digit_range value i)) as (? & ? & Hg & ?).
    rewrite Hg. auto.
Qed.


(** ** setText in closed form *)

Lemma setText_null w : setText None w = (NULL_POINTER, w).
Proof. reflexivity. Qed.

Lemma setText_unfold text w :
  setText (Some text) w =
  let len := Z.of_nat (String.length text) mod 256 in
  if len >? NUM_DIGITS then (INVALID_ARGUMENT, w)
  else
    (OK,
     store_all
       (fun i =>
          getPattern
            (nth i (strncpy [" "; " "; " "; " "; Ascii.zero]%char text
                      (Z.to_nat len)) Ascii.zero)) w).
Proof. reflexivity. Qed.

(** Rejected: the length, as [uint8_t], exceeds 4. *)
Lemma setText_too_long text w :
  (4 < String.length text < 256)%nat ->
  setText (Some text) w = (INVALID_ARGUMENT, w).
Proof.
  intros H. unfold setText, NUM_DIGITS.
  rewrite Z.mod_small by lia.
  destruct (Z.gtb_spec (Z.of_nat (String.length text)) 4); [reflexivity | lia].
Qed.

Lemma setText_store_all text w :
  (String.length text <= 4)%nat ->
  setText (Some text) w =
  (OK, store_all (fun i => getPattern (nth i (pad4 text) Ascii.zero)) w).
Proof.
  intros H. unfold setText, NUM_DIGITS, pad4.
  destruct text as [|a [|b [|c [|d [|e text]]]]]; cbn in H; try lia; reflexivity.
Qed.

(** Accepted: padded to four characters, one table glyph per slot. *)
Lemma setText_short text w :
  wf w -> (String.length text <= 4)%nat ->
  fst (setText (Some text) w) = OK
  /\ display (snd (setText (Some text) w)) = map getPattern (pad4 text)
  /\ length (pad4 text) = 4%nat.
Proof.
  intros Hwf H. rewrite setText_store_all by assumption. cbn [fst snd].
  rewrite display_store_all by assumption.
  unfold pad4.
  destruct text as [|a [|b [|c [|d [|e text]]]]]; cbn in H; try lia;
    repeat split; reflexivity.
Qed.

Example setText_HI w :
  wf w ->
  setText (Some "HI"%string) w
  = (OK,
     store_all
       (fun i => getPattern (nth i ["H"; "I"; " "; " "]%char Ascii.zero)) w)
  /\ display (snd (setText (Some "HI"%string) w))
     = [getPattern "H"; getPattern "I"; getPattern " "; getPattern " "].
Proof.
  intros Hwf. split; [apply setText_store_all; cbn; lia|].
  apply (setText_short "HI" w Hwf). cbn. lia.
Qed.

Example setText_TOOLONG w :
  setText (Some "TOOLONG"%string) w = (INVALID_ARGUMENT, w).
Proof. apply setText_too_long. cbn. lia. Qed.

(** ** What a tick changes *)

(** A tick writes nothing but the cursor into the instance. *)
Lemma dev_multiplex w :
  dev (multiplex w) =
  with_currentDigit ((_currentDigit (dev w) + 1) mod NUM_DIGITS) (dev w).
Proof.
  unfold multiplex, digitalWrite.
  match goal with
  | |- context [if ?b then _ else _] => destruct b
  end; [reflexivity|].
  rewrite dev_emit, (for_up_invariant dev); [reflexivity|].
  intros i s'. case_ifs; reflexivity.
Qed.

Lemma currentDigit_multiplex w :
  _currentDigit (dev (multiplex w)) = (_currentDigit (dev w) + 1) mod NUM_DIGITS.
Proof. rewrite dev_multiplex. reflexivity. Qed.

(** In the dark phase of a blink a tick switches the previous digit off and
    does nothing else to the pins. *)
Lemma multiplex_dark w :
  _blinkEnabled (dev w) = true -> _blinkStateOn (dev w) = false ->
  io_log (mcu (multiplex w)) =
  io_log (mcu w)
  ++ [EvDigitalWrite (pgm_pin (_digitPins (dev w)) (_currentDigit (dev w))) false].
Proof.
  unfold multiplex. destruct w as [[] m]. cbn. intros -> ->. reflexivity.
Qed.

Lemma SREG_I_ISR w :
  SREG_I (mcu (ISR_TIMER1_COMPA w)) = SREG_I (mcu w).
Proof.
  unfold ISR_TIMER1_COMPA, multiplex, digitalWrite.
  case_ifs; try reflexivity.
  cbn [emit on_mcu mcu log_event SREG_I].
  rewrite (for_up_invariant (fun w => SREG_I (mcu w))); [reflexivity|].
  intros i s'. case_ifs; reflexivity.
Qed.

Lemma dev_ISR w :
  dev (ISR_TIMER1_COMPA w) = dev w
  \/ dev (ISR_TIMER1_COMPA w)
     = with_currentDigit ((_currentDigit (dev w) + 1) mod NUM_DIGITS) (dev w).
Proof.
  unfold ISR_TIMER1_COMPA. destruct (_isrActive (dev w)); [right|left].
  - apply dev_multiplex.
  - reflexivity.
Qed.

Lemma display_ISR w : display (ISR_TIMER1_COMPA w) = display w.
Proof. unfold display. destruct (dev_ISR w) as [-> | ->]; reflexivity. Qed.

(** ** The effects of a renderer call *)

Lemma io_log_exec e w : io_log (mcu (exec e w)) = io_log (mcu w) ++ [e].
Proof. destruct e; reflexivity. Qed.

Lemma io_log_exec_all k : forall w,
  io_log (mcu (exec_all k w)) = io_log (mcu w) ++ k.
Proof.
  induction k as [|e k IH]; intros w; cbn [exec_all fold_left].
  - rewrite app_nil_r. reflexivity.
  - fold (exec_all k (exec e w)). rewrite IH, io_log_exec, <- app_assoc.
    reflexivity.
Qed.

Lemma display_exec e w :
  display (exec e w) = replay [e] (display w).
Proof. destruct e; reflexivity. Qed.

Lemma SREG_I_exec e w :
  SREG_I (mcu (exec e w)) = iflag_after e (SREG_I (mcu w)).
Proof. destruct e; reflexivity. Qed.

Lemma display_exec_all k : forall w,
  display (exec_all k w) = replay k (display w).
Proof.
  induction k as [|e k IH]; intros w; cbn [exec_all fold_left replay];
    [reflexivity|].
  fold (exec_all k (exec e w)). rewrite IH, display_exec. reflexivity.
Qed.

Lemma events_of_exec_all f k w :
  mcu (f w) = mcu (exec_all k w) -> events_of f w = k.
Proof.
  intros H. unfold events_of. rewrite H, io_log_exec_all.
  apply drop_app_length.
Qed.

Lemma exec_all_section ps w : exec_all (section ps) w = store_all ps w.
Proof. reflexivity. Qed.

Lemma exec_all_section_minus ps v w :
  exec_all (section ps ++ [EvCli; EvStore 0 v; EvSei]) w
  = sei (store_pattern 0 v (cli (store_all ps w))).
Proof. reflexivity. Qed.

Lemma setText_effects text :
  exists k,
    renderer_shape k
    /\ forall w', same_effects (fun w : World => snd (setText text w)) k w'.
Proof.
  destruct text as [text|].
  - destruct (Z.of_nat (String.length text) mod 256 >? NUM_DIGITS) eqn:E.
    + exists []. split; [left; reflexivity|]. intros w'.
      unfold same_effects. rewrite setText_unfold. cbv zeta. rewrite E.
      split; reflexivity.
    + eexists (section _). split; [right; left; eexists; reflexivity|].
      intros w'. unfold same_effects. rewrite setText_unfold. cbv zeta.
      rewrite E, exec_all_section. split; reflexivity.
  - exists []. split; [left; reflexivity|]. intros w'. split; reflexivity.
Qed.

Lemma setNumber_effects value dp w :
  forall w', _leadingZeros (dev w') = _leadingZeros (dev w) ->
    setNumber value dp w'
    = exec_all
        (section (slot_pattern (_leadingZeros (dev w)) (clamp_value value)
                    (clamp_dp dp))) w'.
Proof.
  intros w' H. rewrite setNumber_store_all, H, exec_all_section. reflexivity.
Qed.

Lemma setFloat_effects value w :
  exists k,
    renderer_shape k
    /\ forall w', _leadingZeros (dev w') = _leadingZeros (dev w) ->
                 same_effects (fun w => snd (setFloat value w)) k w'.
Proof.
  unfold setFloat.
  destruct (F32.isnan value || F32.isinf value).
  { destruct (setText_effects (Some "Err "%string)) as (k & Hk & H).
    exists k. split; [exact Hk|]. intros w' _. apply (H w'). }
  destruct (F32.ltb value (F32.of_Z 0)).
  - destruct (F32.leb value (F32.of_Z (-100))).
    { destruct (setText_effects (Some "-999"%string)) as (k & Hk & H).
      exists k. split; [exact Hk|]. intros w' _. apply (H w'). }
    destruct (F32.ltb (F32.of_Z (-10)) value);
      match goal with
      | |- context [setNumber ?n ?dp _] =>
          generalize n; intros n';
          exists (section (slot_pattern (_leadingZeros (dev w)) (clamp_value n')
                             (clamp_dp dp))
                  ++ [EvCli; EvStore 0 (getPattern "-") ; EvSei])
      end;
      (split; [right; right; eexists; eexists; reflexivity|]);
      intros w' H; unfold same_effects; cbn [snd];
      rewrite (setNumber_effects _ _ w w' H), exec_all_section_minus,
        exec_all_section; split; reflexivity.
  - match goal with
    | |- context [setNumber ?n ?dp _] =>
        generalize n dp; intros n' dp';
        exists (section (slot_pattern (_leadingZeros (dev w)) (clamp_value n')
                           (clamp_dp dp')))
    end.
    split; [right; left; eexists; reflexivity|].
    intros w' H. unfold same_effects. cbn [snd].
    rewrite (setNumber_effects _ _ w w' H). split; reflexivity.
Qed.

Lemma render_effects r w :
  exists k,
    renderer_shape k
    /\ forall w', _leadingZeros (dev w') = _leadingZeros (dev w) ->
                 same_effects (render r) k w'.
Proof.
  destruct r as [value dp|value|text|value dp|patterns].
  - eexists. split; [right; left; eexists; reflexivity|].
    intros w' H. unfold same_effects. cbn [render].
    rewrite (setNumber_effects _ _ w w' H). split; reflexivity.
  - apply setFloat_effects.
  - destruct (setText_effects text) as (k & Hk & H).
    exists k. split; [exact Hk|]. intros w' _. apply (H w').
  - eexists. split; [right; left; eexists; reflexivity|].
    intros w' H. unfold same_effects. cbn [render]. unfold setHundredths.
    rewrite (setNumber_effects _ _ w w' H). split; reflexivity.
  - destruct patterns as [ps|].
    + exists (section ps). split; [right; left; eexists; reflexivity|].
      intros w' _. split; reflexivity.
    + exists []. split; [left; reflexivity|]. intros w' _. split; reflexivity.
Qed.

Lemma events_of_render r w :
  exists k, renderer_shape k
            /\ events_of (render r) w = k
            /\ replay k (display w) = display (render r w)
            /\ forall w', _leadingZeros (dev w') = _leadingZeros (dev w) ->
                          events_of (render r) w' = k.
Proof.
  destruct (render_effects r w) as (k & Hk & H).
  exists k. split; [exact Hk|].
  destruct (H w eq_refl) as [Hm Hd].
  split; [apply events_of_exec_all; exact Hm|].
  split; [rewrite Hd; symmetry; apply display_exec_all|].
  intros w' Hlz. apply events_of_exec_all, (H w' Hlz).
Qed.

(** The handler changes nothing a renderer reads: the effects of a call are
    the same whether or not a tick came first. *)
Lemma events_of_render_ISR r w :
  events_of (render r) (ISR_TIMER1_COMPA w) = events_of (render r) w.
Proof.
  destruct (events_of_render r w) as (k & _ & -> & _ & H).
  apply H. destruct (dev_ISR w) as [-> | ->]; reflexivity.
Qed.

(** ** The pattern buffer keeps its four slots *)

Lemma wf_sketch : wf sketch.
Proof. reflexivity. Qed.

Lemma wf_new seg dig m : wf (SevenSegment_new seg dig m).
Proof. reflexivity. Qed.

Lemma length_replay k : forall d, length (replay k d) = length d.
Proof.
  induction k as [|e k IH]; intros d; cbn [replay fold_left]; [reflexivity|].
  fold (replay k (match e with EvStore i v => <[i:=v]> d | _ => d end)).
  rewrite IH. destruct e; try reflexivity. apply length_insert.
Qed.

Lemma wf_exec_all k w : wf w -> wf (exec_all k w).
Proof.
  unfold wf. fold (display w) (display (exec_all k w)).
  rewrite display_exec_all, length_replay. auto.
Qed.

Lemma wf_render r w : wf w -> wf (render r w).
Proof.
  intros H. destruct (render_effects r w) as (k & _ & Hk).
  destruct (Hk w eq_refl) as [_ Hd].
  unfold wf. fold (display (render r w)). rewrite Hd.
  apply (wf_exec_all k w H).
Qed.

Lemma wf_multiplex w : wf w -> wf (multiplex w).
Proof. unfold wf. rewrite dev_multiplex. auto. Qed.

Lemma wf_run_call c w : wf w -> wf (run_call c w).
Proof.
  intros H. destruct c; cbn [run_call].
  - unfold wf, begin.
    destruct (_segmentPins (dev w)), (_digitPins (dev w)); try exact H.
    case_ifs; exact H.
  - four_slots w H. reflexivity.
  - unfold refresh. case_ifs; exact H.
  - four_slots w H. reflexivity.
  - unfold wf, testWiring. case_ifs; destruct w as [[] m]; exact H.
  - apply wf_render, H.
  - exact H.
  - unfold setRefreshInterval. exact H.
  - exact H.
  - exact H.
Qed.

Lemma wf_run l : forall w, wf w -> wf (run l w).
Proof.
  induction l as [|[|c] l IH]; intros w H; cbn [run fold_left run_activity].
  - exact H.
  - apply IH, wf_multiplex, H.
  - apply IH, wf_run_call, H.
Qed.

(** ** C1: setNumber shows the digits and the decimal point *)

(** C1, counterexample: with leading-zero blanking switched on by
    [setLeadingZeros(false)], [setNumber(5, -1)] leaves slot 0 blank, and a
    blank slot carries no digit glyph. *)
Lemma setNumber_decode_counterexample :
  wf (setLeadingZeros false sketch)
  /\ 0 <= 5 <= 9999 /\ -1 <= -1 <= 3
  /\ ~ shows_digits 5 (-1)
         (display (setNumber 5 (-1) (setLeadingZeros false sketch))).
Proof.
  split; [reflexivity|]. split; [lia|]. split; [lia|].
  intros (_ & Hdec & _). specialize (Hdec 0%nat 0 eq_refl). discriminate Hdec.
Qed.

(** C1, amended: for every value in 0..9999 and every dpPosition in -1..3,
    [setNumber] leaves exactly four patterns; the decimal-point bit is set on
    slot dpPosition and on no other slot (on none for -1); each slot carries
    the glyph of its decimal digit, except that when [_leadingZeros] is
    false the slots of leading zeros carry the blank glyph.  With
    [_leadingZeros] true (the value the constructor sets) the display shows
    all four digits. *)
Theorem setNumber_decodes w value dp :
  wf w -> 0 <= value <= 9999 -> -1 <= dp <= 3 ->
  let d := display (setNumber value dp w) in
  length d = 4%nat
  /\ (forall (i : nat) (p : Z),
        d !! i = Some p -> dp_set p = (Z.of_nat i =? dp))
  /\ (forall (i : nat) (p : Z),
        d !! i = Some p ->
        if negb (_leadingZeros (dev w)) && leading_zero value i
        then glyph_of p = 0
        else decode_digit p = Some (decimal_digit value i))
  /\ (_leadingZeros (dev w) = true -> shows_digits value dp d).
Proof.
  intros Hwf Hv Hdp d.
  assert (Hlen : length d = 4%nat).
  { subst d. rewrite display_setNumber by assumption. reflexivity. }
  assert (Hslot : forall (i : nat) (p : Z), d !! i = Some p ->
            p = slot_pattern (_leadingZeros (dev w)) value dp i).
  { intros i p H. apply lookup_setNumber in H; [|assumption].
    rewrite clamp_value_id, clamp_dp_id in H by lia. exact H. }
  split; [exact Hlen|]. split; [|split].
  - intros i p H. rewrite (Hslot i p H). apply slot_pattern_spec.
  - intros i p H. rewrite (Hslot i p H).
    pose proof (slot_pattern_spec (_leadingZeros (dev w)) value dp i) as [_ Hs].
    destruct (negb (_leadingZeros (dev w)) && leading_zero value i); tauto.
  - intros Hlz. split; [exact Hlen|]. split.
    + intros i p H. rewrite (Hslot i p H).
      pose proof (slot_pattern_spec (_leadingZeros (dev w)) value dp i) as [_ Hs].
      rewrite Hlz in *. cbn in Hs. tauto.
    + intros i p H. rewrite (Hslot i p H). apply slot_pattern_spec.
Qed.

Lemma setNumber_decodes_witness :
  shows_digits 1234 2 (display (setNumber 1234 2 sketch)).
Proof.
  apply (setNumber_decodes sketch 1234 2); [reflexivity | lia | lia | reflexivity].
Defined.

(** ** C2: what the handler can find in the buffer *)

Lemma tick_safe_shape k ie :
  renderer_shape k -> tick_safe ie (replicate 4 false) k = true.
Proof.
  intros [->|[[ps ->]|(ps & v & ->)]]; destruct ie; reflexivity.
Qed.

Lemma unmixedb_sound wr : unmixedb wr = true -> unmixed wr.
Proof.
  unfold unmixed.
  destruct wr as [|[] [|[] [|[] [|[] [|? ?]]]]]; cbn; intros H;
    try discriminate H; auto.
Qed.

Section Interleaving.

Variable r : renderer.
Variable w : World.

Lemma inv_start : inv r w (start r w).
Proof.
  destruct (events_of_render r w) as (k & Hk & Hev & Hrep & _).
  unfold inv, start. cbn [world written pending]. rewrite Hev.
  split; [apply tick_safe_shape; exact Hk|]. split; [reflexivity | exact Hrep].
Qed.

Lemma inv_step c c' : step c c' -> inv r w c -> inv r w c'.
Proof.
  intros Hstep (Hsafe & Hold & Hrep).
  destruct Hstep as [w0 e k wr | w0 k wr HI]; unfold inv in *;
    cbn [world written pending] in *.
  - cbn [tick_safe] in Hsafe. apply andb_true_iff in Hsafe as [_ Hsafe].
    rewrite SREG_I_exec. split; [exact Hsafe|]. split.
    + intros i Hi. rewrite display_exec.
      destruct e; cbn [mark replay fold_left] in *; auto.
      apply list_lookup_insert_Some in Hi as [(_ & Hi & _)|[Hne Hi]];
        [discriminate Hi|].
      rewrite list_lookup_insert_ne by assumption. auto.
    + rewrite display_exec. exact Hrep.
  - rewrite SREG_I_ISR, display_ISR. auto.
Qed.

Lemma inv_reachable c : rtc step (start r w) c -> inv r w c.
Proof.
  revert c. apply rtc_ind_r.
  - apply inv_start.
  - intros c c' _ Hstep IH. exact (inv_step c c' Hstep IH).
Qed.

(** Which slots a call has stored when a tick can fire: take any renderer
    call, started in any world, and any interleaving of its effects with
    timer ticks (a tick fires only while the global interrupt flag is set,
    as [cli]/[sei] leave it).  Whenever a tick can fire, either none or all
    of the four slots have been stored by the call; a slot not yet stored
    holds what it held before the call; and when the call is over the
    buffer is what the call leaves without any tick.  This counts stores;
    it does not say that the values stored so far are the call's result,
    which the negative path of [setFloat] shows further down. *)
Lemma stores_all_or_none c :
  rtc step (start r w) c ->
  (SREG_I (mcu (world c)) = true -> unmixed (written c))
  /\ (forall i : nat,
        written c !! i = Some false ->
        display (world c) !! i = display w !! i)
  /\ (pending c = [] -> display (world c) = display (render r w)).
Proof.
  intros H. destruct (inv_reachable c H) as (Hsafe & Hold & Hrep).
  split; [|split].
  - intros HI. rewrite HI in Hsafe. apply unmixedb_sound.
    destruct (pending c); cbn [tick_safe] in Hsafe;
      apply andb_true_iff in Hsafe as [Hsafe _]; exact Hsafe.
  - exact Hold.
  - intros Hp. rewrite Hp in Hrep. exact Hrep.
Qed.

End Interleaving.

Lemma ticked_HI_reachable :
  rtc step (start (SetText (Some "HI"%string)) running) ticked_HI.
Proof.
  unfold start, ticked_HI.
  replace (events_of (render (SetText (Some "HI"%string))) running)
    with [EvCli; EvStore 0 (getPattern "H"); EvStore 1 (getPattern "I");
          EvStore 2 (getPattern " "); EvStore 3 (getPattern " "); EvSei]
    by (vm_compute; reflexivity).
  eapply rtc_l; [apply step_tick; reflexivity|].
  do 6 (eapply rtc_l; [apply step_app|]).
  eapply rtc_l; [apply step_tick; reflexivity|].
  apply rtc_refl.
Qed.

Example stores_all_or_none_HI :
  unmixed (written ticked_HI)
  /\ display (world ticked_HI)
     = display (render (SetText (Some "HI"%string)) running).
Proof.
  destruct (stores_all_or_none _ _ _ ticked_HI_reachable) as (H1 & _ & H3).
  split; [apply H1 | apply H3]; reflexivity.
Qed.

(** Inside a critical section the slots are mixed, and no tick can fire. *)
Example setNumber_mid_section :
  let c := mkConfig (exec_all [EvCli; EvStore 0 (getPattern "1")] running)
             [EvStore 1 (getPattern "2"); EvStore 2 (getPattern "3");
              EvStore 3 (getPattern "4"); EvSei]
             [true; false; false; false] in
  rtc step (start (SetNumber 1234 (-1)) running) c
  /\ ~ unmixed (written c)
  /\ SREG_I (mcu (world c)) = false.
Proof.
  split; [|split].
  - unfold start.
    replace (events_of (render (SetNumber 1234 (-1))) running)
      with [EvCli; EvStore 0 (getPattern "1"); EvStore 1 (getPattern "2");
            EvStore 2 (getPattern "3"); EvStore 3 (getPattern "4"); EvSei]
      by (vm_compute; reflexivity).
    do 2 (eapply rtc_l; [apply step_app|]). apply rtc_refl.
  - intros [H|H]; discriminate H.
  - reflexivity.
Qed.

(** [setFloat] of a negative number publishes twice: a tick between its two
    critical sections sees the digits before the minus sign is stored. *)
Example setFloat_between_sections :
  exists c,
    rtc step (start (SetFloat minus_12_5) running) c
    /\ SREG_I (mcu (world c)) = true
    /\ written c = replicate 4 true
    /\ display (world c) = display (setNumber 125 2 running)
    /\ display (world c) <> display (render (SetFloat minus_12_5) running).
Proof.
  eexists. split.
  - unfold start.
    replace (events_of (render (SetFloat minus_12_5)) running)
      with (section (slot_pattern true 125 2)
            ++ [EvCli; EvStore 0 (getPattern "-"); EvSei])
      by (vm_compute; reflexivity).
    cbn [section app].
    do 6 (eapply rtc_l; [apply step_app|]). apply rtc_refl.
  - cbn [world written]. split; [reflexivity|]. split; [reflexivity|].
    split; [vm_compute; reflexivity|]. vm_compute. discriminate.
Qed.

(** *** Values, not only stores *)

(** Any configuration a call reaches has run a prefix of the call's effects,
    ticks apart: the buffer and the interrupt flag are those of the prefix. *)
Lemma reachable_prefix w k wr c :
  rtc step (mkConfig w k wr) c ->
  exists pre,
    k = pre ++ pending c
    /\ display (world c) = replay pre (display w)
    /\ SREG_I (mcu (world c)) = iflag_after_all pre (SREG_I (mcu w)).
Proof.
  revert c. apply rtc_ind_r.
  - exists []. repeat split; reflexivity.
  - intros c c' _ Hstep (pre & Hk & Hd & HI).
    destruct Hstep as [w0 e k0 wr0 | w0 k0 wr0 Hie]; cbn [world pending] in *.
    + exists (pre ++ [e]). rewrite <- app_assoc. split; [exact Hk|].
      unfold replay, iflag_after_all. rewrite !fold_left_app.
      fold (replay pre (display w)). fold (iflag_after_all pre (SREG_I (mcu w))).
      rewrite <- Hd, <- HI, display_exec, SREG_I_exec. split; reflexivity.
    + exists pre. rewrite display_ISR, SREG_I_ISR. auto.
Qed.

(** A renderer that publishes in one critical section is atomic for the
    handler: whenever a tick can fire, the buffer is what it was before the
    call or what the call leaves. *)
Lemma one_section_snapshot r w c :
  one_section (events_of (render r) w) ->
  rtc step (start r w) c ->
  SREG_I (mcu (world c)) = true ->
  display (world c) = display w \/ display (world c) = display (render r w).
Proof.
  intros Hone Hreach HI.
  destruct (events_of_render r w) as (k & _ & Hev & Hrep & _).
  unfold start in Hreach. rewrite Hev in Hreach, Hone.
  destruct (reachable_prefix _ _ _ _ Hreach) as (pre & Hk & Hd & Hie).
  rewrite HI in Hie. rewrite <- Hrep.
  destruct Hone as [-> | [ps ->]].
  - destruct pre; [|discriminate Hk]. left. exact Hd.
  - unfold section in Hk.
    destruct pre as [|e0 [|e1 [|e2 [|e3 [|e4 [|e5 [|e6 pre]]]]]]];
      cbn [app] in Hk.
    + left. exact Hd.
    + injection Hk as <- _. destruct (SREG_I (mcu w)); discriminate Hie.
    + injection Hk as <- <- _. destruct (SREG_I (mcu w)); discriminate Hie.
    + injection Hk as <- <- <- _. destruct (SREG_I (mcu w)); discriminate Hie.
    + injection Hk as <- <- <- <- _.
      destruct (SREG_I (mcu w)); discriminate Hie.
    + injection Hk as <- <- <- <- <- _.
      destruct (SREG_I (mcu w)); discriminate Hie.
    + injection Hk as <- <- <- <- <- <- _. right. exact Hd.
    + exfalso. injection Hk as _ _ _ _ _ _ Hk. destruct pre; discriminate Hk.
Qed.

Lemma one_section_setNumber value dp w :
  one_section (events_of (setNumber value dp) w).
Proof.
  right. eexists. apply events_of_exec_all.
  rewrite (setNumber_effects value dp w w eq_refl). reflexivity.
Qed.

Lemma one_section_setText text w :
  one_section (events_of (fun w => snd (setText text w)) w).
Proof.
  destruct text as [text|].
  - destruct (Z.of_nat (String.length text) mod 256 >? NUM_DIGITS) eqn:E.
    + left. apply events_of_exec_all. rewrite setText_unfold. cbv zeta.
      rewrite E. reflexivity.
    + right. eexists. apply events_of_exec_all. rewrite setText_unfold.
      cbv zeta. rewrite E, <- exec_all_section. reflexivity.
  - left. apply events_of_exec_all. reflexivity.
Qed.

(** Every renderer publishes in one critical section, the negative path of
    [setFloat] apart. *)
Lemma one_section_render r w :
  two_sections r = false -> one_section (events_of (render r) w).
Proof.
  destruct r as [value dp|value|text|value dp|patterns];
    cbn [two_sections render]; intros H.
  - apply one_section_setNumber.
  - change (one_section
              (drop (length (io_log (mcu w)))
                 (io_log (mcu (snd (setFloat value w)))))).
    unfold setFloat.
    destruct (F32.isnan value || F32.isinf value).
    { exact (one_section_setText (Some "Err "%string) w). }
    destruct (F32.ltb value (F32.of_Z 0)).
    + destruct (F32.leb value (F32.of_Z (-100))); [|discriminate H].
      exact (one_section_setText (Some "-999"%string) w).
    + cbv zeta.
      match goal with
      | |- context [setNumber ?n ?dp _] => exact (one_section_setNumber n dp w)
      end.
  - apply one_section_setText.
  - unfold setHundredths. apply one_section_setNumber.
  - destruct patterns as [ps|].
    + right. exists ps. apply events_of_exec_all. reflexivity.
    + left. apply events_of_exec_all. reflexivity.
Qed.

Lemma minus_is_no_slot_pattern lz value dp i :
  slot_pattern lz value dp i <> getPattern "-".
Proof.
  intros E. destruct (slot_pattern_spec lz value dp i) as [_ H].
  cbv zeta in H. rewrite E in H.
  destruct (negb lz && leading_zero value i).
  - destruct H as [H _]. vm_compute in H. discriminate H.
  - destruct H as (_ & _ & H). vm_compute in H. discriminate H.
Qed.

Lemma two_sections_events value w :
  two_sections (SetFloat value) = true ->
  exists ps,
    (forall i, ps i <> getPattern "-")
    /\ events_of (render (SetFloat value)) w
       = section ps ++ [EvCli; EvStore 0 (getPattern "-"); EvSei].
Proof.
  cbn [two_sections]. intros H.
  apply andb_true_iff in H as [H H3]. apply andb_true_iff in H as [H1 H2].
  apply negb_true_iff in H1, H3.
  assert (E : forall n dp,
             exists ps,
               (forall i, ps i <> getPattern "-")
               /\ mcu (sei (store_pattern 0 (getPattern "-")
                              (cli (setNumber n dp w))))
                  = mcu (exec_all
                           (section ps
                            ++ [EvCli; EvStore 0 (getPattern "-"); EvSei]) w)).
  { intros n dp. eexists. split; [|].
    2:{ rewrite (setNumber_effects n dp w w eq_refl), exec_all_section_minus,
          exec_all_section. reflexivity. }
    intros i. apply minus_is_no_slot_pattern. }
  assert (G : exists ps,
             (forall i, ps i <> getPattern "-")
             /\ mcu (snd (setFloat value w))
                = mcu (exec_all
                         (section ps
                          ++ [EvCli; EvStore 0 (getPattern "-"); EvSei]) w)).
  { unfold setFloat. rewrite H1, H2, H3.
    destruct (F32.ltb (F32.of_Z (-10)) value);
      match goal with
      | |- context [setNumber ?n ?dp _] => destruct (E n dp) as (ps & Hps & Hm)
      end;
      exists ps; (split; [exact Hps | exact Hm]). }
  destruct G as (ps & Hps & Hm). exists ps. split; [exact Hps|].
  apply events_of_exec_all. exact Hm.
Qed.

(** For every finite value below 0 and above -100 and every display, the
    call has a point, after its first critical section, where the handler
    can run and slot 0 does not hold the minus sign the call leaves
    there. *)
Lemma setFloat_negative_gap value w :
  wf w ->
  two_sections (SetFloat value) = true ->
  exists c,
    rtc step (start (SetFloat value) w) c
    /\ pending c <> []
    /\ SREG_I (mcu (world c)) = true
    /\ display (render (SetFloat value) w) !! 0%nat = Some (getPattern "-")
    /\ display (world c) !! 0%nat <> Some (getPattern "-").
Proof.
  intros Hwf H.
  destruct (two_sections_events value w H) as (ps & Hps & Hev).
  destruct (events_of_render (SetFloat value) w) as (k & _ & Hk & Hrep & _).
  rewrite Hev in Hk. subst k.
  exists (mkConfig (exec_all (section ps) w)
            [EvCli; EvStore 0 (getPattern "-"); EvSei] (replicate 4 true)).
  split.
  { unfold start. rewrite Hev. cbn [section app].
    do 6 (eapply rtc_l; [apply step_app|]). apply rtc_refl. }
  cbn [world pending]. split; [discriminate|].
  split; [destruct w as [s m]; reflexivity|].
  rewrite <- Hrep, exec_all_section, display_store_all by exact Hwf.
  four_slots w Hwf. cbn. split; [reflexivity|].
  intros E. injection E as E. exact (Hps _ E).
Qed.

(** C2: the claim fails on the negative path of [setFloat], which publishes
    in two critical sections.  The display reads 0999 and [setFloat(-12.5f)]
    is called; after the [sei] of the inner [setNumber] and before the
    [cli] that guards the minus sign the call is not over, interrupts are
    enabled and the handler can run; the buffer it finds is 0, 1, 2., 5:
    slot 0 as the call before left it, slots 1 to 3 as this call leaves
    them.  It is neither the display before the call nor the one after
    it. *)
Theorem setFloat_negative_mixed_frame :
  let r := SetFloat minus_12_5 in
  let c := between_sections in
  two_sections r = true
  /\ display showing_0999 = [0xFC; 0xF6; 0xF6; 0xF6]
  /\ display (render r showing_0999) = [0x02; 0x60; 0xDB; 0xB6]
  /\ rtc step (start r showing_0999) c
  /\ pending c = [EvCli; EvStore 0 (getPattern "-"); EvSei]
  /\ SREG_I (mcu (world c)) = true
  /\ step c (mkConfig (ISR_TIMER1_COMPA (world c)) (pending c) (written c))
  /\ display (world c) = [0xFC; 0x60; 0xDB; 0xB6]
  /\ display (ISR_TIMER1_COMPA (world c)) = [0xFC; 0x60; 0xDB; 0xB6].
Proof.
  cbv zeta.
  split; [vm_compute; reflexivity|].
  split; [vm_compute; reflexivity|].
  split; [vm_compute; reflexivity|].
  split.
  { unfold start, between_sections.
    replace (events_of (render (SetFloat minus_12_5)) showing_0999)
      with (section (slot_pattern true 125 2)
            ++ [EvCli; EvStore 0 (getPattern "-"); EvSei])
      by (vm_compute; reflexivity).
    cbn [section app].
    do 6 (eapply rtc_l; [apply step_app|]). apply rtc_refl. }
  split; [reflexivity|].
  assert (HI : SREG_I (mcu (world between_sections)) = true)
    by (vm_compute; reflexivity).
  split; [exact HI|].
  split; [apply (step_tick _ _ _ HI)|].
  split; [vm_compute; reflexivity|].
  rewrite display_ISR. vm_compute. reflexivity.
Qed.

(** ** C3: setFloat of a negative number *)

Lemma negative_finite v :
  F32.is_finite v = true -> F32.ltb v (F32.of_Z 0) = true ->
  exists m e, v = S754_finite true m e.
Proof.
  intros Hf Hn.
  destruct v as [s|s| |s m e]; try discriminate Hf;
    destruct s; try (vm_compute in Hn; discriminate Hn).
  eauto.
Qed.

(** Comparing two negative numbers is comparing their magnitudes the other
    way round. *)
Lemma SFcompare_negated m e m' e' :
  SFcompare (S754_finite true m e) (S754_finite true m' e')
  = SFcompare (S754_finite false m' e') (S754_finite false m e).
Proof.
  cbn. rewrite (Z.compare_antisym e e').
  destruct (e ?= e'); cbn; try reflexivity.
  rewrite (Pos.compare_cont_antisym m m' Eq). reflexivity.
Qed.

(** [value <= -100.0f] says that the magnitude is at least 100. *)
Lemma leb_minus_100 m e :
  F32.leb (S754_finite true m e) (F32.of_Z (-100))
  = F32.leb (F32.of_Z 100) (F32.fabs (S754_finite true m e)).
Proof.
  unfold F32.leb, SFleb, F32.fabs, SFabs.
  replace (F32.of_Z (-100)) with (S754_finite true 13107200 (-17))
    by (vm_compute; reflexivity).
  replace (F32.of_Z 100) with (S754_finite false 13107200 (-17))
    by (vm_compute; reflexivity).
  rewrite SFcompare_negated. reflexivity.
Qed.

(** [value > -10.0f] says that the magnitude is below 10. *)
Lemma ltb_minus_10 m e :
  F32.ltb (F32.of_Z (-10)) (S754_finite true m e)
  = F32.ltb (F32.fabs (S754_finite true m e)) (F32.of_Z 10).
Proof.
  unfold F32.ltb, SFltb, F32.fabs, SFabs.
  replace (F32.of_Z (-10)) with (S754_finite true 10485760 (-20))
    by (vm_compute; reflexivity).
  replace (F32.of_Z 10) with (S754_finite false 10485760 (-20))
    by (vm_compute; reflexivity).
  rewrite SFcompare_negated. reflexivity.
Qed.

Lemma setFloat_negative_general w value :
  wf w -> F32.is_finite value = true -> F32.ltb value (F32.of_Z 0) = true ->
  let mag := F32.fabs value in
  let minus := getPattern "-" in
  fst (setFloat value w) = OK
  /\ (F32.leb (F32.of_Z 100) mag = true ->
      display (snd (setFloat value w))
      = [minus; getPattern "9"; getPattern "9"; getPattern "9"])
  /\ (F32.leb (F32.of_Z 100) mag = false ->
      forall scale dp,
        (scale, dp) = (if F32.ltb mag (F32.of_Z 10) then (100, 1) else (10, 2)) ->
        display (snd (setFloat value w))
        = minus
          :: drop 1
               (display
                  (setNumber
                     (F32.to_uint16 (F32.roundf (F32.mul mag (F32.of_Z scale))))
                     dp w))).
Proof.
  intros Hwf Hfin Hneg mag minus.
  destruct (negative_finite value Hfin Hneg) as (m & e & ->).
  unfold setFloat.
  change (F32.isnan (S754_finite true m e) || F32.isinf (S754_finite true m e))
    with false.
  cbv iota. rewrite Hneg, leb_minus_100, ltb_minus_10. fold mag.
  split; [reflexivity|]. split.
  - intros ->. cbn [snd on_dev dev].
    rewrite (setText_store_all "-999" w) by (cbn; lia). cbn [snd].
    unfold display. cbn [on_dev dev with_lastError _displayPatterns].
    fold (display
            (store_all (fun i => getPattern (nth i (pad4 "-999") Ascii.zero)) w)).
    rewrite display_store_all by assumption. reflexivity.
  - intros -> scale dp Hsd.
    destruct (F32.ltb mag (F32.of_Z 10)); injection Hsd as -> ->;
      cbn [snd]; rewrite !setNumber_store_all; four_slots w Hwf; reflexivity.
Qed.

(** C3: for a negative finite [value] of magnitude [mag], [setFloat] returns
    OK and
    - if [mag >= 100], shows the glyphs of "-999";
    - if [mag < 10], shows what [setNumber(round(mag * 100), 1)] shows (two
      decimals), with slot 0 replaced by the minus glyph;
    - if [10 <= mag < 100], shows what [setNumber(round(mag * 10), 2)] shows
      (one decimal), with slot 0 replaced by the minus glyph.
    In particular [setFloat(-12.5)] shows minus, 1, 2 with the decimal
    point, 5. *)
Theorem setFloat_negative :
  (forall w value,
     wf w -> F32.is_finite value = true ->
     F32.ltb value (F32.of_Z 0) = true ->
     let mag := F32.fabs value in
     let shown scale dp :=
       getPattern "-"
       :: drop 1
            (display
               (setNumber
                  (F32.to_uint16 (F32.roundf (F32.mul mag (F32.of_Z scale))))
                  dp w)) in
     fst (setFloat value w) = OK
     /\ display (snd (setFloat value w))
        = if F32.leb (F32.of_Z 100) mag
          then map getPattern ["-"; "9"; "9"; "9"]%char
          else if F32.ltb mag (F32.of_Z 10) then shown 100 1 else shown 10 2)
  /\ (forall w,
        wf w ->
        fst (setFloat minus_12_5 w) = OK
        /\ display (snd (setFloat minus_12_5 w))
           = [getPattern "-"; getPattern "1";
              Z.lor (getPattern "2") (getPattern "."); getPattern "5"]).
Proof.
  assert (G : forall w value,
     wf w -> F32.is_finite value = true ->
     F32.ltb value (F32.of_Z 0) = true ->
     let mag := F32.fabs value in
     let shown scale dp :=
       getPattern "-"
       :: drop 1
            (display
               (setNumber
                  (F32.to_uint16 (F32.roundf (F32.mul mag (F32.of_Z scale))))
                  dp w)) in
     fst (setFloat value w) = OK
     /\ display (snd (setFloat value w))
        = if F32.leb (F32.of_Z 100) mag
          then map getPattern ["-"; "9"; "9"; "9"]%char
          else if F32.ltb mag (F32.of_Z 10) then shown 100 1 else shown 10 2).
  { intros w value Hwf Hfin Hneg mag shown.
    destruct (setFloat_negative_general w value Hwf Hfin Hneg) as (H1 & H2 & H3).
    fold mag in H2, H3. split; [exact H1|].
    destruct (F32.leb (F32.of_Z 100) mag).
    - apply H2. reflexivity.
    - destruct (F32.ltb mag (F32.of_Z 10)); apply H3; reflexivity. }
  split; [exact G|].
  intros w Hwf.
  destruct (G w minus_12_5 Hwf eq_refl eq_refl) as [H1 H2].
  split; [exact H1|]. rewrite H2.
  replace (F32.leb (F32.of_Z 100) (F32.fabs minus_12_5)) with false
    by (vm_compute; reflexivity).
  replace (F32.ltb (F32.fabs minus_12_5) (F32.of_Z 10)) with false
    by (vm_compute; reflexivity).
  replace (F32.to_uint16
             (F32.roundf (F32.mul (F32.fabs minus_12_5) (F32.of_Z 10))))
    with 125 by (vm_compute; reflexivity).
  rewrite display_setNumber by assumption.
  destruct (_leadingZeros (dev w)); reflexivity.
Qed.

Lemma setFloat_negative_witness :
  display (snd (setFloat minus_12_5 sketch)) = [0x02; 0x60; 0xDB; 0xB6]
  /\ (F32.is_finite (F32.of_Z (-250)) = true
      /\ F32.ltb (F32.of_Z (-250)) (F32.of_Z 0) = true
      /\ display (snd (setFloat (F32.of_Z (-250)) sketch))
         = [0x02; 0xF6; 0xF6; 0xF6]).
Proof.
  split.
  - apply (proj2 setFloat_negative sketch). reflexivity.
  - split; [reflexivity|]. split; [reflexivity|].
    pose proof (proj1 setFloat_negative sketch (F32.of_Z (-250))
                  eq_refl eq_refl eq_refl) as [_ H].
    exact H.
Defined.

(** Where rounding reaches four digits the overwritten slot held a 1:
    [setFloat(-9.999f)] calls [setNumber(1000, 1)] and shows "-0.00". *)
Example setFloat_minus_9_999 :
  F32.to_uint16 (F32.roundf (F32.mul (F32.fabs minus_9_999) (F32.of_Z 100)))
  = 1000
  /\ display (snd (setFloat minus_9_999 sketch))
     = [getPattern "-"; Z.lor (getPattern "0") (getPattern "."); getPattern "0";
        getPattern "0"].
Proof. vm_compute. split; reflexivity. Qed.

(** ** C4: setText and the length of its argument *)

(** C4, the failing input: [strlen] is narrowed to [uint8_t] before the
    length check, so a text of 256 characters has [len = 0]: it is accepted,
    the call returns OK and the display showing "HELP" is overwritten with
    four blanks. *)
Theorem setText_accepts_256_characters :
  let before := snd (setText (Some "HELP"%string) sketch) in
  String.length long_text = 256%nat
  /\ display before
     = [getPattern "H"; getPattern "E"; getPattern "L"; getPattern "P"]
  /\ fst (setText (Some long_text) before) = OK
  /\ display (snd (setText (Some long_text) before)) = [0; 0; 0; 0].
Proof. vm_compute. repeat split; reflexivity. Qed.

(** ** C5: leading zeros *)

Lemma constructor_shows_leading_zeros seg dig m :
  _leadingZeros (dev (SevenSegment_new seg dig m)) = true.
Proof. reflexivity. Qed.



(** ** C6: the stored error code *)

Lemma begin_sets_lastError w : getLastError (snd (begin w)) = fst (begin w).
Proof.
  unfold begin, getLastError.
  destruct (_segmentPins (dev w)), (_digitPins (dev w)); try reflexivity.
  case_ifs; reflexivity.
Qed.

Lemma setFloat_sets_lastError value w :
  getLastError (snd (setFloat value w)) = fst (setFloat value w).
Proof. unfold setFloat, getLastError. case_ifs; reflexivity. Qed.

(** [setText] returns its code without storing it. *)
Lemma setText_keeps_lastError text w :
  getLastError (snd (setText text w)) = getLastError w.
Proof.
  unfold setText, getLastError. destruct text as [text|]; [|reflexivity].
  case_ifs; [reflexivity|]. cbn [snd].
  destruct w as [[] m]. reflexivity.
Qed.

(** C6, the failing input: after a successful [begin], [setText("TOOLONG")]
    returns INVALID_ARGUMENT and [setText(nullptr)] returns NULL_POINTER,
    while [getLastError()] still answers OK. *)
Theorem setText_does_not_record_its_error :
  let w := snd (begin sketch) in
  fst (begin sketch) = OK
  /\ getLastError w = OK
  /\ fst (setText (Some "TOOLONG"%string) w) = INVALID_ARGUMENT
  /\ getLastError (snd (setText (Some "TOOLONG"%string) w)) = OK
  /\ fst (setText None w) = NULL_POINTER
  /\ getLastError (snd (setText None w)) = OK.
Proof. vm_compute. repeat split; reflexivity. Qed.

(** ** C7: the scan cursor *)

Lemma currentDigit_store_all ps w :
  _currentDigit (dev (store_all ps w)) = _currentDigit (dev w).
Proof. destruct w as [[] m]. reflexivity. Qed.

Lemma currentDigit_setText t w :
  _currentDigit (dev (snd (setText t w))) = _currentDigit (dev w).
Proof.
  unfold setText. destruct t as [t|]; [|reflexivity].
  case_ifs; [reflexivity|]. destruct w as [[] m]. reflexivity.
Qed.

Lemma currentDigit_render r w :
  _currentDigit (dev (render r w)) = _currentDigit (dev w).
Proof.
  destruct r; cbn [render].
  - rewrite setNumber_store_all. apply currentDigit_store_all.
  - unfold setFloat.
    case_ifs; cbn [snd on_dev dev with_lastError _currentDigit];
      rewrite ?currentDigit_setText, ?setNumber_store_all;
      try (destruct w as [[] m]; reflexivity).
  - apply currentDigit_setText.
  - unfold setHundredths. rewrite setNumber_store_all.
    apply currentDigit_store_all.
  - destruct patterns; [|reflexivity]. destruct w as [[] m]. reflexivity.
Qed.

Lemma currentDigit_run_call c w :
  _currentDigit (dev (run_call c w)) = _currentDigit (dev w).
Proof.
  destruct c; cbn [run_call].
  - unfold begin.
    destruct (_segmentPins (dev w)), (_digitPins (dev w)); try reflexivity.
    case_ifs; reflexivity.
  - destruct w as [[] m]. reflexivity.
  - unfold refresh. case_ifs; destruct w as [[] m]; reflexivity.
  - destruct w as [[] m]. reflexivity.
  - unfold testWiring. case_ifs; destruct w as [[] m]; reflexivity.
  - apply currentDigit_render.
  - reflexivity.
  - unfold setRefreshInterval. case_ifs; reflexivity.
  - reflexivity.
  - reflexivity.
Qed.

Lemma currentDigit_run l : forall w,
  _currentDigit (dev (run l w)) =
  if ticks l =? 0 then _currentDigit (dev w)
  else (_currentDigit (dev w) + ticks l) mod NUM_DIGITS.
Proof.
  assert (Hpos : forall l, 0 <= ticks l).
  { intros l'. induction l' as [|[|c] l' IH]; cbn [ticks]; lia. }
  unfold NUM_DIGITS.
  induction l as [|[|c] l IH]; intros w; cbn [run fold_left ticks run_activity].
  - reflexivity.
  - fold (run l (multiplex w)). rewrite IH, currentDigit_multiplex.
    unfold NUM_DIGITS. specialize (Hpos l).
    destruct (Z.eqb_spec (ticks l) 0) as [->|], (Z.eqb_spec (1 + ticks l) 0);
      try lia.
    + reflexivity.
    + rewrite Zplus_mod_idemp_l. f_equal. lia.
  - fold (run l (run_call c w)). rewrite IH, currentDigit_run_call. reflexivity.
Qed.

(** C7: every tick moves the cursor to (cursor + 1) mod 4, whatever the
    cursor and the blink state were; in the dark phase of a blink the tick
    still does so, while the only pin it writes is the previous digit's
    (switched off); and after any sequence of ticks and calls that contains a
    tick, or that starts with the cursor in 0..3, the cursor is in 0..3. *)
Theorem multiplex_cursor :
  (forall w,
     _currentDigit (dev (multiplex w))
     = (_currentDigit (dev w) + 1) mod NUM_DIGITS)
  /\ (forall w,
        _blinkEnabled (dev w) = true -> _blinkStateOn (dev w) = false ->
        _currentDigit (dev (multiplex w))
        = (_currentDigit (dev w) + 1) mod NUM_DIGITS
        /\ display (multiplex w) = display w
        /\ io_log (mcu (multiplex w)) =
           io_log (mcu w)
           ++ [EvDigitalWrite
                 (pgm_pin (_digitPins (dev w)) (_currentDigit (dev w))) false])
  /\ (forall l w,
        0 < ticks l \/ 0 <= _currentDigit (dev w) <= 3 ->
        0 <= _currentDigit (dev (run l w)) <= 3)
  /\ (forall l seg dig m,
        _currentDigit (dev (run l (SevenSegment_new seg dig m)))
        = ticks l mod NUM_DIGITS).
Proof.
  split; [exact currentDigit_multiplex|]. split; [|split].
  - intros w Hb Hs. split; [apply currentDigit_multiplex|].
    split; [|apply multiplex_dark; assumption].
    unfold display. rewrite dev_multiplex. reflexivity.
  - intros l w H. rewrite currentDigit_run. unfold NUM_DIGITS.
    destruct (Z.eqb_spec (ticks l) 0).
    + lia.
    + pose proof (Z.mod_pos_bound (_currentDigit (dev w) + ticks l) 4). lia.
  - intros l seg dig m. rewrite currentDigit_run. cbn [SevenSegment_new dev _currentDigit].
    destruct (Z.eqb_spec (ticks l) 0) as [->|]; reflexivity.
Qed.

Lemma multiplex_cursor_witness :
  _currentDigit (dev (multiplex (startBlink 300 0 sketch))) = 1
  /\ 0 <= _currentDigit
            (dev (run [Tick; Call (StartBlink 300 0); Call (Refresh 300); Tick;
                       Tick; Tick; Tick]
                    sketch)) <= 3.
Proof.
  split.
  - rewrite (proj1 multiplex_cursor). reflexivity.
  - apply (proj1 (proj2 (proj2 multiplex_cursor))). left. reflexivity.
Defined.

(** ** C8: setSegments on a null pointer *)

(** C8: [setSegments(nullptr)] changes nothing: not a slot, not the stored
    error code, no pin or register; and, returning [void], it reports
    nothing. *)
Theorem setSegments_null_noop w : setSegments None w = w.
Proof. reflexivity. Qed.

(** ** C9: dpPosition out of range *)

(** C9: a dpPosition outside -1..3 makes [setNumber] behave exactly as with
    -1, so no slot gets the decimal-point bit; [setHundredths] puts
    position 2 in its place. *)
Theorem dpPosition_out_of_range w value dp :
  dp < -1 \/ 3 < dp ->
  setNumber value dp w = setNumber value (-1) w
  /\ setHundredths value dp w = setNumber value 2 w
  /\ (wf w ->
      forall (i : nat) (p : Z),
        (display (setNumber value dp w) !! i = Some p -> dp_set p = false)
        /\ (display (setHundredths value dp w) !! i = Some p ->
            dp_set p = (Z.of_nat i =? 2))).
Proof.
  intros Hdp.
  assert (E1 : setNumber value dp w = setNumber value (-1) w).
  { rewrite !setNumber_store_all, (clamp_dp_out dp Hdp). reflexivity. }
  assert (E2 : setHundredths value dp w = setNumber value 2 w).
  { unfold setHundredths.
    change (if value >? 9999 then 9999 else value) with (clamp_value value).
    replace (if (dp <? -1) || (dp >? 3) then 2 else dp) with 2.
    - rewrite !setNumber_store_all, clamp_value_idem. reflexivity.
    - destruct (Z.ltb_spec dp (-1)), (Z.gtb_spec dp 3); cbn; lia. }
  split; [exact E1|]. split; [exact E2|].
  intros Hwf i p. rewrite E1, E2. split; intros H.
  - apply lookup_setNumber in H; [|assumption]. subst p.
    pose proof (slot_pattern_spec (_leadingZeros (dev w)) (clamp_value value)
                  (clamp_dp (-1)) i) as [Hd _].
    cbv zeta in Hd. rewrite Hd. apply Z.eqb_neq. cbn. lia.
  - apply lookup_setNumber in H; [|assumption]. subst p.
    apply slot_pattern_spec.
Qed.

Lemma dpPosition_out_of_range_witness :
  setNumber 1234 7 sketch = setNumber 1234 (-1) sketch
  /\ setHundredths 1234 7 sketch = setNumber 1234 2 sketch.
Proof.
  pose proof (dpPosition_out_of_range sketch 1234 7) as H.
  split; apply H; lia.
Defined.

(** ** C10: testWiring before begin *)

Lemma constructor_not_initialized seg dig m :
  isInitialized (SevenSegment_new seg dig m) = false.
Proof. reflexivity. Qed.

Lemma begin_failure_keeps_isrActive w :
  fst (begin w) <> OK -> isInitialized (snd (begin w)) = isInitialized w.
Proof.
  unfold begin.
  destruct (_segmentPins (dev w)), (_digitPins (dev w)); try reflexivity.
  repeat match goal with
         | |- context [if ?b then _ else _] => destruct b
         end; try reflexivity.
  cbn [fst]. congruence.
Qed.

(** C10: while the ISR-active flag is false, [testWiring] returns the world
    it was given: the effect log (pin writes, delays, [cli]/[sei]), the
    Timer1 registers and every field of the instance are unchanged. *)
Theorem testWiring_uninitialized delayMs w :
  isInitialized w = false -> testWiring delayMs w = w.
Proof.
  unfold isInitialized, testWiring. intros ->. reflexivity.
Qed.

Lemma testWiring_uninitialized_witness : testWiring 500 sketch = sketch.
Proof. apply (testWiring_uninitialized 500 sketch). reflexivity. Defined.

(** * Further properties *)

Ltac each_ascii c :=
  destruct c as [[] [] [] [] [] [] [] []].

(** X1 ([getPattern]): a letter has one glyph whatever its case: the
    lower-case form of an upper-case letter gets the same pattern. *)
Theorem getPattern_case_insensitive c :
  between "A" "Z" c = true -> getPattern (to_lower c) = getPattern c.
Proof. each_ascii c; intros H; try discriminate H; reflexivity. Qed.

Lemma getPattern_case_insensitive_witness :
  getPattern "h" = getPattern "H".
Proof. apply (getPattern_case_insensitive "H"). reflexivity. Defined.

(** X2 ([getPattern], [SEGMENT_PATTERNS]): every character has a pattern
    that fits a byte; only ['.'] lights the decimal-point bit; and the
    pattern is blank exactly for a space and for the characters the table
    does not hold. *)
Theorem getPattern_total c :
  0 <= getPattern c <= 255
  /\ dp_set (getPattern c) = Ascii.eqb c "."
  /\ (getPattern c =? 0) = (negb (supported c) || Ascii.eqb c " ").
Proof.
  each_ascii c; (split; [split; discriminate|]); split; reflexivity.
Qed.

(** X3 ([setNumber], [setHundredths]): any value above 9999 is shown as
    9999 is. *)
Theorem value_clamped value dp w :
  9999 < value ->
  setNumber value dp w = setNumber 9999 dp w
  /\ setHundredths value dp w = setHundredths 9999 dp w.
Proof.
  intros H.
  assert (E : clamp_value value = clamp_value 9999).
  { unfold clamp_value, MAX_VALUE. destruct (Z.gtb_spec value 9999); [reflexivity | lia]. }
  split.
  - rewrite !setNumber_store_all, E. reflexivity.
  - unfold setHundredths.
    change (if value >? 9999 then 9999 else value) with (clamp_value value).
    change (if 9999 >? 9999 then 9999 else 9999) with (clamp_value 9999).
    rewrite E. reflexivity.
Qed.

Lemma value_clamped_witness :
  setNumber 12345 1 sketch = setNumber 9999 1 sketch.
Proof. apply (value_clamped 12345 1 sketch). lia. Defined.

(** X4 ([clear]): clearing is the same call as [setText] on the empty
    string and as [setSegments] on four zero bytes; it blanks the four
    slots and keeps the leading-zero choice and the stored error code. *)
Theorem clear_as_renderers w :
  clear w = snd (setText (Some EmptyString) w)
  /\ clear w = setSegments (Some (fun _ => 0)) w
  /\ (wf w -> display (clear w) = [0; 0; 0; 0])
  /\ _leadingZeros (dev (clear w)) = _leadingZeros (dev w)
  /\ _lastError (dev (clear w)) = _lastError (dev w).
Proof.
  split; [reflexivity|]. split; [reflexivity|]. split.
  - intros H. four_slots w H. reflexivity.
  - destruct w as [[] m]. split; reflexivity.
Qed.

Lemma clear_as_renderers_witness : display (clear (setNumber 1234 2 sketch)) = [0; 0; 0; 0].
Proof. apply (clear_as_renderers (setNumber 1234 2 sketch)). reflexivity. Defined.

(** X5 ([setFloat]): a NaN or an infinity is refused with
    [INVALID_ARGUMENT], which is also stored as the last error, and the
    display reads [Err]. *)
Theorem setFloat_not_finite value w :
  F32.is_finite value = false ->
  fst (setFloat value w) = INVALID_ARGUMENT
  /\ getLastError (snd (setFloat value w)) = INVALID_ARGUMENT
  /\ (wf w ->
      display (snd (setFloat value w))
      = [getPattern "E"; getPattern "r"; getPattern "r"; getPattern " "]).
Proof.
  intros H. unfold setFloat.
  replace (F32.isnan value || F32.isinf value) with true
    by (destruct value; try reflexivity; discriminate H).
  split; [reflexivity|]. split; [reflexivity|].
  intros Hwf. rewrite (setText_store_all "Err " w) by (cbn; lia). cbn [snd].
  four_slots w Hwf. reflexivity.
Qed.

Lemma setFloat_not_finite_witness :
  fst (setFloat S754_nan sketch) = INVALID_ARGUMENT
  /\ fst (setFloat (S754_infinity true) sketch) = INVALID_ARGUMENT.
Proof.
  split.
  - apply (setFloat_not_finite S754_nan sketch). reflexivity.
  - apply (setFloat_not_finite (S754_infinity true) sketch). reflexivity.
Defined.

Lemma setNumber_dp_bits value dp w (i : nat) p :
  wf w ->
  display (setNumber value dp w) !! i = Some p ->
  dp_set p = (Z.of_nat i =? clamp_dp dp).
Proof.
  intros Hwf H. apply lookup_setNumber in H; [|assumption]. subst p.
  apply slot_pattern_spec.
Qed.

(** X6 ([setFloat]): whatever the value, at most one slot has its decimal
    point lit, and it is never the rightmost one. *)
Theorem setFloat_decimal_point value w :
  wf w ->
  exists dp,
    -1 <= dp <= 2
    /\ forall (i : nat) (p : Z),
         display (snd (setFloat value w)) !! i = Some p ->
         dp_set p = (Z.of_nat i =? dp).
Proof.
  intros Hwf. unfold setFloat.
  destruct (F32.isnan value || F32.isinf value).
  { exists (-1). split; [lia|]. intros i p.
    rewrite (setText_store_all "Err " w) by (cbn; lia). cbn [snd].
    four_slots w Hwf. intros H. apply lookup_four in H.
    destruct H as [[-> ->]|[[-> ->]|[[-> ->]|[-> ->]]]]; reflexivity. }
  destruct (F32.ltb value (F32.of_Z 0)).
  - destruct (F32.leb value (F32.of_Z (-100))).
    { exists (-1). split; [lia|]. intros i p.
      rewrite (setText_store_all "-999" w) by (cbn; lia). cbn [snd].
      four_slots w Hwf. intros H. apply lookup_four in H.
      destruct H as [[-> ->]|[[-> ->]|[[-> ->]|[-> ->]]]]; reflexivity. }
    destruct (F32.ltb (F32.of_Z (-10)) value);
      match goal with
      | |- context [setNumber ?n ?dp _] => generalize n; intros n'; exists dp
      end;
      (split; [lia|]); intros i p; cbn [snd];
      rewrite setNumber_store_all;
      generalize (slot_pattern_spec (_leadingZeros (dev w)) (clamp_value n'));
      intros Hs; four_slots w Hwf; intros H; apply lookup_four in H;
      destruct H as [[-> ->]|[[-> ->]|[[-> ->]|[-> ->]]]];
      try reflexivity; apply Hs.
  - cbv zeta.
    destruct (F32.to_int value >=? 1000);
      [|destruct (F32.to_int value >=? 100);
        [|destruct (F32.to_int value >=? 10)]];
      match goal with
      | |- context [setNumber ?n ?dp _] =>
          generalize n; intros n';
          let dp' := eval vm_compute in dp in
          change dp with dp'; exists dp'
      end;
      (split; [lia|]); intros i p H; cbn [snd] in H; unfold display in H;
      cbn [on_dev dev with_lastError _displayPatterns] in H;
      apply (setNumber_dp_bits _ _ _ _ _ Hwf H).
Qed.

Lemma setFloat_decimal_point_witness :
  exists dp,
    -1 <= dp <= 2
    /\ forall (i : nat) (p : Z),
         display (snd (setFloat minus_12_5 sketch)) !! i = Some p ->
         dp_set p = (Z.of_nat i =? dp).
Proof. apply (setFloat_decimal_point minus_12_5 sketch). reflexivity. Defined.

Lemma leadingZeros_setText t w :
  _leadingZeros (dev (snd (setText t w))) = _leadingZeros (dev w).
Proof.
  unfold setText. destruct t as [t|]; [|reflexivity].
  case_ifs; [reflexivity|]. destruct w as [[] m]. reflexivity.
Qed.

Lemma leadingZeros_store_all ps w :
  _leadingZeros (dev (store_all ps w)) = _leadingZeros (dev w).
Proof. destruct w as [[] m]. reflexivity. Qed.

Lemma leadingZeros_render r w :
  _leadingZeros (dev (render r w)) = _leadingZeros (dev w).
Proof.
  destruct r; cbn [render].
  - rewrite setNumber_store_all. apply leadingZeros_store_all.
  - unfold setFloat.
    case_ifs; cbn [snd on_dev dev with_lastError _leadingZeros];
      rewrite ?leadingZeros_setText, ?setNumber_store_all;
      try (destruct w as [[] m]; reflexivity).
  - apply leadingZeros_setText.
  - unfold setHundredths. rewrite setNumber_store_all.
    apply leadingZeros_store_all.
  - destruct patterns; [|reflexivity]. destruct w as [[] m]. reflexivity.
Qed.

Lemma replay_twice k d :
  renderer_shape k -> length d = 4%nat -> replay k (replay k d) = replay k d.
Proof.
  intros Hk Hd.
  destruct d as [|? [|? [|? [|? [|? ?]]]]]; try discriminate Hd.
  destruct Hk as [->|[[ps ->]|(ps & v & ->)]]; reflexivity.
Qed.

(** X7 (the five renderers): showing the same thing twice leaves the
    patterns as showing it once does. *)
Theorem render_idempotent r w :
  wf w -> display (render r (render r w)) = display (render r w).
Proof.
  intros Hwf. destruct (render_effects r w) as (k & Hk & H).
  destruct (H w eq_refl) as [_ H1].
  destruct (H (render r w) (leadingZeros_render r w)) as [_ H2].
  rewrite H2, display_exec_all, H1, display_exec_all.
  apply replay_twice; assumption.
Qed.

Lemma render_idempotent_witness :
  display (render (SetFloat minus_12_5) (render (SetFloat minus_12_5) sketch))
  = display (render (SetFloat minus_12_5) sketch).
Proof. apply (render_idempotent (SetFloat minus_12_5) sketch). reflexivity. Defined.

Lemma bit_test p k :
  0 <= k -> negb (Z.land p (Z.shiftl 1 k) =? 0) = Z.testbit p k.
Proof.
  intros Hk. rewrite Z.shiftl_1_l.
  assert (E : Z.land p (2 ^ k) = if Z.testbit p k then 2 ^ k else 0).
  { apply Z.bits_inj'. intros n Hn.
    rewrite Z.land_spec, Z.pow2_bits_eqb by lia.
    destruct (Z.eqb_spec k n) as [->|Hne].
    - destruct (Z.testbit p n) eqn:E; rewrite ?Z.pow2_bits_eqb, ?Z.eqb_refl,
        ?Z.bits_0 by lia; rewrite ?E; reflexivity.
    - rewrite andb_false_r. destruct (Z.testbit p k);
        rewrite ?Z.pow2_bits_eqb, ?Z.bits_0 by lia; [|reflexivity].
      symmetry. apply Z.eqb_neq. exact Hne. }
  rewrite E. destruct (Z.testbit p k); [|reflexivity].
  apply negb_true_iff, Z.eqb_neq. pose proof (Z.pow_pos_nonneg 2 k). lia.
Qed.

Lemma digitalWrite_if (b : bool) pin w :
  (if b then digitalWrite pin true w else digitalWrite pin false w)
  = digitalWrite pin b w.
Proof. destruct b; reflexivity. Qed.

Lemma segments_loop pattern w :
  for_up (Z.to_nat NUM_SEGMENTS)
    (fun bit w =>
       let pin := pgm_pin (_segmentPins (dev w)) (Z.of_nat bit) in
       if negb (Z.land pattern (Z.shiftl 1 (7 - Z.of_nat bit)) =? 0)
       then digitalWrite pin true w
       else digitalWrite pin false w) w
  = on_mcu (fun m => fold_left (fun m e => log_event e m)
                       (segment_writes (_segmentPins (dev w)) pattern) m) w.
Proof.
  unfold for_up, segment_writes.
  change (Z.to_nat NUM_SEGMENTS) with 8%nat.
  cbn [seq fold_left map].
  cbv zeta.
  rewrite !digitalWrite_if.
  rewrite !bit_test by (cbn; lia).
  reflexivity.
Qed.

Lemma multiplex_closed w :
  multiplex w
  = on_mcu (fun m => fold_left (fun m e => log_event e m) (tick_writes w) m)
      (on_dev (with_currentDigit (next_digit w)) w).
Proof.
  unfold multiplex. rewrite segments_loop.
  unfold tick_writes, dark, next_digit, display.
  destruct w as [s m].
  cbn [digitalWrite emit on_mcu on_dev dev mcu].
  change (_blinkEnabled (with_currentDigit ((_currentDigit s + 1) mod NUM_DIGITS) s))
    with (_blinkEnabled s).
  change (_blinkStateOn (with_currentDigit ((_currentDigit s + 1) mod NUM_DIGITS) s))
    with (_blinkStateOn s).
  change (_displayPatterns (with_currentDigit ((_currentDigit s + 1) mod NUM_DIGITS) s))
    with (_displayPatterns s).
  change (_segmentPins (with_currentDigit ((_currentDigit s + 1) mod NUM_DIGITS) s))
    with (_segmentPins s).
  change (_digitPins (with_currentDigit ((_currentDigit s + 1) mod NUM_DIGITS) s))
    with (_digitPins s).
  change (_currentDigit (with_currentDigit ((_currentDigit s + 1) mod NUM_DIGITS) s))
    with ((_currentDigit s + 1) mod NUM_DIGITS).
  destruct (_blinkEnabled s && negb (_blinkStateOn s)).
  - reflexivity.
  - unfold digitalWrite, emit, on_mcu, on_dev. cbn [fold_left dev mcu]. rewrite fold_left_app. reflexivity.
Qed.

Lemma io_log_fold_log k : forall m,
  io_log (fold_left (fun m e => log_event e m) k m) = io_log m ++ k.
Proof.
  induction k as [|e k IH]; intros m; cbn [fold_left].
  - rewrite app_nil_r. reflexivity.
  - rewrite IH. cbn [log_event io_log]. rewrite <- app_assoc. reflexivity.
Qed.

Lemma io_log_multiplex w :
  io_log (mcu (multiplex w)) = io_log (mcu w) ++ tick_writes w.
Proof. rewrite multiplex_closed. cbn [on_mcu mcu on_dev]. apply io_log_fold_log. Qed.

Lemma pin_level_app l k pin :
  pin_level (l ++ k) pin = fold_left (drive pin) k (pin_level l pin).
Proof. unfold pin_level. apply fold_left_app. Qed.

(** Twelve pairwise distinct pins: any two positions of the list differ. *)
Lemma wired_pins_distinct seg dig (i j : nat) a b :
  NoDup (wired_pins seg dig) ->
  wired_pins seg dig !! i = Some a -> wired_pins seg dig !! j = Some b ->
  i <> j -> a <> b.
Proof.
  intros Hnd Hi Hj Hne ->. apply Hne. exact (NoDup_lookup _ i j b Hnd Hi Hj).
Qed.

Lemma wiring_facts seg dig :
  NoDup (wired_pins seg dig) ->
  (forall i j : nat, (i < 8)%nat -> (j < 8)%nat -> i <> j -> seg i <> seg j)
  /\ (forall i j : nat, (i < 4)%nat -> (j < 4)%nat -> i <> j -> dig i <> dig j)
  /\ (forall i j : nat, (i < 8)%nat -> (j < 4)%nat -> seg i <> dig j).
Proof.
  intros Hnd.
  assert (Hs : forall i : nat,
             (i < 8)%nat -> wired_pins seg dig !! i = Some (seg i)).
  { intros i Hi. do 8 (destruct i as [|i]; [reflexivity|]). lia. }
  assert (Hd : forall j : nat,
             (j < 4)%nat -> wired_pins seg dig !! (8 + j)%nat = Some (dig j)).
  { intros j Hj. do 4 (destruct j as [|j]; [reflexivity|]). lia. }
  split; [|split].
  - intros i j Hi Hj Hne.
    apply (wired_pins_distinct seg dig i j); auto.
  - intros i j Hi Hj Hne.
    apply (wired_pins_distinct seg dig (8 + i) (8 + j)); auto. lia.
  - intros i j Hi Hj.
    apply (wired_pins_distinct seg dig i (8 + j)); auto. lia.
Qed.

Lemma drive_segments_other seg pattern q acc :
  (forall i : nat, (i < 8)%nat -> seg i <> q) ->
  fold_left (drive q) (segment_writes (Some seg) pattern) acc = acc.
Proof.
  intros H. unfold segment_writes.
  cbn [map seq fold_left drive pgm_pin]. rewrite !Nat2Z.id.
  repeat match goal with
         | |- context [seg ?i =? q] =>
             rewrite (proj2 (Z.eqb_neq (seg i) q)) by (apply H; lia)
         end.
  reflexivity.
Qed.

Lemma drive_segments_own seg pattern (i : nat) acc :
  (forall i j : nat, (i < 8)%nat -> (j < 8)%nat -> i <> j -> seg i <> seg j) ->
  (i < 8)%nat ->
  fold_left (drive (seg i)) (segment_writes (Some seg) pattern) acc
  = Some (Z.testbit pattern (7 - Z.of_nat i)).
Proof.
  intros H Hi. unfold segment_writes.
  cbn [map seq fold_left drive pgm_pin]. rewrite !Nat2Z.id.
  do 8 (destruct i as [|i];
        [repeat match goal with
                | |- context [?a =? ?a] => rewrite (Z.eqb_refl a)
                | |- context [seg ?j =? seg ?k] =>
                    rewrite (proj2 (Z.eqb_neq (seg j) (seg k)))
                      by (apply H; lia)
                end; reflexivity|]).
  lia.
Qed.

(** X8 ([multiplex]): on a display that is not blinked off and whose twelve
    pins are distinct, a tick leaves segment pin [bit] at bit [7 - bit] of
    the next digit's pattern, that digit's pin HIGH and the previous
    digit's pin LOW. *)
Theorem multiplex_drives_pattern w seg dig :
  _segmentPins (dev w) = Some seg -> _digitPins (dev w) = Some dig ->
  NoDup (wired_pins seg dig) ->
  0 <= _currentDigit (dev w) <= 3 ->
  dark w = false ->
  let log' := io_log (mcu (multiplex w)) in
  let pattern := default 0 (display w !! Z.to_nat (next_digit w)) in
  (forall bit : nat,
     (bit < 8)%nat ->
     pin_level log' (seg bit) = Some (Z.testbit pattern (7 - Z.of_nat bit)))
  /\ pin_level log' (dig (Z.to_nat (next_digit w))) = Some true
  /\ pin_level log' (dig (Z.to_nat (_currentDigit (dev w)))) = Some false.
Proof.
  intros Hseg Hdig Hnd Hc Hdark log' pattern. subst log'.
  destruct (wiring_facts seg dig Hnd) as (Hss & Hdd & Hsd).
  rewrite io_log_multiplex. unfold tick_writes. rewrite Hdark.
  fold pattern. generalize pattern. clear pattern. intros pattern.
  rewrite Hseg, Hdig. cbn [pgm_pin].
  assert (Hn : (Z.to_nat (next_digit w) < 4)%nat
               /\ Z.to_nat (next_digit w) <> Z.to_nat (_currentDigit (dev w))).
  { unfold next_digit, NUM_DIGITS.
    assert (Hcases : _currentDigit (dev w) = 0 \/ _currentDigit (dev w) = 1
                     \/ _currentDigit (dev w) = 2 \/ _currentDigit (dev w) = 3)
      by lia.
    destruct Hcases as [->|[->|[-> | ->]]]; split; vm_compute; lia. }
  destruct Hn as [Hn4 Hne].
  assert (Hc4 : (Z.to_nat (_currentDigit (dev w)) < 4)%nat) by lia.
  generalize dependent (Z.to_nat (next_digit w)). intros n Hn4 Hne.
  generalize dependent (Z.to_nat (_currentDigit (dev w))). intros c Hc4 Hne.
  split; [|split].
  - intros bit Hbit. rewrite pin_level_app. cbn [fold_left].
    rewrite fold_left_app. cbn [fold_left drive].
    rewrite (proj2 (Z.eqb_neq (dig n) (seg bit)))
      by (apply not_eq_sym, Hsd; lia).
    apply drive_segments_own; assumption.
  - rewrite pin_level_app. cbn [fold_left].
    rewrite fold_left_app. cbn [fold_left drive].
    rewrite Z.eqb_refl. reflexivity.
  - rewrite pin_level_app. cbn [fold_left].
    rewrite fold_left_app. cbn [fold_left drive].
    rewrite (proj2 (Z.eqb_neq (dig n) (dig c))) by (apply Hdd; lia).
    rewrite drive_segments_other by (intros i Hi; apply Hsd; lia).
    rewrite Z.eqb_refl. reflexivity.
Qed.

Lemma multiplex_drives_pattern_witness :
  let w := setNumber 1234 (-1) running in
  pin_level (io_log (mcu (multiplex w))) 11 = Some true
  /\ pin_level (io_log (mcu (multiplex w))) 10 = Some false.
Proof.
  destruct (multiplex_drives_pattern (setNumber 1234 (-1) running)
              (fun i => nth i [2; 3; 4; 5; 6; 7; 8; 9] 0)
              (fun i => nth i [10; 11; 12; 13] 0)) as (_ & A & B);
    [reflexivity | reflexivity
    | apply (bool_decide_unpack _); vm_compute; reflexivity
    | vm_compute; split; discriminate | reflexivity |].
  split; [exact A | exact B].
Defined.

Lemma drive_quiet k q : forall acc,
  quiet k = true -> fold_left (drive q) k acc = acc.
Proof.
  induction k as [|e k IH]; intros acc H; [reflexivity|].
  cbn [quiet forallb] in H. apply andb_true_iff in H as [He Hk].
  cbn [fold_left]. rewrite (IH _ Hk).
  destruct e; try reflexivity. discriminate He.
Qed.

Lemma quiet_shape k : renderer_shape k -> quiet k = true.
Proof. intros [->|[[ps ->]|(ps & v & ->)]]; reflexivity. Qed.

Lemma drive_low_keeps k q :
  forallb drives_low k = true ->
  fold_left (drive q) k (Some false) = Some false.
Proof.
  induction k as [|e k IH]; intros H; [reflexivity|].
  cbn [forallb] in H. apply andb_true_iff in H as [He Hk].
  cbn [fold_left].
  replace (drive q (Some false) e) with (Some false); [exact (IH Hk)|].
  destruct e as [| p [] | | | |]; try reflexivity; try discriminate He.
  cbn. destruct (p =? q); reflexivity.
Qed.

Lemma drive_low_sets k q : forall acc,
  forallb drives_low k = true ->
  In (EvDigitalWrite q false) k ->
  fold_left (drive q) k acc = Some false.
Proof.
  induction k as [|e k IH]; intros acc H Hin; [destruct Hin|].
  cbn [forallb] in H. apply andb_true_iff in H as [He Hk].
  cbn [fold_left]. destruct Hin as [-> | Hin].
  - cbn [drive]. rewrite Z.eqb_refl. apply drive_low_keeps, Hk.
  - apply IH; assumption.
Qed.

Lemma drive_segment_tests d segs q : forall acc,
  fold_left (drive q) (concat (map (segment_test d) segs)) acc
  = if existsb (fun s => s =? q) segs then Some false else acc.
Proof.
  induction segs as [|s segs IH]; intros acc; [reflexivity|].
  cbn [map concat existsb]. rewrite fold_left_app, IH.
  cbn [segment_test fold_left drive].
  destruct (s =? q), (existsb (fun s => s =? q) segs); reflexivity.
Qed.

Lemma begin_ok_inv w :
  fst (begin w) = OK ->
  exists seg dig,
    _segmentPins (dev w) = Some seg /\ _digitPins (dev w) = Some dig
    /\ forallb (fun i => isPinValid (seg i)) (seq 0 8) = true
    /\ forallb (fun i => isPinValid (dig i)) (seq 0 4) = true.
Proof.
  unfold begin.
  destruct (_segmentPins (dev w)) as [seg|], (_digitPins (dev w)) as [dig|];
    try discriminate.
  change (Z.to_nat NUM_SEGMENTS) with 8%nat.
  change (Z.to_nat NUM_DIGITS) with 4%nat.
  destruct (forallb (fun i => isPinValid (seg i)) (seq 0 8)) eqn:V1;
    [|discriminate].
  destruct (forallb (fun i => isPinValid (dig i)) (seq 0 4)) eqn:V2;
    [|discriminate].
  intros _. exists seg, dig. auto.
Qed.

Lemma begin_ok_log w seg dig :
  fst (begin w) = OK ->
  _segmentPins (dev w) = Some seg -> _digitPins (dev w) = Some dig ->
  io_log (mcu (snd (begin w)))
  = io_log (mcu w) ++ begin_writes seg dig ++ [EvCli; EvSei].
Proof.
  intros Hok Hs Hd.
  destruct (begin_ok_inv w Hok) as (seg' & dig' & Hs' & Hd' & V1 & V2).
  rewrite Hs in Hs'. rewrite Hd in Hd'.
  injection Hs' as <-. injection Hd' as <-.
  unfold begin. rewrite Hs, Hd.
  change (Z.to_nat NUM_SEGMENTS) with 8%nat.
  change (Z.to_nat NUM_DIGITS) with 4%nat.
  rewrite V1, V2. destruct w as [s m].
  cbn. rewrite <- !app_assoc. reflexivity.
Qed.

Lemma testWiring_log w seg dig delayMs :
  _isrActive (dev w) = true ->
  _segmentPins (dev w) = Some seg -> _digitPins (dev w) = Some dig ->
  io_log (mcu (testWiring delayMs w))
  = io_log (mcu w) ++ testWiring_events seg dig delayMs.
Proof.
  intros Ha Hs Hd. unfold testWiring. rewrite Ha. cbv iota. 
  change (Z.to_nat NUM_SEGMENTS) with 8%nat.
  change (Z.to_nat NUM_DIGITS) with 4%nat.
  destruct w as [s m]. cbn [dev] in Hs, Hd.
  cbn. rewrite Hs, Hd. cbn. rewrite <- !app_assoc. reflexivity.
Qed.

Lemma forallb_pins (f : nat -> Z) n :
  forallb (fun i => isPinValid (f i)) (seq 0 n) = true
  <-> Forall (fun p => p <= MAX_PIN) (map f (seq 0 n)).
Proof.
  generalize 0%nat. induction n as [|n IH]; intros a; cbn [seq forallb map].
  - split; [constructor | reflexivity].
  - rewrite andb_true_iff, Forall_cons, IH. unfold isPinValid.
    rewrite Z.leb_le. reflexivity.
Qed.

(** X9 ([begin], [isPinValid]): a failed [begin] does nothing but store its
    error code: no pin is configured and the timer is left alone.  The code
    is [NULL_POINTER] exactly when a pin array is missing and [INVALID_PIN]
    exactly when both are given and some pin is above [MAX_PIN]. *)
Theorem begin_failure_atomic w :
  fst (begin w) <> OK ->
  snd (begin w) = on_dev (with_lastError (fst (begin w))) w
  /\ (fst (begin w) = NULL_POINTER
      <-> _segmentPins (dev w) = None \/ _digitPins (dev w) = None)
  /\ (fst (begin w) = INVALID_PIN
      <-> exists seg dig,
            _segmentPins (dev w) = Some seg /\ _digitPins (dev w) = Some dig
            /\ ~ Forall (fun p => p <= MAX_PIN) (wired_pins seg dig)).
Proof.
  unfold begin, wired_pins.
  change (Z.to_nat NUM_SEGMENTS) with 8%nat.
  change (Z.to_nat NUM_DIGITS) with 4%nat.
  destruct (_segmentPins (dev w)) as [seg|], (_digitPins (dev w)) as [dig|];
    try (intros _; split; [reflexivity|]; split;
         [split; auto | split; [discriminate | intros (? & ? & ? & ? & _); discriminate]]).
  destruct (forallb (fun i => isPinValid (seg i)) (seq 0 8)) eqn:V1;
    [destruct (forallb (fun i => isPinValid (dig i)) (seq 0 4)) eqn:V2|];
    cbn [negb fst snd]; intros H; try (exfalso; apply H; reflexivity);
    (split; [reflexivity|]); (split; [split; [discriminate | intros [?|?]; discriminate]|]);
    (split; [intros _; exists seg, dig; split; [reflexivity|]; split; [reflexivity|]
            | reflexivity]);
    rewrite Forall_app, <- !forallb_pins, V1, ?V2; intros [? ?]; discriminate.
Qed.

Lemma begin_failure_atomic_witness :
  let w := SevenSegment_new None uno_digitPins reset_avr in
  snd (begin w) = on_dev (with_lastError NULL_POINTER) w.
Proof.
  apply (begin_failure_atomic (SevenSegment_new None uno_digitPins reset_avr)).
  vm_compute. discriminate.
Defined.

Lemma In_begin_writes seg dig q :
  In q (wired_pins seg dig) -> In (EvDigitalWrite q false) (begin_writes seg dig).
Proof.
  intros H. unfold begin_writes. apply in_concat.
  exists [EvPinMode q; EvDigitalWrite q false]. split.
  - apply in_map_iff. exists q. auto.
  - right. left. reflexivity.
Qed.

Lemma begin_writes_low seg dig :
  forallb drives_low (begin_writes seg dig ++ [EvCli; EvSei]) = true.
Proof. reflexivity. Qed.

Lemma begin_ok_state w :
  fst (begin w) = OK ->
  dev (snd (begin w)) = with_lastError OK (with_isrActive true (dev w))
  /\ TCCR1A (mcu (snd (begin w))) = 0
  /\ TCCR1B (mcu (snd (begin w))) = 11
  /\ TCNT1 (mcu (snd (begin w))) = 0
  /\ OCR1A (mcu (snd (begin w))) = 499
  /\ TIMSK1 (mcu (snd (begin w))) = Z.lor (TIMSK1 (mcu w)) 2
  /\ SREG_I (mcu (snd (begin w))) = true.
Proof.
  intros Hok.
  destruct (begin_ok_inv w Hok) as (seg & dig & Hs & Hd & V1 & V2).
  unfold begin. rewrite Hs, Hd.
  change (Z.to_nat NUM_SEGMENTS) with 8%nat.
  change (Z.to_nat NUM_DIGITS) with 4%nat.
  rewrite V1, V2. destruct w as [s m]. cbn. repeat split; reflexivity.
Qed.

(** X10 ([begin]): a successful [begin] has checked all twelve pins, leaves
    each of them LOW, sets Timer1 to CTC mode with prescaler 64 and compare
    value 499, enables the compare interrupt without touching the other
    bits of [TIMSK1], turns interrupts on and marks the instance
    initialised; the patterns and the cursor are as before. *)
Theorem begin_success w seg dig :
  fst (begin w) = OK ->
  _segmentPins (dev w) = Some seg -> _digitPins (dev w) = Some dig ->
  let w' := snd (begin w) in
  Forall (fun p => p <= MAX_PIN) (wired_pins seg dig)
  /\ isInitialized w' = true /\ getLastError w' = OK
  /\ display w' = display w
  /\ _currentDigit (dev w') = _currentDigit (dev w)
  /\ TCCR1A (mcu w') = 0 /\ TCCR1B (mcu w') = 11 /\ TCNT1 (mcu w') = 0
  /\ OCR1A (mcu w') = 499
  /\ (forall n, 0 <= n ->
        Z.testbit (TIMSK1 (mcu w')) n
        = if n =? OCIE1A then true else Z.testbit (TIMSK1 (mcu w)) n)
  /\ SREG_I (mcu w') = true
  /\ (forall q, In q (wired_pins seg dig) ->
        pin_level (io_log (mcu w')) q = Some false).
Proof.
  intros Hok Hs Hd w'. subst w'.
  destruct (begin_ok_state w Hok) as (Hdev & A & B & C & D & E & F).
  destruct (begin_ok_inv w Hok) as (seg' & dig' & Hs' & Hd' & V1 & V2).
  rewrite Hs in Hs'. rewrite Hd in Hd'.
  injection Hs' as <-. injection Hd' as <-.
  split.
  { unfold wired_pins. rewrite Forall_app, <- !forallb_pins. auto. }
  unfold isInitialized, getLastError, display. rewrite Hdev, A, B, C, D, E, F.
  repeat (split; [reflexivity|]).
  split.
  { intros n Hn. rewrite Z.lor_spec. change 2 with (2 ^ 1).
    rewrite Z.pow2_bits_eqb by lia. unfold OCIE1A.
    rewrite (Z.eqb_sym n 1). destruct (1 =? n); [apply orb_true_r|apply orb_false_r]. }
  split; [reflexivity|].
  intros q Hq. rewrite (begin_ok_log w seg dig Hok Hs Hd), pin_level_app.
  apply drive_low_sets; [apply begin_writes_low|].
  apply in_or_app. left. apply In_begin_writes, Hq.
Qed.

Lemma begin_success_witness :
  isInitialized running = true
  /\ OCR1A (mcu running) = 499
  /\ pin_level (io_log (mcu running)) 13 = Some false.
Proof.
  destruct (begin_success sketch
              (fun i => nth i [2; 3; 4; 5; 6; 7; 8; 9] 0)
              (fun i => nth i [10; 11; 12; 13] 0))
    as (_ & A & _ & _ & _ & _ & _ & _ & B & _ & _ & C);
    [reflexivity | reflexivity | reflexivity |].
  split; [exact A|]. split; [exact B|].
  apply C. vm_compute. tauto.
Defined.

Lemma testWiring_state w delayMs :
  _isrActive (dev w) = true ->
  dev (testWiring delayMs w) = dev w
  /\ TIMSK1 (mcu (testWiring delayMs w))
     = Z.lor (Z.land (TIMSK1 (mcu w)) (Z.lnot 2)) 2
  /\ SREG_I (mcu (testWiring delayMs w)) = true
  /\ TCCR1A (mcu (testWiring delayMs w)) = TCCR1A (mcu w)
  /\ TCCR1B (mcu (testWiring delayMs w)) = TCCR1B (mcu w)
  /\ OCR1A (mcu (testWiring delayMs w)) = OCR1A (mcu w).
Proof.
  intros Ha. unfold testWiring. rewrite Ha. cbv iota.
  change (Z.to_nat NUM_SEGMENTS) with 8%nat.
  change (Z.to_nat NUM_DIGITS) with 4%nat.
  destruct w as [s m]. cbn. repeat split; reflexivity.
Qed.

Lemma existsb_In (l : list Z) q : In q l -> existsb (fun s => s =? q) l = true.
Proof.
  intros H. apply existsb_exists. exists q. split; [exact H | apply Z.eqb_refl].
Qed.

Lemma testWiring_levels seg dig delayMs q acc :
  In q (wired_pins seg dig) ->
  fold_left (drive q) (testWiring_events seg dig delayMs) acc = Some false.
Proof.
  intros Hq. unfold testWiring_events.
  rewrite !fold_left_app, drive_segment_tests.
  apply in_app_or in Hq as [Hq|Hq].
  - rewrite (existsb_In _ _ Hq).
    apply (drive_low_keeps
             (map (fun p => EvDigitalWrite p false) (map dig (seq 0 4)) ++ [EvSei])).
    reflexivity.
  - rewrite <- fold_left_app. apply drive_low_sets; [reflexivity|].
    apply in_or_app. left. apply in_map_iff. exists q. auto.
Qed.

(** X11 ([testWiring]): on an initialised display the test blocks for eight
    times the delay, and when it returns every pin is LOW, the compare
    interrupt and the global interrupt flag are on, and the instance is as
    it was. *)
Theorem testWiring_restores w seg dig delayMs :
  isInitialized w = true ->
  _segmentPins (dev w) = Some seg -> _digitPins (dev w) = Some dig ->
  let w' := testWiring delayMs w in
  dev w' = dev w
  /\ Z.testbit (TIMSK1 (mcu w')) OCIE1A = true
  /\ SREG_I (mcu w') = true
  /\ total_delay (events_of (testWiring delayMs) w) = 8 * delayMs
  /\ (forall q, In q (wired_pins seg dig) ->
        pin_level (io_log (mcu w')) q = Some false).
Proof.
  intros Ha Hs Hd w'. subst w'. unfold isInitialized in Ha.
  destruct (testWiring_state w delayMs Ha) as (Hdev & Ht & HI & _).
  split; [exact Hdev|]. split.
  { rewrite Ht, Z.lor_spec. unfold OCIE1A. apply orb_true_r. }
  split; [exact HI|]. split.
  { unfold events_of. rewrite (testWiring_log w seg dig delayMs Ha Hs Hd).
    rewrite drop_app_length. cbn. lia. }
  intros q Hq. rewrite (testWiring_log w seg dig delayMs Ha Hs Hd), pin_level_app.
  apply testWiring_levels, Hq.
Qed.

Lemma testWiring_restores_witness :
  dev (testWiring 1000 running) = dev running
  /\ total_delay (events_of (testWiring 1000) running) = 8000.
Proof.
  destruct (testWiring_restores running
              (fun i => nth i [2; 3; 4; 5; 6; 7; 8; 9] 0)
              (fun i => nth i [10; 11; 12; 13] 0) 1000)
    as (A & _ & _ & B & _); [reflexivity | reflexivity | reflexivity |].
  split; [exact A | exact B].
Defined.

Lemma end_state w :
  dev (end_ w)
  = with_display
      (<[3%nat := 0]> (<[2%nat := 0]> (<[1%nat := 0]>
         (<[0%nat := 0]> (_displayPatterns (dev w))))))
      (with_isrActive false (dev w))
  /\ TIMSK1 (mcu (end_ w)) = Z.land (TIMSK1 (mcu w)) (Z.lnot 2)
  /\ SREG_I (mcu (end_ w)) = true
  /\ io_log (mcu (end_ w))
     = io_log (mcu w)
       ++ [EvCli; EvSei; EvCli; EvStore 0 0; EvStore 1 0; EvStore 2 0;
           EvStore 3 0; EvSei].
Proof.
  destruct w as [s m]. repeat split; try reflexivity.
  unfold end_, clear. change (Z.to_nat NUM_DIGITS) with 4%nat. cbn.
  rewrite <- !app_assoc. reflexivity.
Qed.

Lemma mask_round_trip x :
  Z.testbit x 1 = false -> Z.land (Z.lor x 2) (Z.lnot 2) = x.
Proof.
  intros H. apply Z.bits_inj'. intros n Hn.
  rewrite Z.land_spec, Z.lor_spec, Z.lnot_spec by lia.
  change 2 with (2 ^ 1). rewrite Z.pow2_bits_eqb by lia.
  destruct (Z.eqb_spec 1 n) as [<-|Hne]; cbn [negb].
  - rewrite H. reflexivity.
  - rewrite orb_false_r, andb_true_r. reflexivity.
Qed.

Lemma clear_bit_spec x n :
  0 <= n ->
  Z.testbit (Z.land x (Z.lnot 2)) n = if n =? OCIE1A then false else Z.testbit x n.
Proof.
  intros Hn. rewrite Z.land_spec, Z.lnot_spec by lia.
  change 2 with (2 ^ 1). rewrite Z.pow2_bits_eqb by lia. unfold OCIE1A.
  rewrite (Z.eqb_sym n 1).
  destruct (1 =? n); cbn [negb]; [apply andb_false_r | apply andb_true_r].
Qed.

(** X12 ([end], the Timer1 handler): after [end] the instance is not
    initialised, [TIMSK1] is as before with the [OCIE1A] bit cleared,
    interrupts are on, a timer interrupt that still arrives does nothing,
    the patterns are blank and no pin has been written.  After a successful
    [begin] followed by [end], [TIMSK1] is its value from before [begin]
    with the [OCIE1A] bit cleared: it is given back as it was exactly when
    that bit was clear before [begin], and a compare interrupt that was
    already enabled is left disabled. *)
Theorem end_stops w :
  let w' := end_ w in
  isInitialized w' = false
  /\ (forall n, 0 <= n ->
        Z.testbit (TIMSK1 (mcu w')) n
        = if n =? OCIE1A then false else Z.testbit (TIMSK1 (mcu w)) n)
  /\ SREG_I (mcu w') = true
  /\ ISR_TIMER1_COMPA w' = w'
  /\ (wf w -> display w' = [0; 0; 0; 0])
  /\ (forall q, pin_level (io_log (mcu w')) q = pin_level (io_log (mcu w)) q)
  /\ (fst (begin w) = OK ->
      (forall n, 0 <= n ->
         Z.testbit (TIMSK1 (mcu (end_ (snd (begin w))))) n
         = if n =? OCIE1A then false else Z.testbit (TIMSK1 (mcu w)) n)
      /\ (TIMSK1 (mcu (end_ (snd (begin w)))) = TIMSK1 (mcu w)
          <-> Z.testbit (TIMSK1 (mcu w)) OCIE1A = false)).
Proof.
  intros w'. subst w'.
  destruct (end_state w) as (Hdev & Ht & HI & Hlog).
  split; [unfold isInitialized; rewrite Hdev; reflexivity|]. split.
  { intros n Hn. rewrite Ht. apply clear_bit_spec, Hn. }
  split; [exact HI|]. split.
  { unfold ISR_TIMER1_COMPA. rewrite Hdev. reflexivity. }
  split.
  { intros Hwf. unfold display. rewrite Hdev. four_slots w Hwf. reflexivity. }
  split.
  { intros q. rewrite Hlog, pin_level_app. reflexivity. }
  intros Hok. destruct (end_state (snd (begin w))) as (_ & Ht' & _).
  destruct (begin_ok_state w Hok) as (_ & _ & _ & _ & _ & E & _).
  assert (B : forall n, 0 <= n ->
            Z.testbit (TIMSK1 (mcu (end_ (snd (begin w))))) n
            = if n =? OCIE1A then false else Z.testbit (TIMSK1 (mcu w)) n).
  { intros n Hn. rewrite Ht', E, clear_bit_spec by exact Hn.
    destruct (Z.eqb_spec n OCIE1A) as [->|Hne]; [reflexivity|].
    rewrite Z.lor_spec. change 2 with (2 ^ 1).
    rewrite Z.pow2_bits_eqb by lia. unfold OCIE1A in Hne.
    destruct (Z.eqb_spec 1 n); [lia|]. apply orb_false_r. }
  split; [exact B|]. split.
  - intros Heq. rewrite <- Heq. apply (B OCIE1A). unfold OCIE1A. lia.
  - intros Hbit. rewrite Ht', E. apply mask_round_trip, Hbit.
Qed.

Lemma end_stops_witness :
  isInitialized (end_ running) = false
  /\ TIMSK1 (mcu (end_ running)) = TIMSK1 (mcu sketch)
  /\ TIMSK1 (mcu (end_ (snd (begin running)))) <> TIMSK1 (mcu running).
Proof.
  split; [exact (proj1 (end_stops running))|]. split.
  - apply (end_stops sketch); reflexivity.
  - intros E. apply (end_stops running) in E; [discriminate E | reflexivity].
Defined.

Lemma others_off_multiplex w seg dig :
  _segmentPins (dev w) = Some seg -> _digitPins (dev w) = Some dig ->
  NoDup (wired_pins seg dig) ->
  0 <= _currentDigit (dev w) <= 3 ->
  others_off dig w -> others_off dig (multiplex w).
Proof.
  intros Hseg Hdig Hnd Hc Hoff d Hd Hne.
  destruct (wiring_facts seg dig Hnd) as (Hss & Hdd & Hsd).
  rewrite currentDigit_multiplex in Hne.
  rewrite io_log_multiplex, pin_level_app. unfold tick_writes.
  rewrite Hseg, Hdig. cbn [pgm_pin fold_left drive].
  assert (Hprev : (if dig (Z.to_nat (_currentDigit (dev w))) =? dig d
                   then Some false else pin_level (io_log (mcu w)) (dig d))
                  = Some false).
  { destruct (Z.eqb_spec (dig (Z.to_nat (_currentDigit (dev w)))) (dig d))
      as [_|Hx]; [reflexivity|].
    apply Hoff; [exact Hd|]. intros E. apply Hx. rewrite <- E, Nat2Z.id.
    reflexivity. }
  rewrite Hprev. destruct (dark w); [reflexivity|].
  rewrite fold_left_app. cbn [fold_left drive].
  rewrite drive_segments_other by (intros i Hi; apply Hsd; lia).
  unfold next_digit.
  assert (Hn : (Z.to_nat ((_currentDigit (dev w) + 1) mod NUM_DIGITS) < 4)%nat
               /\ Z.to_nat ((_currentDigit (dev w) + 1) mod NUM_DIGITS) <> d).
  { pose proof (Z.mod_pos_bound (_currentDigit (dev w) + 1) NUM_DIGITS) as B.
    unfold NUM_DIGITS in *. lia. }
  destruct Hn as [Hn1 Hn2].
  rewrite (proj2 (Z.eqb_neq _ _) (Hdd _ _ Hn1 Hd Hn2)). reflexivity.
Qed.

Lemma config_lastError e w :
  config_of (dev (on_dev (with_lastError e) w)) = config_of (dev w).
Proof. destruct w as [[] m]. reflexivity. Qed.

Lemma config_store_all ps w :
  config_of (dev (store_all ps w)) = config_of (dev w).
Proof. destruct w as [[] m]. reflexivity. Qed.

Lemma config_store_one i v w :
  config_of (dev (sei (store_pattern i v (cli w)))) = config_of (dev w).
Proof. destruct w as [[] m]. reflexivity. Qed.

Lemma config_setText t w :
  config_of (dev (snd (setText t w))) = config_of (dev w).
Proof.
  unfold setText. destruct t as [t|]; [|reflexivity].
  case_ifs; [reflexivity|]. destruct w as [[] m]. reflexivity.
Qed.

(** A renderer writes the pattern buffer and, for [setFloat], the stored
    error code; nothing else of the instance. *)
Lemma config_render r w : config_of (dev (render r w)) = config_of (dev w).
Proof.
  destruct r; cbn [render].
  - rewrite setNumber_store_all. apply config_store_all.
  - unfold setFloat.
    case_ifs; cbn [snd]; rewrite config_lastError;
      rewrite ?config_store_one, ?setNumber_store_all, ?config_store_all,
        ?config_setText; reflexivity.
  - apply config_setText.
  - unfold setHundredths. rewrite setNumber_store_all. apply config_store_all.
  - destruct patterns; [|reflexivity]. destruct w as [[] m]. reflexivity.
Qed.

Lemma pins_of_config s1 s2 :
  config_of s1 = config_of s2 ->
  _segmentPins s1 = _segmentPins s2 /\ _digitPins s1 = _digitPins s2
  /\ _currentDigit s1 = _currentDigit s2
  /\ _leadingZeros s1 = _leadingZeros s2
  /\ _blinkEnabled s1 = _blinkEnabled s2
  /\ _blinkStateOn s1 = _blinkStateOn s2
  /\ _isrActive s1 = _isrActive s2.
Proof.
  intros H.
  change (_segmentPins (config_of s1) = _segmentPins (config_of s2)
          /\ _digitPins (config_of s1) = _digitPins (config_of s2)
          /\ _currentDigit (config_of s1) = _currentDigit (config_of s2)
          /\ _leadingZeros (config_of s1) = _leadingZeros (config_of s2)
          /\ _blinkEnabled (config_of s1) = _blinkEnabled (config_of s2)
          /\ _blinkStateOn (config_of s1) = _blinkStateOn (config_of s2)
          /\ _isrActive (config_of s1) = _isrActive (config_of s2)).
  rewrite H. repeat split; reflexivity.
Qed.

Lemma pins_render r w :
  _segmentPins (dev (render r w)) = _segmentPins (dev w)
  /\ _digitPins (dev (render r w)) = _digitPins (dev w).
Proof.
  destruct (pins_of_config _ _ (config_render r w)) as (H1 & H2 & _). auto.
Qed.

Lemma dev_begin w :
  dev (snd (begin w)) = with_lastError (fst (begin w)) (dev w)
  \/ dev (snd (begin w)) = with_lastError OK (with_isrActive true (dev w)).
Proof.
  destruct (fst (begin w)) eqn:E.
  - right. apply begin_ok_state, E.
  - left. unfold begin in *.
    destruct (_segmentPins (dev w)), (_digitPins (dev w));
      try reflexivity.
    destruct (negb _); [discriminate E|]. destruct (negb _); discriminate E.
  - left. unfold begin in *.
    destruct (_segmentPins (dev w)), (_digitPins (dev w));
      try discriminate E.
    destruct (negb _); [reflexivity|]. destruct (negb _); [reflexivity|].
    discriminate E.
  - exfalso. unfold begin in E.
    destruct (_segmentPins (dev w)), (_digitPins (dev w));
      try discriminate E.
    destruct (negb _); [discriminate E|]. destruct (negb _); discriminate E.
  - exfalso. unfold begin in E.
    destruct (_segmentPins (dev w)), (_digitPins (dev w));
      try discriminate E.
    destruct (negb _); [discriminate E|]. destruct (negb _); discriminate E.
  - exfalso. unfold begin in E.
    destruct (_segmentPins (dev w)), (_digitPins (dev w));
      try discriminate E.
    destruct (negb _); [discriminate E|]. destruct (negb _); discriminate E.
Qed.

Lemma pins_run_call c w :
  _segmentPins (dev (run_call c w)) = _segmentPins (dev w)
  /\ _digitPins (dev (run_call c w)) = _digitPins (dev w).
Proof.
  destruct c; cbn [run_call].
  - destruct (dev_begin w) as [-> | ->]; split; reflexivity.
  - destruct w as [[] m]. split; reflexivity.
  - unfold refresh. case_ifs; destruct w as [[] m]; split; reflexivity.
  - destruct w as [[] m]. split; reflexivity.
  - unfold testWiring. case_ifs; destruct w as [[] m]; split; reflexivity.
  - apply pins_render.
  - split; reflexivity.
  - unfold setRefreshInterval. case_ifs; split; reflexivity.
  - split; reflexivity.
  - split; reflexivity.
Qed.

Lemma begin_failure_mcu w : fst (begin w) <> OK -> mcu (snd (begin w)) = mcu w.
Proof.
  unfold begin.
  destruct (_segmentPins (dev w)), (_digitPins (dev w)); try reflexivity.
  destruct (negb _); [reflexivity|]. destruct (negb _); [reflexivity|].
  intros H. exfalso. apply H. reflexivity.
Qed.

Lemma io_log_render r w :
  exists k, quiet k = true /\ io_log (mcu (render r w)) = io_log (mcu w) ++ k.
Proof.
  destruct (render_effects r w) as (k & Hk & H).
  destruct (H w eq_refl) as [Hm _].
  exists k. split; [apply quiet_shape, Hk|].
  rewrite Hm. apply io_log_exec_all.
Qed.

Lemma io_log_clear w :
  io_log (mcu (clear w))
  = io_log (mcu w)
    ++ [EvCli; EvStore 0 0; EvStore 1 0; EvStore 2 0; EvStore 3 0; EvSei].
Proof.
  unfold clear. change (Z.to_nat NUM_DIGITS) with 4%nat.
  destruct w as [s m]. cbn. rewrite <- !app_assoc. reflexivity.
Qed.

(** A call leaves a wired pin at the level it had, or leaves it LOW. *)
Lemma pin_level_run_call c w seg dig q :
  _segmentPins (dev w) = Some seg -> _digitPins (dev w) = Some dig ->
  In q (wired_pins seg dig) ->
  pin_level (io_log (mcu (run_call c w))) q = pin_level (io_log (mcu w)) q
  \/ pin_level (io_log (mcu (run_call c w))) q = Some false.
Proof.
  intros Hs Hd Hq. destruct c; cbn [run_call].
  - destruct (fst (begin w)) eqn:E;
      try (left; rewrite begin_failure_mcu by (rewrite E; discriminate);
           reflexivity).
    right. rewrite (begin_ok_log w seg dig E Hs Hd), pin_level_app.
    apply drive_low_sets; [apply begin_writes_low|].
    apply in_or_app. left. apply In_begin_writes, Hq.
  - left. destruct (end_state w) as (_ & _ & _ & ->).
    rewrite pin_level_app. reflexivity.
  - left. unfold refresh. case_ifs; reflexivity.
  - left. rewrite io_log_clear, pin_level_app. reflexivity.
  - destruct (_isrActive (dev w)) eqn:Ha.
    + right. rewrite (testWiring_log w seg dig delayMs Ha Hs Hd), pin_level_app.
      apply testWiring_levels, Hq.
    + left. unfold testWiring. rewrite Ha. reflexivity.
  - left. destruct (io_log_render r w) as (k & Hk & ->).
    rewrite pin_level_app. apply drive_quiet, Hk.
  - left. reflexivity.
  - left. unfold setRefreshInterval. case_ifs; reflexivity.
  - left. reflexivity.
  - left. reflexivity.
Qed.

Lemma others_off_run_call c w seg dig :
  _segmentPins (dev w) = Some seg -> _digitPins (dev w) = Some dig ->
  others_off dig w -> others_off dig (run_call c w).
Proof.
  intros Hs Hd Hoff d Hlt Hne. rewrite currentDigit_run_call in Hne.
  assert (Hq : In (dig d) (wired_pins seg dig)).
  { apply in_or_app. right. apply in_map, in_seq. lia. }
  destruct (pin_level_run_call c w seg dig (dig d) Hs Hd Hq) as [-> | ->];
    [apply Hoff; assumption | reflexivity].
Qed.

Section Scanning.

Variables seg dig : nat -> Z.
Hypothesis wiring : NoDup (wired_pins seg dig).

Lemma scanning_step a w : scanning seg dig w -> scanning seg dig (run_activity a w).
Proof.
  intros (Hs & Hd & Hc & Hoff). destruct a as [|c]; cbn [run_activity].
  - unfold scanning. rewrite dev_multiplex.
    cbn [with_currentDigit _segmentPins _digitPins _currentDigit].
    split; [exact Hs|]. split; [exact Hd|]. split.
    + pose proof (Z.mod_pos_bound (_currentDigit (dev w) + 1) NUM_DIGITS) as B.
      unfold NUM_DIGITS in *. lia.
    + intros d Hlt Hne.
      exact (others_off_multiplex w seg dig Hs Hd wiring Hc Hoff d Hlt Hne).
  - destruct (pins_run_call c w) as [Ps Pd].
    unfold scanning. rewrite Ps, Pd, currentDigit_run_call.
    split; [exact Hs|]. split; [exact Hd|]. split; [exact Hc|].
    apply (others_off_run_call c w seg dig Hs Hd Hoff).
Qed.

Lemma scanning_run l : forall w, scanning seg dig w -> scanning seg dig (run l w).
Proof.
  induction l as [|a l IH]; intros w H; cbn [run fold_left]; [exact H|].
  apply IH, scanning_step, H.
Qed.

(** X13 ([multiplex] between calls): once [begin] has succeeded on
    distinct pins, after any sequence of completed calls and ticks the
    cursor is on a digit and every other digit pin is LOW.  This holds
    between calls, not inside them: on an initialised display [testWiring]
    starts by driving all four digit pins HIGH. *)
Theorem digits_off_between_calls w l :
  _segmentPins (dev w) = Some seg -> _digitPins (dev w) = Some dig ->
  0 <= _currentDigit (dev w) <= 3 ->
  fst (begin w) = OK ->
  let w' := run l (snd (begin w)) in
  0 <= _currentDigit (dev w') <= 3
  /\ (forall d : nat,
        (d < 4)%nat -> Z.of_nat d <> _currentDigit (dev w') ->
        pin_level (io_log (mcu w')) (dig d) = Some false)
  /\ (isInitialized w' = true ->
      forall delayMs,
      exists p rest,
        io_log (mcu (testWiring delayMs w')) = io_log (mcu w') ++ p ++ rest
        /\ forall d : nat,
             (d < 4)%nat ->
             pin_level (io_log (mcu w') ++ p) (dig d) = Some true).
Proof.
  intros Hs Hd Hc Hok w'. subst w'.
  assert (H0 : scanning seg dig (snd (begin w))).
  { destruct (begin_ok_state w Hok) as (Hdev & _).
    unfold scanning. rewrite Hdev.
    cbn [with_lastError with_isrActive _segmentPins _digitPins _currentDigit].
    split; [exact Hs|]. split; [exact Hd|]. split; [exact Hc|].
    intros d Hlt _.
    rewrite (begin_ok_log w seg dig Hok Hs Hd), pin_level_app.
    apply drive_low_sets; [apply begin_writes_low|].
    apply in_or_app. left. apply In_begin_writes.
    apply in_or_app. right. apply in_map, in_seq. lia. }
  destruct (scanning_run l _ H0) as (Hs' & Hd' & Hc' & Hoff).
  split; [exact Hc'|]. split; [exact Hoff|].
  intros Hinit delayMs.
  exists ([EvCli] ++ map (fun q => EvDigitalWrite q true) (map dig (seq 0 4))).
  eexists. split.
  - rewrite (testWiring_log _ seg dig delayMs Hinit Hs' Hd').
    unfold testWiring_events. rewrite <- (app_assoc [EvCli]). reflexivity.
  - intros d Hlt. rewrite pin_level_app. cbn [seq map app fold_left drive].
    destruct d as [|[|[|[|d]]]]; [| | | |lia];
      rewrite ?Z.eqb_refl; repeat (destruct (_ =? _)); reflexivity.
Qed.

End Scanning.

Lemma digits_off_between_calls_witness :
  let w' :=
    run [Tick; Call (Render (SetNumber 1234 (-1))); Tick; Tick] running in
  pin_level (io_log (mcu w')) 10 = Some false.
Proof.
  assert (W : NoDup (wired_pins (fun i => nth i [2; 3; 4; 5; 6; 7; 8; 9] 0)
                       (fun i => nth i [10; 11; 12; 13] 0))).
  { apply (bool_decide_unpack _). vm_compute. reflexivity. }
  destruct (digits_off_between_calls _ _ W sketch
              [Tick; Call (Render (SetNumber 1234 (-1))); Tick; Tick])
    as (_ & H & _); [reflexivity | reflexivity | vm_compute; split; discriminate
                    | reflexivity |].
  apply (H 0%nat); [lia | vm_compute; discriminate].
Defined.



(** X15 ([startBlink], [refresh]): the blink toggles by elapsed time, also
    across the 32-bit roll-over of [millis()]: polled [elapsed] ms after
    [startBlink], the display is untouched before the interval is over and
    dark from then on, and a second poll at the same instant does
    nothing. *)
Theorem refresh_wraparound w interval t0 elapsed :
  0 <= t0 < 2 ^ 32 -> 0 <= elapsed < 2 ^ 32 ->
  let now := (t0 + elapsed) mod 2 ^ 32 in
  let w' := refresh now (startBlink interval t0 w) in
  (elapsed < interval -> w' = startBlink interval t0 w)
  /\ (interval <= elapsed ->
      w' = on_dev (with_blink true false interval now) w
      /\ dark w' = true)
  /\ (0 < interval -> refresh now w' = w').
Proof.
  intros Ht He now w'.
  assert (E : (now - t0) mod 2 ^ 32 = elapsed).
  { subst now. rewrite Zminus_mod_idemp_l.
    replace (t0 + elapsed - t0) with elapsed by lia.
    apply Z.mod_small. lia. }
  assert (Hfar : interval <= elapsed ->
                 w' = on_dev (with_blink true false interval now) w).
  { intros H. subst w'. unfold refresh, startBlink.
    cbn [on_dev dev with_blink _blinkEnabled _blinkLastToggle _blinkInterval
         _blinkStateOn].
    rewrite E. destruct (Z.geb_spec elapsed interval); [|lia].
    destruct w as [[] m]. reflexivity. }
  assert (Hnear : elapsed < interval -> w' = startBlink interval t0 w).
  { intros H. subst w'. unfold refresh, startBlink.
    cbn [on_dev dev with_blink _blinkEnabled _blinkLastToggle _blinkInterval
         _blinkStateOn].
    rewrite E. destruct (Z.geb_spec elapsed interval); [lia|]. reflexivity. }
  split; [exact Hnear|]. split.
  - intros H. split; [exact (Hfar H)|]. rewrite (Hfar H). reflexivity.
  - intros Hpos. destruct (Z.lt_ge_cases elapsed interval) as [H|H].
    + rewrite (Hnear H). fold w'. exact (Hnear H).
    + rewrite (Hfar H). unfold refresh.
      cbn [on_dev dev with_blink _blinkEnabled _blinkLastToggle _blinkInterval
           _blinkStateOn].
      rewrite Z.sub_diag. change (0 mod 2 ^ 32) with 0.
      destruct (Z.geb_spec 0 interval); [lia|]. reflexivity.
Qed.

Lemma refresh_wraparound_witness :
  dark (refresh 400 (startBlink 500 4294967196 running)) = true.
Proof.
  pose proof (refresh_wraparound running 500 4294967196 500) as H.
  cbv zeta in H. destruct H as (_ & A & _); [lia | lia |].
  apply A. lia.
Defined.

Lemma forget_store_all ps w :
  store_all ps (forget_interval w) = forget_interval (store_all ps w).
Proof. destruct w as [[] m]. reflexivity. Qed.

Lemma forget_setNumber value dp w :
  setNumber value dp (forget_interval w) = forget_interval (setNumber value dp w).
Proof. rewrite !setNumber_store_all. apply forget_store_all. Qed.

Lemma forget_setText t w :
  snd (setText t (forget_interval w)) = forget_interval (snd (setText t w)).
Proof.
  destruct t as [t|]; [|reflexivity]. rewrite !setText_unfold. cbv zeta.
  case_ifs; [reflexivity|]. cbn [snd]. apply forget_store_all.
Qed.

Lemma forget_lastError e w :
  on_dev (with_lastError e) (forget_interval w)
  = forget_interval (on_dev (with_lastError e) w).
Proof. destruct w as [[] m]. reflexivity. Qed.

Lemma forget_store_one i v w :
  sei (store_pattern i v (cli (forget_interval w)))
  = forget_interval (sei (store_pattern i v (cli w))).
Proof. destruct w as [[] m]. reflexivity. Qed.

Lemma forget_render r w :
  render r (forget_interval w) = forget_interval (render r w).
Proof.
  destruct r; cbn [render].
  - apply forget_setNumber.
  - unfold setFloat.
    case_ifs; cbn [snd];
      rewrite ?forget_setText, ?forget_setNumber, ?forget_store_one,
        ?forget_lastError; reflexivity.
  - apply forget_setText.
  - unfold setHundredths. apply forget_setNumber.
  - destruct patterns; [|reflexivity]. destruct w as [[] m]. reflexivity.
Qed.

Lemma forget_multiplex w :
  multiplex (forget_interval w) = forget_interval (multiplex w).
Proof.
  rewrite !multiplex_closed. destruct w as [[] m]. reflexivity.
Qed.

Lemma AVR_ext m1 m2 :
  TCCR1A m1 = TCCR1A m2 -> TCCR1B m1 = TCCR1B m2 -> TCNT1 m1 = TCNT1 m2 ->
  OCR1A m1 = OCR1A m2 -> TIMSK1 m1 = TIMSK1 m2 -> SREG_I m1 = SREG_I m2 ->
  io_log m1 = io_log m2 -> m1 = m2.
Proof. destruct m1, m2. cbn. intros. subst. reflexivity. Qed.

Lemma World_ext w1 w2 : dev w1 = dev w2 -> mcu w1 = mcu w2 -> w1 = w2.
Proof. destruct w1, w2. cbn. intros. subst. reflexivity. Qed.

Lemma begin_result_forget w :
  fst (begin (forget_interval w)) = fst (begin w).
Proof.
  unfold begin.
  change (_segmentPins (dev (forget_interval w))) with (_segmentPins (dev w)).
  change (_digitPins (dev (forget_interval w))) with (_digitPins (dev w)).
  destruct (_segmentPins (dev w)) as [seg|]; [|reflexivity].
  destruct (_digitPins (dev w)) as [dig|]; [|reflexivity].
  destruct (negb _); [reflexivity|]. destruct (negb _); cbn [fst]; reflexivity.
Qed.

Lemma begin_failure_world w :
  fst (begin w) <> OK ->
  snd (begin w) = on_dev (with_lastError (fst (begin w))) w.
Proof.
  unfold begin.
  destruct (_segmentPins (dev w)) as [seg|]; [|reflexivity].
  destruct (_digitPins (dev w)) as [dig|]; [|reflexivity].
  destruct (negb _); [reflexivity|]. destruct (negb _); [reflexivity|].
  intros H. exfalso. apply H. reflexivity.
Qed.

Lemma forget_begin w :
  snd (begin (forget_interval w)) = forget_interval (snd (begin w)).
Proof.
  destruct (fst (begin w)) eqn:E.
  - assert (E' : fst (begin (forget_interval w)) = OK)
      by (rewrite begin_result_forget; exact E).
    destruct (begin_ok_inv w E) as (seg & dig & Hs & Hd & _).
    destruct (begin_ok_state w E) as (D & A1 & A2 & A3 & A4 & A5 & A6).
    destruct (begin_ok_state _ E') as (D' & B1 & B2 & B3 & B4 & B5 & B6).
    apply World_ext.
    + rewrite D'. unfold forget_interval. cbn [on_dev dev]. rewrite D.
      destruct w as [[] m]. reflexivity.
    + unfold forget_interval at 2. cbn [on_dev mcu].
      apply AVR_ext.
      * rewrite A1, B1. reflexivity.
      * rewrite A2, B2. reflexivity.
      * rewrite A3, B3. reflexivity.
      * rewrite A4, B4. reflexivity.
      * rewrite A5, B5. reflexivity.
      * rewrite A6, B6. reflexivity.
      * rewrite (begin_ok_log _ seg dig E' Hs Hd),
          (begin_ok_log w seg dig E Hs Hd). reflexivity.
  - rewrite !begin_failure_world
      by (rewrite ?begin_result_forget, E; discriminate).
    rewrite begin_result_forget. destruct w as [[] m]. reflexivity.
  - rewrite !begin_failure_world
      by (rewrite ?begin_result_forget, E; discriminate).
    rewrite begin_result_forget. destruct w as [[] m]. reflexivity.
  - rewrite !begin_failure_world
      by (rewrite ?begin_result_forget, E; discriminate).
    rewrite begin_result_forget. destruct w as [[] m]. reflexivity.
  - rewrite !begin_failure_world
      by (rewrite ?begin_result_forget, E; discriminate).
    rewrite begin_result_forget. destruct w as [[] m]. reflexivity.
  - rewrite !begin_failure_world
      by (rewrite ?begin_result_forget, E; discriminate).
    rewrite begin_result_forget. destruct w as [[] m]. reflexivity.
Qed.

Lemma testWiring_log_any w delayMs :
  _isrActive (dev w) = true ->
  io_log (mcu (testWiring delayMs w))
  = io_log (mcu w)
    ++ testWiring_events
         (fun i => pgm_pin (_segmentPins (dev w)) (Z.of_nat i))
         (fun i => pgm_pin (_digitPins (dev w)) (Z.of_nat i)) delayMs.
Proof.
  intros Ha. unfold testWiring. rewrite Ha. cbv iota.
  change (Z.to_nat NUM_SEGMENTS) with 8%nat.
  change (Z.to_nat NUM_DIGITS) with 4%nat.
  destruct w as [s m]. cbn. rewrite <- !app_assoc. reflexivity.
Qed.

Lemma testWiring_TCNT1 w delayMs :
  TCNT1 (mcu (testWiring delayMs w)) = TCNT1 (mcu w).
Proof.
  unfold testWiring. destruct (negb _); [reflexivity|].
  change (Z.to_nat NUM_SEGMENTS) with 8%nat.
  change (Z.to_nat NUM_DIGITS) with 4%nat.
  destruct w as [s m]. cbn. reflexivity.
Qed.

Lemma forget_testWiring delayMs w :
  testWiring delayMs (forget_interval w)
  = forget_interval (testWiring delayMs w).
Proof.
  destruct (_isrActive (dev w)) eqn:Ha.
  - assert (Ha' : _isrActive (dev (forget_interval w)) = true) by exact Ha.
    destruct (testWiring_state w delayMs Ha) as (D & A1 & A2 & A3 & A4 & A5).
    destruct (testWiring_state _ delayMs Ha') as (D' & B1 & B2 & B3 & B4 & B5).
    apply World_ext.
    + rewrite D'. unfold forget_interval. cbn [on_dev dev]. rewrite D.
      reflexivity.
    + unfold forget_interval at 2. cbn [on_dev mcu].
      apply AVR_ext.
      * rewrite A3, B3. reflexivity.
      * rewrite A4, B4. reflexivity.
      * rewrite !testWiring_TCNT1. reflexivity.
      * rewrite A5, B5. reflexivity.
      * rewrite A1, B1. reflexivity.
      * rewrite A2, B2. reflexivity.
      * rewrite (testWiring_log_any _ delayMs Ha'),
          (testWiring_log_any w delayMs Ha). reflexivity.
  - unfold testWiring.
    change (_isrActive (dev (forget_interval w))) with (_isrActive (dev w)).
    rewrite Ha. reflexivity.
Qed.

Lemma forget_idem w : forget_interval (forget_interval w) = forget_interval w.
Proof. destruct w as [[] m]. reflexivity. Qed.

Lemma forget_clear w : clear (forget_interval w) = forget_interval (clear w).
Proof. apply (forget_store_all (fun _ => pgm_read_byte SEGMENT_PATTERNS BLANK_INDEX)). Qed.

Lemma forget_end w : end_ (forget_interval w) = forget_interval (end_ w).
Proof.
  unfold end_. rewrite <- forget_clear. f_equal.
Qed.

Lemma forget_refresh now w :
  refresh now (forget_interval w) = forget_interval (refresh now w).
Proof.
  unfold refresh.
  change (_blinkEnabled (dev (forget_interval w))) with (_blinkEnabled (dev w)).
  change (_blinkLastToggle (dev (forget_interval w)))
    with (_blinkLastToggle (dev w)).
  change (_blinkInterval (dev (forget_interval w)))
    with (_blinkInterval (dev w)).
  change (_blinkStateOn (dev (forget_interval w))) with (_blinkStateOn (dev w)).
  destruct (_blinkEnabled (dev w)); [|reflexivity].
  destruct (_ >=? _); [|reflexivity].
  destruct w as [[] m]. reflexivity.
Qed.

Lemma forget_run_call c w :
  forget_interval (run_call c (forget_interval w))
  = forget_interval (run_call c w).
Proof.
  destruct c; cbn [run_call].
  - rewrite forget_begin. apply forget_idem.
  - rewrite forget_end. apply forget_idem.
  - rewrite forget_refresh. apply forget_idem.
  - rewrite forget_clear. apply forget_idem.
  - rewrite forget_testWiring. apply forget_idem.
  - rewrite forget_render. apply forget_idem.
  - destruct w as [[] m]. reflexivity.
  - unfold setRefreshInterval. destruct w as [[] m]. reflexivity.
  - destruct w as [[] m]. reflexivity.
  - destruct w as [[] m]. reflexivity.
Qed.

Lemma forget_run l : forall w,
  forget_interval (run l (forget_interval w)) = forget_interval (run l w).
Proof.
  induction l as [|a l IH]; intros w; cbn [run fold_left].
  - destruct w as [[] m]. reflexivity.
  - fold (run l (run_activity a (forget_interval w))).
    fold (run l (run_activity a w)).
    rewrite <- (IH (run_activity a (forget_interval w))).
    rewrite <- (IH (run_activity a w)). f_equal. f_equal.
    destruct a as [|c]; cbn [run_activity].
    + rewrite forget_multiplex. destruct (multiplex w) as [[] m]. reflexivity.
    + apply forget_run_call.
Qed.

(** X16 ([setRefreshInterval]): the stored interval is read by nothing:
    with or without the call, any later run of calls and ticks ends with
    the same registers and pin writes, patterns, cursor and error code. *)
Theorem setRefreshInterval_inert ms l w :
  let w1 := run l (setRefreshInterval ms w) in
  let w2 := run l w in
  mcu w1 = mcu w2
  /\ display w1 = display w2
  /\ _currentDigit (dev w1) = _currentDigit (dev w2)
  /\ getLastError w1 = getLastError w2.
Proof.
  intros w1 w2.
  assert (E : forget_interval w1 = forget_interval w2).
  { subst w1 w2. rewrite <- (forget_run l (setRefreshInterval ms w)).
    rewrite <- (forget_run l w).
    replace (forget_interval (setRefreshInterval ms w)) with (forget_interval w);
      [reflexivity|].
    unfold setRefreshInterval. destruct w as [[] m]. reflexivity. }
  change (mcu (forget_interval w1) = mcu (forget_interval w2)
          /\ display (forget_interval w1) = display (forget_interval w2)
          /\ _currentDigit (dev (forget_interval w1))
             = _currentDigit (dev (forget_interval w2))
          /\ getLastError (forget_interval w1) = getLastError (forget_interval w2)).
  rewrite E. repeat split; reflexivity.
Qed.

(** ** Renderers and settings, continued *)

(** X23 ([setFloat]): a finite value is never refused: the call returns
    [OK] and stores it, however large the value; only a NaN or an
    infinity gives an error, and no other code is ever returned. *)
Theorem setFloat_finite_ok value w :
  (F32.is_finite value = true ->
   fst (setFloat value w) = OK /\ getLastError (snd (setFloat value w)) = OK)
  /\ (fst (setFloat value w) = OK \/ fst (setFloat value w) = INVALID_ARGUMENT).
Proof.
  unfold setFloat, getLastError. split.
  - intros H.
    replace (F32.isnan value || F32.isinf value) with false
      by (destruct value; try reflexivity; discriminate H).
    case_ifs; split; reflexivity.
  - case_ifs; auto.
Qed.

Lemma setFloat_finite_ok_witness :
  fst (setFloat (F32.of_Z 123456) sketch) = OK.
Proof. apply (setFloat_finite_ok (F32.of_Z 123456) sketch). reflexivity. Defined.

(** X24 ([setSegments]): the four bytes are stored as they are, and only
    the first four entries of the array are read. *)
Theorem setSegments_reads_four p q w :
  (forall i : nat, (i < 4)%nat -> p i = q i) ->
  setSegments (Some p) w = setSegments (Some q) w
  /\ (wf w ->
      display (setSegments (Some p) w) = [p 0%nat; p 1%nat; p 2%nat; p 3%nat])
  /\ getLastError (setSegments (Some p) w) = getLastError w.
Proof.
  intros H. unfold setSegments. change (Z.to_nat NUM_DIGITS) with 4%nat.
  unfold for_up. cbn [seq fold_left]. rewrite !H by lia.
  split; [reflexivity|]. split.
  - intros Hwf. four_slots w Hwf. reflexivity.
  - destruct w as [[] m]. reflexivity.
Qed.

Lemma setSegments_reads_four_witness :
  display (setSegments (Some (fun i => nth i [1; 2; 4; 8; 16] 0)) sketch)
  = [1; 2; 4; 8].
Proof.
  apply (setSegments_reads_four (fun i => nth i [1; 2; 4; 8; 16] 0)
           (fun i => nth i [1; 2; 4; 8] 0) sketch).
  - intros [|[|[|[|i]]]] H; try reflexivity. lia.
  - reflexivity.
Defined.

(** X25 ([setLeadingZeros]): the call redraws nothing, and what it
    stores matters to numbers only: text and raw segments come out the
    same whichever way it was set. *)
Theorem setLeadingZeros_deferred enabled w :
  display (setLeadingZeros enabled w) = display w
  /\ mcu (setLeadingZeros enabled w) = mcu w
  /\ (forall text,
        display (snd (setText text (setLeadingZeros enabled w)))
        = display (snd (setText text w)))
  /\ (forall patterns,
        display (setSegments patterns (setLeadingZeros enabled w))
        = display (setSegments patterns w)).
Proof.
  split; [reflexivity|]. split; [reflexivity|]. split.
  - intros text. unfold setText. destruct text as [text|]; [|reflexivity].
    case_ifs; [reflexivity|]. destruct w as [[] m]. reflexivity.
  - intros [p|]; [|reflexivity]. destruct w as [[] m]. reflexivity.
Qed.

(** ** The sketch's mode functions *)

Lemma mode_code_range m : 0 <= Sketch.mode_code m <= 3.
Proof. destruct m; cbn; lia. Qed.

Lemma mode_of_code_code m : Sketch.mode_of_code (Sketch.mode_code m) = m.
Proof. destruct m; reflexivity. Qed.

(** X17 ([switchMode]): the mode advances by one modulo four, its number
    is printed, the display is not touched, and four switches come back to
    the mode they started from. *)
Theorem switchMode_cycles now s :
  let s' := Sketch.switchMode now s in
  Sketch.mode_code (Sketch.currentMode s') =
    (Sketch.mode_code (Sketch.currentMode s) + 1) mod 4
  /\ Sketch.modeStartTime s' = now
  /\ Sketch.board s' = Sketch.board s
  /\ Sketch.serial s' =
     Sketch.serial s ++ [Sketch.Print "Mode switched to: ";
                         Sketch.PrintlnByte (Sketch.mode_code (Sketch.currentMode s'))]
  /\ forall t1 t2 t3,
       Sketch.currentMode
         (Sketch.switchMode t3 (Sketch.switchMode t2 (Sketch.switchMode t1 s')))
       = Sketch.currentMode s.
Proof.
  destruct s as [b o m]. destruct m; cbn.
  all: rewrite <- app_assoc; repeat split; reflexivity.
Qed.

Lemma setHundredths_in_range h dp w :
  h <= 9999 -> -1 <= dp <= 3 -> setHundredths h dp w = setNumber h dp w.
Proof.
  intros Hh Hd. unfold setHundredths.
  destruct (Z.gtb_spec h 9999); [lia|].
  destruct (Z.ltb_spec dp (-1)); [lia|].
  destruct (Z.gtb_spec dp 3); [lia|].
  reflexivity.
Qed.

(** X18 ([runFixedPointMode]): the counter stays within 0..9999, so
    [setHundredths] never clamps it: a call that is due adds 10, wraps to 0
    past 9999 and shows the new value with the point at slot 2; a call that
    is not due changes nothing. *)
Theorem runFixedPointMode_counter now s :
  0 <= Sketch.hundredths s <= 9999 ->
  let s' := Sketch.runFixedPointMode now s in
  0 <= Sketch.hundredths s' <= 9999
  /\ (Sketch.due now (Sketch.fpUpdateTime s) 50 = false -> s' = s)
  /\ (Sketch.due now (Sketch.fpUpdateTime s) 50 = true ->
      Sketch.hundredths s' =
        (if Sketch.hundredths s + 10 >? 9999 then 0 else Sketch.hundredths s + 10)
      /\ Sketch.fpUpdateTime s' = now
      /\ Sketch.board s' = setNumber (Sketch.hundredths s') 2 (Sketch.board s)).
Proof.
  intros H. unfold Sketch.runFixedPointMode.
  rewrite (Z.mod_small (Sketch.hundredths s + 10)) by lia.
  destruct (Sketch.due now (Sketch.fpUpdateTime s) 50).
  - cbn [Sketch.hundredths Sketch.fpUpdateTime Sketch.board
           Sketch.on_board Sketch.with_fixed].
    assert (R : 0 <= (if Sketch.hundredths s + 10 >? 9999 then 0
                      else Sketch.hundredths s + 10) <= 9999).
    { destruct (Z.gtb_spec (Sketch.hundredths s + 10) 9999); lia. }
    split; [exact R|]. split; [discriminate|]. intros _.
    split; [reflexivity|]. split; [reflexivity|].
    apply setHundredths_in_range; lia.
  - split; [exact H|]. split; [reflexivity|discriminate].
Qed.

Lemma runFixedPointMode_counter_witness :
  Sketch.hundredths (Sketch.runFixedPointMode 50 (Sketch.initial running)) = 10.
Proof.
  pose proof (runFixedPointMode_counter 50 (Sketch.initial running)) as H.
  cbv zeta in H. destruct H as (_ & _ & A); [vm_compute; split; discriminate|].
  destruct (A eq_refl) as [B _]. exact B.
Defined.

(** X19 ([runTextMode]): a call that is due shows the word at the index,
    every character of which has a glyph, prints it, and moves the index
    on cyclically within 0..3; the stored error code is untouched. *)
Theorem runTextMode_rotates now s :
  wf (Sketch.board s) ->
  0 <= Sketch.textIndex s < 4 ->
  Sketch.due now (Sketch.textSwitchTime s) 3000 = true ->
  let s' := Sketch.runTextMode now s in
  let text := nth (Z.to_nat (Sketch.textIndex s)) Sketch.texts EmptyString in
  Sketch.textIndex s' = (Sketch.textIndex s + 1) mod 4
  /\ 0 <= Sketch.textIndex s' < 4
  /\ Sketch.textSwitchTime s' = now
  /\ display (Sketch.board s') = map getPattern (list_ascii_of_string text)
  /\ Forall (fun p => p <> 0) (display (Sketch.board s'))
  /\ getLastError (Sketch.board s') = getLastError (Sketch.board s)
  /\ Sketch.serial s' = Sketch.serial s ++ [Sketch.Print "Text: "; Sketch.Println text].
Proof.
  intros Hwf Hi Hdue. unfold Sketch.runTextMode. rewrite Hdue.
  cbn [Sketch.textIndex Sketch.textSwitchTime Sketch.board Sketch.serial
       Sketch.on_board Sketch.with_text Sketch.say].
  rewrite <- app_assoc. cbn [app].
  assert (Hm : 0 <= (Sketch.textIndex s + 1) mod 4 < 4) by (apply Z.mod_pos_bound; lia).
  split; [reflexivity|]. split; [exact Hm|]. split; [reflexivity|].
  assert (C : Sketch.textIndex s = 0 \/ Sketch.textIndex s = 1
              \/ Sketch.textIndex s = 2 \/ Sketch.textIndex s = 3) by lia.
  destruct C as [E|[E|[E|E]]]; rewrite E; cbn [Z.to_nat Pos.to_nat Pos.iter_op
    Nat.add nth Sketch.texts];
    rewrite setText_store_all by (apply Nat.leb_le; reflexivity); cbn [snd];
    rewrite display_store_all by assumption;
    (split; [reflexivity|]);
    (split; [repeat constructor; vm_compute; discriminate|]);
    (split; [|reflexivity]);
    unfold getLastError, store_all, sei, cli, store_pattern, emit, on_mcu, on_dev;
    destruct (Sketch.board s) as [d m]; reflexivity.
Qed.

Lemma runTextMode_rotates_witness :
  display (Sketch.board (Sketch.runTextMode 3000 (Sketch.initial running)))
  = map getPattern ["S"; "S"; "F"; "D"]%char.
Proof.
  pose proof (runTextMode_rotates 3000 (Sketch.initial running)) as H.
  cbv zeta in H.
  destruct H as (_ & _ & _ & A & _);
    [reflexivity | cbn [Sketch.textIndex Sketch.initial]; lia | reflexivity |].
  exact A.
Defined.

Ltac demo_eval :=
  cbn [Sketch.step Sketch.with_demo Sketch.say Sketch.on_board Sketch.board
       Sketch.serial Sketch.demoStepTime Z.eqb Pos.eqb].

Lemma demo_step_facts now b s :
  0 <= Sketch.step s <= 7 ->
  Sketch.due now (Sketch.demoStepTime s) Sketch.DEMO_STEP_INTERVAL = true ->
  let s' := Sketch.runDemoMode now b s in
  Sketch.step s' = (Sketch.step s + 1) mod 8
  /\ Sketch.demoStepTime s' = now
  /\ length (Sketch.serial s') = S (length (Sketch.serial s))
  /\ (wf (Sketch.board s) -> wf (Sketch.board s'))
  /\ (Sketch.step s = 6 -> wf (Sketch.board s) ->
      display (Sketch.board s') = map getPattern (pad4 "END")
      /\ isBlinking (Sketch.board s') = false)
  /\ (Sketch.step s = 7 -> Sketch.board s' = Sketch.board s).
Proof.
  intros Hs Hdue. unfold Sketch.runDemoMode. rewrite Hdue.
  destruct s as [w o m mt dt fc lc st tt ti ft h].
  cbn [Sketch.step Sketch.board Sketch.serial] in *.
  assert (C : st = 0 \/ st = 1 \/ st = 2 \/ st = 3 \/ st = 4 \/ st = 5
              \/ st = 6 \/ st = 7) by lia.
  destruct C as [E|[E|[E|[E|[E|[E|[E|E]]]]]]]; subst st; demo_eval;
    rewrite ?length_app, ?Nat.add_1_r;
    (split; [reflexivity|]); (split; [reflexivity|]); (split; [reflexivity|]).
  - split; [apply (wf_render (SetNumber 1234 (-1)))|]. split; intros; lia.
  - split; [apply (wf_render (SetFloat Sketch.f_56_78))|]. split; intros; lia.
  - split; [apply (wf_render (SetText (Some "HELP"%string)))|]. split; intros; lia.
  - split; [apply (wf_render (SetText (Some "GOOD"%string)))|]. split; intros; lia.
  - split; [apply (wf_render (SetNumber 5678 0))|]. split; intros; lia.
  - split; [intros H; exact H|]. split; intros; lia.
  - split; [intros H; apply (wf_render (SetText (Some "END"%string))); exact H|].
    split; [|intros; lia]. intros _ Hwf.
    rewrite setText_store_all by (apply Nat.leb_le; reflexivity). cbn [snd].
    split.
    + rewrite display_store_all by exact Hwf. reflexivity.
    + destruct w as [d a]. reflexivity.
  - split; [intros H; exact H|]. split; [intros; lia|reflexivity].
Qed.

(** X20 ([runDemoMode]): the step counter stays within 0..7.  A call
    that is due prints one line and moves to the next step, step 7 going
    back to 0 through the 8-bit wrap of 255 + 1 without touching the
    display; a call that is not due changes nothing. *)
Theorem runDemoMode_step now blinkMillis s :
  0 <= Sketch.step s <= 7 ->
  let s' := Sketch.runDemoMode now blinkMillis s in
  0 <= Sketch.step s' <= 7
  /\ (Sketch.due now (Sketch.demoStepTime s) Sketch.DEMO_STEP_INTERVAL = false ->
      s' = s)
  /\ (Sketch.due now (Sketch.demoStepTime s) Sketch.DEMO_STEP_INTERVAL = true ->
      Sketch.step s' = (Sketch.step s + 1) mod 8
      /\ Sketch.demoStepTime s' = now
      /\ length (Sketch.serial s') = S (length (Sketch.serial s))
      /\ (Sketch.step s = 7 -> Sketch.board s' = Sketch.board s)).
Proof.
  intros Hs.
  destruct (Sketch.due now (Sketch.demoStepTime s) Sketch.DEMO_STEP_INTERVAL) eqn:Hdue.
  - destruct (demo_step_facts now blinkMillis s Hs Hdue) as (A & B & C & _ & _ & F).
    cbv zeta. split; [|split; [discriminate|]].
    + rewrite A. pose proof (Z.mod_pos_bound (Sketch.step s + 1) 8). lia.
    + intros _. auto.
  - cbv zeta. unfold Sketch.runDemoMode. rewrite Hdue.
    split; [exact Hs|]. split; [reflexivity|discriminate].
Qed.

Lemma runDemoMode_step_witness :
  Sketch.step (Sketch.runDemoMode 2000 0 (Sketch.initial running)) = 1.
Proof.
  pose proof (runDemoMode_step 2000 0 (Sketch.initial running)) as H.
  cbv zeta in H. destruct H as (_ & _ & A); [vm_compute; split; discriminate|].
  destruct (A eq_refl) as [B _]. exact B.
Defined.

Ltac demo_next p s :=
  let A := fresh "A" in let B := fresh "B" in let C := fresh "C" in
  let D := fresh "D" in let E := fresh "E" in let F := fresh "F" in
  destruct (demo_step_facts (fst p) (snd p) s) as (A & B & C & D & E & F);
  [lia | congruence |].

(** X21 ([runDemoMode]): eight due calls from step 0 make one round of the
    demo: eight lines are printed, the step is 0 again, the display reads
    [END] and the blink started in step 5 is off. *)
Theorem runDemoMode_cycle nows s :
  wf (Sketch.board s) ->
  Sketch.step s = 0 ->
  length nows = 8%nat ->
  Sketch.all_due (Sketch.demoStepTime s) nows = true ->
  let s' := Sketch.demo_run nows s in
  Sketch.step s' = 0
  /\ length (Sketch.serial s') = (length (Sketch.serial s) + 8)%nat
  /\ display (Sketch.board s') = map getPattern (pad4 "END")
  /\ isBlinking (Sketch.board s') = false.
Proof.
  intros Hwf Hs Hlen Hdue.
  destruct nows as [|p1 [|p2 [|p3 [|p4 [|p5 [|p6 [|p7 [|p8 [|]]]]]]]]];
    try discriminate Hlen. clear Hlen.
  cbn [Sketch.all_due] in Hdue.
  repeat (apply andb_prop in Hdue; destruct Hdue as [? Hdue]).
  cbn [Sketch.demo_run fold_left].
  demo_next p1 s.
  rewrite Hs in A. change ((0 + 1) mod 8) with 1 in A.
  set (s1 := Sketch.runDemoMode (fst p1) (snd p1) s) in *.
  demo_next p2 s1.
  rewrite A in A0. change ((1 + 1) mod 8) with 2 in A0.
  set (s2 := Sketch.runDemoMode (fst p2) (snd p2) s1) in *.
  demo_next p3 s2.
  rewrite A0 in A1. change ((2 + 1) mod 8) with 3 in A1.
  set (s3 := Sketch.runDemoMode (fst p3) (snd p3) s2) in *.
  demo_next p4 s3.
  rewrite A1 in A2. change ((3 + 1) mod 8) with 4 in A2.
  set (s4 := Sketch.runDemoMode (fst p4) (snd p4) s3) in *.
  demo_next p5 s4.
  rewrite A2 in A3. change ((4 + 1) mod 8) with 5 in A3.
  set (s5 := Sketch.runDemoMode (fst p5) (snd p5) s4) in *.
  demo_next p6 s5.
  rewrite A3 in A4. change ((5 + 1) mod 8) with 6 in A4.
  set (s6 := Sketch.runDemoMode (fst p6) (snd p6) s5) in *.
  demo_next p7 s6.
  rewrite A4 in A5. change ((6 + 1) mod 8) with 7 in A5.
  set (s7 := Sketch.runDemoMode (fst p7) (snd p7) s6) in *.
  demo_next p8 s7.
  rewrite A5 in A6. change ((7 + 1) mod 8) with 0 in A6.
  set (s8 := Sketch.runDemoMode (fst p8) (snd p8) s7) in *.
  split; [exact A6|]. split; [lia|].
  rewrite (F6 A5). apply E5; [exact A4|]. auto 10.
Qed.

Lemma runDemoMode_cycle_witness :
  Sketch.step
    (Sketch.demo_run
       [(2000, 2000); (4000, 4000); (6000, 6000); (8000, 8000);
        (10000, 10000); (12000, 12001); (14000, 14000); (16000, 16000)]
       (Sketch.initial running)) = 0.
Proof.
  apply (runDemoMode_cycle
           [(2000, 2000); (4000, 4000); (6000, 6000); (8000, 8000);
            (10000, 10000); (12000, 12001); (14000, 14000); (16000, 16000)]
           (Sketch.initial running)); reflexivity.
Defined.

Lemma buffer_only_shape k : renderer_shape k -> buffer_only k = true.
Proof. intros [->|[[ps ->]|(ps & v & ->)]]; reflexivity. Qed.

Lemma buffer_only_render r w :
  exists k, buffer_only k = true
            /\ io_log (mcu (render r w)) = io_log (mcu w) ++ k.
Proof.
  destruct (render_effects r w) as (k & Hk & H).
  destruct (H w eq_refl) as [Hm _].
  exists k. split; [apply buffer_only_shape, Hk|].
  rewrite Hm. apply io_log_exec_all.
Qed.

Lemma mcu_refresh now w : mcu (refresh now w) = mcu w.
Proof.
  unfold refresh. destruct (_blinkEnabled (dev w)); [|reflexivity].
  destruct (_ >=? _); reflexivity.
Qed.

Lemma buffer_only_nothing (w w' : World) :
  mcu w' = mcu w ->
  exists k, buffer_only k = true /\ io_log (mcu w') = io_log (mcu w) ++ k.
Proof.
  intros ->. exists []. split; [reflexivity|]. symmetry. apply app_nil_r.
Qed.

(** X22 ([loop] and the four mode functions): one pass of [loop], in any
    mode and state, only stores patterns inside critical sections: it
    writes no pin, configures none and never waits. *)
Theorem loop_only_stores now blinkMillis refreshMillis s :
  exists k,
    buffer_only k = true
    /\ io_log (mcu (Sketch.board (Sketch.loop now blinkMillis refreshMillis s)))
       = io_log (mcu (Sketch.board s)) ++ k.
Proof.
  unfold Sketch.loop. cbn [Sketch.on_board Sketch.board]. rewrite mcu_refresh.
  destruct s as [w o m mt dt fc lc st tt ti ft h].
  destruct m; cbn [Sketch.currentMode].
  - unfold Sketch.runCounterMode. destruct (Sketch.due _ _ _).
    + cbn [Sketch.on_board Sketch.with_counter Sketch.board].
      apply (buffer_only_render (SetFloat _)).
    + apply buffer_only_nothing; reflexivity.
  - unfold Sketch.runTextMode. destruct (Sketch.due _ _ _).
    + cbn [Sketch.on_board Sketch.with_text Sketch.say Sketch.board].
      apply (buffer_only_render (SetText _)).
    + apply buffer_only_nothing; reflexivity.
  - unfold Sketch.runFixedPointMode. destruct (Sketch.due _ _ _).
    + cbn [Sketch.on_board Sketch.with_fixed Sketch.board].
      apply (buffer_only_render (SetHundredths _ _)).
    + apply buffer_only_nothing; reflexivity.
  - unfold Sketch.runDemoMode. destruct (Sketch.due _ _ _).
    + cbn [Sketch.step Sketch.with_demo].
      repeat (destruct (st =? _));
        cbn [Sketch.step Sketch.with_demo Sketch.say Sketch.on_board Sketch.board
             Sketch.serial Sketch.demoStepTime].
      * apply (buffer_only_render (SetNumber _ _)).
      * apply (buffer_only_render (SetFloat _)).
      * apply (buffer_only_render (SetText _)).
      * apply (buffer_only_render (SetText _)).
      * apply (buffer_only_render (SetNumber _ _)).
      * apply buffer_only_nothing; reflexivity.
      * apply (buffer_only_render (SetText _) (stopBlink w)).
      * apply buffer_only_nothing; reflexivity.
      * apply buffer_only_nothing; reflexivity.
    + apply buffer_only_nothing; reflexivity.
Qed.
